(** * Attendance / deduction engine of the Telegram attendance bot (src/4.py)

    A shallow embedding of the bot's state engine: the window policy
    ([current_session], [is_within_window]), the two ledgers
    ([attendance_data], [salary_data]) with the helpers that create records on
    first use, the message handler [handle_message] with its eight actions, and
    the start-up loader [load_json].

    Conventions of the embedding.
    - A Python [dict] is an insertion-ordered association list ([PyDict]):
      the handler iterates over [group_sal.items()] and the order of the
      replies and of the penalties follows that order.
    - Group keys [str(chat.id)] and salary keys [str(uid)] are decimal
      renderings of integers, read back by [int(uid_str)]; the embedding keys
      these dictionaries by the integer itself.
    - The records the code builds always carry all their keys, so a record is
      a Rocq record and [rec.get(k, default)] is the field [k].
    - The handler reads the clock several times.  A turn's [clock] holds
      the date of line 125 ([today]), the time of line 126 ([now], which also
      stands for the reading [current_session()] takes at line 128) and the
      dates that the calls of [today_str()] inside the retraction loop
      (lines 272 and 277, one call per history event and pass) return, in
      call order ([today_again]).  The calls of lines 253 and 257 are taken
      to return the date of line 125.
    - [save_all()] writes the two ledgers to disk and leaves them as they are
      in memory; the handler is modelled on the ledgers in memory, and the
      disk appears only in the models of [load_json] and [save_all]. *)

From Stdlib Require Import ZArith List String Ascii Bool Lia.
Import ListNotations.
Open Scope string_scope.
Open Scope list_scope.
Open Scope Z_scope.

Set Implicit Arguments.

(* ================================================================= *)
(** ** Python dictionaries as insertion-ordered association lists *)

Class Key (K : Type) := {
  keqb : K -> K -> bool;
  keqb_eq : forall a b, keqb a b = true <-> a = b
}.

#[export] Instance Key_Z : Key Z := {| keqb := Z.eqb; keqb_eq := Z.eqb_eq |}.
#[export] Instance Key_string : Key string :=
  {| keqb := String.eqb; keqb_eq := String.eqb_eq |}.

Module PyDict.
Section Dict.
Context {K V : Type} `{Key K}.

Definition dict := list (K * V).

(** [d.get(k)] *)
Fixpoint get (d : dict) (k : K) : option V :=
  match d with
  | [] => None
  | (k', v) :: d' => if keqb k k' then Some v else get d' k
  end.

(** [k in d] *)
Definition contains (d : dict) (k : K) : bool :=
  match get d k with Some _ => true | None => false end.

(** [d[k] = v]: an existing key keeps its position, a new key goes last. *)
Fixpoint set (d : dict) (k : K) (v : V) : dict :=
  match d with
  | [] => [(k, v)]
  | (k', v') :: d' =>
      if keqb k k' then (k', v) :: d' else (k', v') :: set d' k v
  end.

(** [d.setdefault(k, v)]: the dictionary afterwards and the value returned. *)
Definition setdefault (d : dict) (k : K) (v : V) : dict * V :=
  match get d k with
  | Some v' => (d, v')
  | None => (set d k v, v)
  end.

(** [del d[k]] (used by the file-system model of [os.rename]). *)
Definition remove (d : dict) (k : K) : dict :=
  filter (fun kv => negb (keqb k (fst kv))) d.

Definition keys (d : dict) : list K := map fst d.
Definition values (d : dict) : list V := map snd d.

(** [for v in d.values(): v <- f v] (values mutated in place). *)
Definition map_values (f : V -> V) (d : dict) : dict :=
  map (fun kv => (fst kv, f (snd kv))) d.
End Dict.
Arguments dict : clear implicits.
End PyDict.
Import PyDict.

(* ================================================================= *)
(** ** Clock values *)

(** [datetime.time]: Python orders two naive times as the tuples
    [(hour, minute, second, microsecond)]. *)
Record dtime := mk_dtime {
  hour : Z; minute : Z; second : Z; microsecond : Z }.

Definition dtime_hms (h m s : Z) : dtime := mk_dtime h m s 0.

Definition time_compare (a b : dtime) : comparison :=
  match hour a ?= hour b with
  | Eq => match minute a ?= minute b with
          | Eq => match second a ?= second b with
                  | Eq => microsecond a ?= microsecond b
                  | c => c
                  end
          | c => c
          end
  | c => c
  end.

Definition time_ltb (a b : dtime) : bool :=
  match time_compare a b with Lt => true | _ => false end.
Definition time_leb (a b : dtime) : bool :=
  match time_compare a b with Gt => false | _ => true end.

(** The fields of a [datetime.time] are always in range. *)
Definition time_wf (t : dtime) : Prop :=
  0 <= hour t < 24 /\ 0 <= minute t < 60 /\ 0 <= second t < 60
  /\ 0 <= microsecond t < 1000000.

(** Microseconds since midnight. *)
Definition us_of_day (t : dtime) : Z :=
  ((hour t * 60 + minute t) * 60 + second t) * 1000000 + microsecond t.

(** The clock as one turn of the handler reads it: [today_str()] at line 125,
    [datetime.now().time()] at line 126, and [today_again i], the date that
    the [i]-th call of [today_str()] made by the loop of lines 270-278
    returns. *)
Record clock := mk_clock {
  today : string;
  now : dtime;
  today_again : nat -> string }.

(** The later calls of a turn during which the date does not change. *)
Definition same_day (date : string) : nat -> string := fun _ => date.

Definition digit (n : Z) : string :=
  String (ascii_of_nat (48 + Z.to_nat (n mod 10))) EmptyString.
Definition two_digits (n : Z) : string := (digit (n / 10) ++ digit n)%string.

(** [now.strftime("%H:%M:%S")] *)
Definition strftime_HMS (t : dtime) : string :=
  (two_digits (hour t) ++ ":" ++ two_digits (minute t) ++ ":"
   ++ two_digits (second t))%string.

(* ================================================================= *)
(** ** Configuration *)

Definition ADMIN_IDS : list Z :=
  [7958117532; 7432006334; 8382453545; 5752123952; 7435176780; 7938235371;
   6076562401; 8380524265; 1596100597; 7889757304; 6003851152; 6826941532;
   7488322832].

Definition MORNING_START := dtime_hms 10 0 0.
Definition MORNING_END := dtime_hms 10 30 0.
Definition EVENING_START := dtime_hms 16 30 0.
Definition EVENING_END := dtime_hms 17 0 0.
Definition LATE_PENALTY : Z := 50.

(** [uid in ADMIN_IDS] *)
Definition is_admin (uid : Z) : bool := existsb (Z.eqb uid) ADMIN_IDS.

(* ================================================================= *)
(** ** Window policy *)

Inductive session := morning | evening.

Definition session_eqb (a b : session) : bool :=
  match a, b with
  | morning, morning | evening, evening => true
  | _, _ => false
  end.

Definition current_session (t : dtime) : session :=
  if time_ltb t (dtime_hms 13 0 0) then morning else evening.

Definition is_within_window (t : dtime) : bool :=
  if time_leb MORNING_START t && time_leb t MORNING_END then true
  else if time_leb EVENING_START t && time_leb t EVENING_END then true
  else false.

(* ================================================================= *)
(** ** Data model *)

(** An attendance entry, the dictionary built at lines 146-153. *)
Record entry := mk_entry {
  user_id : Z;
  e_username : string;
  e_date : string;
  e_time : string;
  late : bool;
  e_session : session }.

(** [{"morning": [...], "evening": [...]}] *)
Record day_rec := mk_day { d_morning : list entry; d_evening : list entry }.

(** [day_rec[session]] *)
Definition day_get (d : day_rec) (s : session) : list entry :=
  match s with morning => d_morning d | evening => d_evening d end.

(** [day_rec[session].append(entry)] *)
Definition day_append (d : day_rec) (s : session) (e : entry) : day_rec :=
  match s with
  | morning => mk_day (d_morning d ++ [e]) (d_evening d)
  | evening => mk_day (d_morning d) (d_evening d ++ [e])
  end.

(** The two values of the ["reason"] key. *)
Inductive reason := r_late | r_missing.

Definition reason_eqb (a b : reason) : bool :=
  match a, b with
  | r_late, r_late | r_missing, r_missing => true
  | _, _ => false
  end.

(** [{"date": ..., "amount": ..., "reason": ...}] *)
Record event := mk_event { ev_date : string; amount : Z; ev_reason : reason }.

(** [{"username": ..., "deductions": ..., "history": [...]}] *)
Record salary_rec := mk_salary {
  username : string; deductions : Z; history : list event }.

Definition group_attendance := dict string day_rec.
Definition group_salary := dict Z salary_rec.

(** The two process-wide ledgers. *)
Record state := mk_state {
  attendance_data : dict Z group_attendance;
  salary_data : dict Z group_salary }.

Definition empty_state : state := mk_state [] [].

(** [sum(h.get("amount", 0) for h in hs)] *)
Definition sum_amounts (hs : list event) : Z :=
  fold_right (fun h acc => amount h + acc) 0 hs.

(* ================================================================= *)
(** ** Helpers *)

(** Truth value of a Python string. *)
Definition truthy (s : string) : bool :=
  match s with EmptyString => false | String _ _ => true end.

(** [a or b] on strings. *)
Definition str_or (a b : string) : string := if truthy a then a else b.

(** A Telegram user: [id], the optional [username], [first_name]. *)
Record tg_user := mk_user {
  u_id : Z; u_username : option string; u_first_name : string }.

(** [user.username or user.first_name] *)
Definition display_name (u : tg_user) : string :=
  match u_username u with
  | Some n => str_or n (u_first_name u)
  | None => u_first_name u
  end.

Definition ensure_user_salary (group_sal : group_salary) (uid : Z)
    (uname : string) : group_salary :=
  match get group_sal uid with
  | None => set group_sal uid (mk_salary (str_or uname "unknown") 0 [])
  | Some r =>
      if truthy uname && negb (truthy (username r))
      then set group_sal uid (mk_salary uname (deductions r) (history r))
      else group_sal
  end.

(** On the typed ledger the [isinstance] tests of the source hold, so only a
    missing date creates a day. *)
Definition ensure_day_structure (group_att : group_attendance) (date : string)
    : group_attendance :=
  if contains group_att date then group_att
  else set group_att date (mk_day [] []).

(** [group_att[date]] and [group_sal[key]], read after the two [ensure_]
    helpers have run, so the key is present. *)
Definition day_at (group_att : group_attendance) (date : string) : day_rec :=
  match get group_att date with Some d => d | None => mk_day [] [] end.

Definition rec_at (group_sal : group_salary) (uid : Z) : salary_rec :=
  match get group_sal uid with
  | Some r => r
  | None => mk_salary "unknown" 0 []
  end.

(** The two statements that charge a penalty (lines 161-162 and 252-253):
    [rec["deductions"] += LATE_PENALTY] and the history [append]. *)
Definition apply_deduction (r : salary_rec) (date : string) (why : reason)
    : salary_rec :=
  mk_salary (username r) (deductions r + LATE_PENALTY)
            (history r ++ [mk_event date LATE_PENALTY why]).

(** [rec["deductions"] = 0; rec["history"] = []] *)
Definition clear_rec (r : salary_rec) : salary_rec :=
  mk_salary (username r) 0 [].

(** [h.get("date") == today_str() and h.get("reason") == "missing"] *)
Definition is_missing_on (date : string) (h : event) : bool :=
  String.eqb (ev_date h) date && reason_eqb (ev_reason h) r_missing.

(** A comprehension [[h for h in hist if test]] whose test calls
    [today_str()] for every event (lines 272 and 277): [tick i] is what the
    [i]-th call of the loop returns and [k] the number of calls made before
    this pass, so the event at position [i] is tested against
    [tick (k + i)]. *)
Fixpoint select (test : string -> event -> bool) (tick : nat -> string)
    (k : nat) (hist : list event) : list event :=
  match hist with
  | [] => []
  | h :: rest =>
      if test (tick k) h then h :: select test tick (S k) rest
      else select test tick (S k) rest
  end.

(** The loop at lines 269-278: the group's records afterwards and the list
    [cleared].  The pass of line 272 makes one call of [today_str()] per
    event of the history; so does the pass of line 277, which runs only for
    a record with something to remove. *)
Fixpoint retract (tick : nat -> string) (k : nat) (group_sal : group_salary)
    : group_salary * list (string * Z) :=
  match group_sal with
  | [] => ([], [])
  | (uid, r) :: rest =>
      let hist := history r in
      let n := List.length hist in
      let to_remove := select is_missing_on tick k hist in
      match to_remove with
      | [] =>
          let (rest', cleared) := retract tick (k + n) rest in
          ((uid, r) :: rest', cleared)
      | _ :: _ =>
          let amt := sum_amounts to_remove in
          let r' := mk_salary (username r) (Z.max 0 (deductions r - amt))
                      (select (fun d h => negb (is_missing_on d h)) tick
                              (k + n) hist) in
          let (rest', cleared) := retract tick (k + n + n) rest in
          ((uid, r') :: rest', (username r', amt) :: cleared)
      end
  end.

(** [list({...})]: the pairs without repetition.  Python leaves the order of a
    set unspecified; the enumeration here is by first occurrence. *)
Fixpoint set_to_list (l : list (Z * string)) : list (Z * string) :=
  match l with
  | [] => []
  | x :: l' =>
      x :: filter (fun y => negb (Z.eqb (fst x) (fst y)
                                  && String.eqb (snd x) (snd y)))
                  (set_to_list l')
  end.

(** Lines 226-236: the known members. *)
Definition known_members (group_sal : group_salary)
    (group_att : group_attendance) : list (Z * string) :=
  match group_sal with
  | _ :: _ => map (fun kv => (fst kv, username (snd kv))) group_sal
  | [] =>
      set_to_list
        (flat_map (fun dr =>
             map (fun e => (user_id e, e_username e)) (d_morning (snd dr))
             ++ map (fun e => (user_id e, e_username e)) (d_evening (snd dr)))
           group_att)
  end.

(** Lines 242-243. *)
Definition marked_ids (day : day_rec) (s : session) : list Z :=
  map user_id (day_get day s).

Definition missing_members (members : list (Z * string)) (marked : list Z)
    : list (Z * string) :=
  filter (fun m => negb (existsb (Z.eqb (fst m)) marked)
                   && negb (is_admin (fst m))) members.

(** Lines 250-253: the penalty loop. *)
Definition penalize (date : string) (group_sal : group_salary)
    (missing : list (Z * string)) : group_salary :=
  fold_left (fun gs m =>
      let gs1 := ensure_user_salary gs (fst m) (snd m) in
      set gs1 (fst m) (apply_deduction (rec_at gs1 (fst m)) date r_missing))
    missing group_sal.

(* ================================================================= *)
(** ** The message handler *)

(** What the handler consumes of an update: the stripped text, the sender,
    the chat (absent for some updates) and the clock as this turn reads
    it. *)
Record update := mk_update {
  text : string;
  effective_user : tg_user;
  effective_chat : option Z;
  at_clock : clock }.

(** The reply of the handler, one constructor per [reply_text] call site
    (the follow-up that action ["0"] sends after its pause is left out);
    [NoReply] stands for a return without reply. *)
Inductive reply :=
| NoReply
| AlreadyMarked (s : session)
| MarkedAdmin (s : session) (time_str : string)
| MarkedLate (s : session) (time_str : string) (penalty : Z)
| MarkedOnTime (s : session) (time_str : string)
| AttendanceCount (total : nat)
| AttendanceList (date : string) (mornings evenings : list entry)
| PermissionDenied
| NoDeductions
| Deductions (lines : list (string * Z)) (total : Z)
| DeductionsCleared
| NoKnownMembers
| EveryoneMarked (s : session)
| MissingReport (s : session) (date : string) (missing : list (Z * string))
| NothingToClear
| MissingCleared (cleared : list (string * Z)) (total : Z)
| AttendanceCleared.

(** The local variables of [handle_message] after line 138. *)
Record frame := mk_frame {
  group_att : group_attendance;
  group_sal : group_salary }.

(** Lines 131-138: both ledgers get the group, the group gets today's day
    and the sender's salary record. *)
Definition prepare (s : state) (group_id : Z) (user : tg_user) (date : string)
    : state :=
  let (att, ga) := setdefault (attendance_data s) group_id [] in
  let (sal, gs) := setdefault (salary_data s) group_id [] in
  mk_state (set att group_id (ensure_day_structure ga date))
           (set sal group_id
                (ensure_user_salary gs (u_id user) (display_name user))).

(** [attendance_data[group_id]] and [salary_data[group_id]] of a prepared
    state. *)
Definition frame_of (s : state) (group_id : Z) : frame :=
  mk_frame
    (match get (attendance_data s) group_id with Some ga => ga | None => [] end)
    (match get (salary_data s) group_id with Some gs => gs | None => [] end).

(** The ledgers after the handler has mutated the group's dictionaries. *)
Definition commit (s : state) (group_id : Z) (f : frame) : state :=
  mk_state (set (attendance_data s) group_id (group_att f))
           (set (salary_data s) group_id (group_sal f)).

(** Lines 141-170, action ["1"]. *)
Definition mark (f : frame) (user : tg_user) (c : clock) : frame * reply :=
  let date := today c in
  let sess := current_session (now c) in
  let time_str := strftime_HMS (now c) in
  let day := day_at (group_att f) date in
  if existsb (fun e => user_id e =? u_id user) (day_get day sess)
  then (f, AlreadyMarked sess)
  else
    let e := mk_entry (u_id user) (display_name user) date time_str false sess in
    if is_admin (u_id user) then
      (mk_frame (set (group_att f) date (day_append day sess e)) (group_sal f),
       MarkedAdmin sess time_str)
    else if negb (is_within_window (now c)) then
      let e := mk_entry (u_id user) (display_name user) date time_str true sess in
      let user_sal := rec_at (group_sal f) (u_id user) in
      (mk_frame (set (group_att f) date (day_append day sess e))
                (set (group_sal f) (u_id user)
                     (apply_deduction user_sal date r_late)),
       MarkedLate sess time_str LATE_PENALTY)
    else
      (mk_frame (set (group_att f) date (day_append day sess e)) (group_sal f),
       MarkedOnTime sess time_str).

(** Lines 220-261, action ["6"] once the sender is known to be an admin. *)
Definition sweep (f : frame) (c : clock) : frame * reply :=
  let date := today c in
  let sess := current_session (now c) in
  let members := known_members (group_sal f) (group_att f) in
  match members with
  | [] => (f, NoKnownMembers)
  | _ :: _ =>
      let marked := marked_ids (day_at (group_att f) date) sess in
      let missing := missing_members members marked in
      match missing with
      | [] => (f, EveryoneMarked sess)
      | _ :: _ =>
          (mk_frame (group_att f) (penalize date (group_sal f) missing),
           MissingReport sess date missing)
      end
  end.

(** Lines 264-292, action ["7"] once the sender is known to be an admin. *)
Definition clear_missing_today (f : frame) (c : clock) : frame * reply :=
  let (gs, cleared) := retract (today_again c) 0 (group_sal f) in
  match cleared with
  | [] => (mk_frame (group_att f) gs, NothingToClear)
  | _ :: _ =>
      (mk_frame (group_att f) gs,
       MissingCleared cleared (fold_left (fun t ua => t + snd ua) cleared 0))
  end.

(** Lines 141-304: the dispatch on the text. *)
Definition dispatch (f : frame) (m : update) : frame * reply :=
  let user := effective_user m in
  let c := at_clock m in
  let day := day_at (group_att f) (today c) in
  let admin := is_admin (u_id user) in
  if (text m =? "1")%string then mark f user c
  else if (text m =? "2")%string then
    (f, AttendanceCount
          (List.length (d_morning day) + List.length (d_evening day))%nat)
  else if (text m =? "3")%string then
    (f, AttendanceList (today c) (d_morning day) (d_evening day))
  else if (text m =? "4")%string then
    if negb admin then (f, PermissionDenied)
    else match group_sal f with
         | [] => (f, NoDeductions)
         | _ :: _ =>
             (f, Deductions
                   (map (fun kv => (username (snd kv), deductions (snd kv)))
                        (group_sal f))
                   (fold_left (fun t kv => t + deductions (snd kv))
                              (group_sal f) 0))
         end
  else if (text m =? "5")%string then
    if negb admin then (f, PermissionDenied)
    else (mk_frame (group_att f) (map_values clear_rec (group_sal f)),
          DeductionsCleared)
  else if (text m =? "6")%string then
    if negb admin then (f, PermissionDenied) else sweep f c
  else if (text m =? "7")%string then
    if negb admin then (f, PermissionDenied) else clear_missing_today f c
  else if (text m =? "0")%string then
    if negb admin then (f, PermissionDenied)
    else (mk_frame [] (group_sal f), AttendanceCleared)
  else (f, NoReply).

Definition handle_message (s : state) (m : update) : state * reply :=
  match effective_chat m with
  | None => (s, NoReply)
  | Some group_id =>
      let s1 := prepare s group_id (effective_user m) (today (at_clock m)) in
      let (f, r) := dispatch (frame_of s1 group_id) m in
      (commit s1 group_id f, r)
  end.

(** The ledgers after a sequence of handled messages. *)
Definition run (s : state) (ms : list update) : state :=
  fold_left (fun st m => fst (handle_message st m)) ms s.

(* ================================================================= *)
(** ** Vocabulary of the statements *)

(** The group's dictionaries once lines 131-138 have run. *)
Definition prepared_frame (s : state) (group_id : Z) (user : tg_user)
    (date : string) : frame :=
  let f := frame_of s group_id in
  mk_frame (ensure_day_structure (group_att f) date)
           (ensure_user_salary (group_sal f) (u_id user) (display_name user)).

(** The body of the loop at lines 270-278 for one record, entered after [k]
    calls of [today_str()], and the number of calls it makes. *)
Definition retract_rec (tick : nat -> string) (k : nat) (r : salary_rec)
    : salary_rec :=
  match select is_missing_on tick k (history r) with
  | [] => r
  | to_remove =>
      mk_salary (username r)
                (Z.max 0 (deductions r - sum_amounts to_remove))
                (select (fun d h => negb (is_missing_on d h)) tick
                        (k + List.length (history r)) (history r))
  end.

Definition retract_calls (tick : nat -> string) (k : nat) (r : salary_rec)
    : nat :=
  match select is_missing_on tick k (history r) with
  | [] => List.length (history r)
  | _ :: _ => List.length (history r) + List.length (history r)
  end.

(** What that body amounts to when every call returns [date]. *)
Definition retract_rec_on (date : string) (r : salary_rec) : salary_rec :=
  match filter (is_missing_on date) (history r) with
  | [] => r
  | to_remove =>
      mk_salary (username r)
                (Z.max 0 (deductions r - sum_amounts to_remove))
                (filter (fun h => negb (is_missing_on date h)) (history r))
  end.

(** The date does not change during the turn. *)
Definition steady (c : clock) : Prop := forall i, today_again c i = today c.

(** Conditions on the dates the retraction loop reads: none, and that they
    are all the same. *)
Definition any_reads (tick : nat -> string) : Prop := True.
Definition constant_reads (tick : nat -> string) : Prop :=
  forall i j, tick i = tick j.

(** ** Invariants stated record by record *)

Definition all_values {K V : Type} (P : K -> V -> Prop) (d : dict K V) : Prop :=
  forall k v, In (k, v) d -> P k v.

(** Every salary record of every group satisfies [P]. *)
Definition all_recs (P : Z -> salary_rec -> Prop) (s : state) : Prop :=
  all_values (fun _ gs => all_values P gs) (salary_data s).

(** What a property of salary records needs in order to survive every
    statement of the handler that writes a record; [Q] is what the property
    asks of the dates read by a retraction. *)
Record rec_invariant (Q : (nat -> string) -> Prop)
    (P : Z -> salary_rec -> Prop) : Prop := {
  inv_fresh : forall uid n, P uid (mk_salary (str_or n "unknown") 0 []);
  inv_backfill : forall uid r n,
    truthy n = true -> P uid r ->
    P uid (mk_salary n (deductions r) (history r));
  inv_deduct : forall uid r date why,
    is_admin uid = false -> P uid r -> P uid (apply_deduction r date why);
  inv_clear : forall uid r, P uid r -> P uid (clear_rec r);
  inv_retract : forall uid r tick k,
    Q tick -> P uid r -> P uid (retract_rec tick k r) }.

(** ** The cached total and the history *)

Definition rec_balanced (r : salary_rec) : Prop :=
  deductions r = sum_amounts (history r).

(** A record in order: balanced, and no negative amount on file. *)
Definition rec_ledger_ok (r : salary_rec) : Prop :=
  rec_balanced r /\ Forall (fun h => 0 <= amount h) (history r).

Definition ledger_ok (s : state) : Prop :=
  all_recs (fun _ r => rec_ledger_ok r) s.

(** An administrator's record carries no deduction. *)
Definition rec_admin_clean (uid : Z) (r : salary_rec) : Prop :=
  is_admin uid = true -> history r = [] /\ deductions r = 0.

Definition admin_clean (s : state) : Prop := all_recs rec_admin_clean s.

(** No user twice in a session list. *)
Definition day_ok (day : day_rec) : Prop :=
  NoDup (map user_id (d_morning day)) /\ NoDup (map user_id (d_evening day)).

Definition attendance_ok (s : state) : Prop :=
  all_values (fun _ ga => all_values (fun _ day => day_ok day) ga)
             (attendance_data s).

(** Every record has a display name on file. *)
Definition names_ok (s : state) : Prop :=
  all_recs (fun _ r => truthy (username r) = true) s.

(** The association lists of the salary ledger are dictionaries: no user key
    occurs twice in a group. *)
Definition dict_ok (s : state) : Prop :=
  all_values (fun _ gs => NoDup (keys gs)) (salary_data s).

(** ** Sample data *)

Module Fixture.
Definition alice := mk_user 1 (Some "alice") "Alice".
Definition bob := mk_user 2 None "Bob".
Definition carol := mk_user 3 (Some "") "".
Definition boss := mk_user 7958117532 (Some "boss") "Boss".
Definition jan1 (h m s : Z) : clock :=
  mk_clock "2025-01-01" (dtime_hms h m s) (same_day "2025-01-01").
Definition msg (t : string) (u : tg_user) (c : clock) : update :=
  mk_update t u (Some 100) c.

(** A ledger as a previous run could have left it. *)
Definition stored : state :=
  mk_state
    [(100, [("2024-12-31", mk_day [] [])])]
    [(100, [(2, mk_salary "Bob" 100
                  [mk_event "2024-12-31" 50 r_late;
                   mk_event "2025-01-01" 50 r_missing]);
            (7958117532, mk_salary "boss" 0 [])])].

(** One day in the group: a late check-in, a bystander, a sweep run twice,
    a retraction, a late administrator. *)
Definition day1 : list update :=
  [msg "1" alice (jan1 10 45 0); msg "2" carol (jan1 10 46 0);
   msg "6" boss (jan1 10 50 0); msg "6" boss (jan1 10 51 0);
   msg "1" bob (jan1 12 0 0); msg "7" boss (jan1 12 1 0);
   msg "1" boss (jan1 12 30 0)].
End Fixture.

(** ** Reading the ledgers *)

(** [any(e.get("user_id") == uid for e in day_rec[session])] on the group's
    day [date]. *)
Definition already_marked (s : state) (g : Z) (date : string) (sess : session)
    (uid : Z) : bool :=
  existsb (fun e => user_id e =? uid)
          (day_get (day_at (group_att (frame_of s g)) date) sess).

(** The entries of one session of one day of a group. *)
Definition entries_of (s : state) (g : Z) (date : string) (sess : session)
    : list entry :=
  day_get (day_at (group_att (frame_of s g)) date) sess.

(** The salary record of a user in a group, if there is one. *)
Definition salary_of (s : state) (g : Z) (uid : Z) : option salary_rec :=
  get (group_sal (frame_of s g)) uid.

(** The sender's record as line 138 leaves it: the one on file, or a new
    one. *)
Definition sender_record (s : state) (g : Z) (u : tg_user) : salary_rec :=
  rec_at (ensure_user_salary (group_sal (frame_of s g)) (u_id u)
                             (display_name u)) (u_id u).

(** The events of a history that a retraction on [date] removes, and how a
    record and its image under the retraction relate. *)
Definition removed_on (date : string) (r : salary_rec) : list event :=
  filter (is_missing_on date) (history r).

Definition retracted (date : string) (kv kv' : Z * salary_rec) : Prop :=
  fst kv' = fst kv
  /\ username (snd kv') = username (snd kv)
  /\ history (snd kv')
     = filter (fun h => negb (is_missing_on date h)) (history (snd kv))
  /\ (removed_on date (snd kv) = [] -> snd kv' = snd kv)
  /\ (removed_on date (snd kv) <> [] ->
      deductions (snd kv')
      = Z.max 0 (deductions (snd kv) - sum_amounts (removed_on date (snd kv))))
  /\ (rec_ledger_ok (snd kv) ->
      deductions (snd kv')
      = deductions (snd kv) - sum_amounts (removed_on date (snd kv))).

(** The report of a retraction: the affected records, in dictionary order,
    each with the sum removed. *)
Definition retraction_report (date : string) (gs : group_salary)
    : list (string * Z) :=
  flat_map (fun kv =>
      match removed_on date (snd kv) with
      | [] => []
      | _ :: _ => [(username (snd kv), sum_amounts (removed_on date (snd kv)))]
      end) gs.

Module Scenario.
Import Fixture.
(** Alice is late, Bob and Carol only ask for the list and the count, the
    sweep runs twice, Bob marks late at noon. *)
Definition before_retract : list update :=
  [msg "1" alice (jan1 10 45 0); msg "3" bob (jan1 10 45 30);
   msg "2" carol (jan1 10 46 0);
   msg "6" boss (jan1 10 50 0); msg "6" boss (jan1 10 51 0);
   msg "1" bob (jan1 12 0 0)].
Definition retract_msg : update := msg "7" boss (jan1 12 1 0).
End Scenario.

(** A retraction during which the day ends.  Bob asks for the count and the
    evening sweep charges him; the administrator's ["7"] then runs so late
    that the call of [today_str()] at line 272 still returns the day of the
    sweep and the calls after it return the next day. *)
Module Midnight.
Import Fixture.
Definition before : list update :=
  [msg "2" bob (jan1 23 50 0); msg "6" boss (jan1 23 55 0)].
Definition date_change (i : nat) : string :=
  match i with
  | O => "2025-01-01"
  | S _ => "2025-01-02"
  end.
Definition at_midnight : update :=
  msg "7" boss (mk_clock "2025-01-01" (dtime_hms 23 59 59) date_change).
Definition charged : salary_rec :=
  mk_salary "Bob" 50 [mk_event "2025-01-01" 50 r_missing].
Definition left_over : salary_rec :=
  mk_salary "Bob" 0 [mk_event "2025-01-01" 50 r_missing].
End Midnight.

(** [gs'] has the keys of [gs] and possibly more, and is a dictionary when
    [gs] is. *)
Definition keys_ext (gs gs' : group_salary) : Prop :=
  (NoDup (keys gs) -> NoDup (keys gs')) /\ incl (keys gs) (keys gs').

(** The effect of the penalty loop on a record of the group. *)
Definition penalized (date : string) (missing : list (Z * string))
    (kv : Z * salary_rec) : Z * salary_rec :=
  if existsb (Z.eqb (fst kv)) (map fst missing)
  then (fst kv, apply_deduction (snd kv) date r_missing)
  else kv.

(** The members as the salary ledger lists them, and those of them who are
    neither on the list [marked] nor administrators. *)
Definition salary_members (gs : group_salary) : list (Z * string) :=
  map (fun kv => (fst kv, username (snd kv))) gs.

Definition unmarked_members (gs : group_salary) (marked : list Z)
    : list (Z * string) :=
  filter (fun mem => negb (existsb (Z.eqb (fst mem)) marked)
                     && negb (is_admin (fst mem)))
         (salary_members gs).

(** The spec's sweep scenario: members Alice, Bob and Carol, of whom only
    Alice has marked the morning session. *)
Module SweepScenario.
Import Fixture.
Definition before_sweep : list update :=
  [msg "1" alice (jan1 10 5 0); msg "3" bob (jan1 10 6 0);
   msg "2" carol (jan1 10 7 0)].
Definition sweep_msg : update := msg "6" boss (jan1 10 50 0).
End SweepScenario.

(* ================================================================= *)
(** ** Start-up: [load_json] over a model of the file system *)

Module Persistence.

(** The values [json.load] returns (numbers are the integers). *)
#[local] Unset Elimination Schemes.
Inductive json :=
| JNull
| JBool (b : bool)
| JInt (n : Z)
| JStr (s : string)
| JArr (items : list json)
| JObj (members : list (string * json)).
#[local] Set Elimination Schemes.

(** Truth value of such a value in Python. *)
Definition json_truthy (j : json) : bool :=
  match j with
  | JNull => false
  | JBool b => b
  | JInt n => negb (n =? 0)
  | JStr s => truthy s
  | JArr items => match items with [] => false | _ :: _ => true end
  | JObj members => match members with [] => false | _ :: _ => true end
  end.

(** [{}] *)
Definition empty_dict : json := JObj [].

(** What is at a path: something [open] cannot read (a directory, a file
    without permission), or a file, given by what [json.load] makes of its
    text: a value, or nothing when the text is truncated or malformed. *)
Inductive node :=
| Unreadable
| Document (parsed : option json).

(** The directory of the two stores; [can_rename] tells whether [os.rename]
    is permitted there. *)
Record fs := mk_fs { nodes : dict string node; can_rename : bool }.

Inductive exn := OSError | ValueError.

Inductive outcome (A : Type) :=
| Returned (a : A)
| Raised (e : exn).
Arguments Returned {A} a.
Arguments Raised {A} e.

(** Computations on the file system that return or raise. *)
Definition io (A : Type) : Type := fs -> outcome A * fs.

Definition ret {A : Type} (a : A) : io A := fun st => (Returned a, st).

Definition bind {A B : Type} (c : io A) (k : A -> io B) : io B :=
  fun st =>
    match c st with
    | (Returned a, st') => k a st'
    | (Raised e, st') => (Raised e, st')
    end.

(** [try: body except Exception: handler] *)
Definition try_except {A : Type} (body : io A) (handler : io A) : io A :=
  fun st =>
    match body st with
    | (Returned a, st') => (Returned a, st')
    | (Raised _, st') => handler st'
    end.

Notation "x <- c ;; k" := (bind c (fun x => k))
  (at level 61, c at next level, right associativity).

Definition os_path_exists (path : string) : io bool :=
  fun st => (Returned (contains (nodes st) path), st).

(** [with open(path, "r", encoding="utf-8") as f: json.load(f)] *)
Definition open_and_load (path : string) : io json :=
  fun st =>
    match get (nodes st) path with
    | None => (Raised OSError, st)
    | Some Unreadable => (Raised OSError, st)
    | Some (Document None) => (Raised ValueError, st)
    | Some (Document (Some j)) => (Returned j, st)
    end.

(** [os.rename(src, dst)]: the node moves to [dst], replacing what was
    there. *)
Definition os_rename (src dst : string) : io unit :=
  fun st =>
    match get (nodes st) src with
    | Some n =>
        if can_rename st
        then (Returned tt,
              mk_fs (set (remove (nodes st) src) dst n) (can_rename st))
        else (Raised OSError, st)
    | None => (Raised OSError, st)
    end.

Definition load_json (path : string) : io json :=
  e <- os_path_exists path ;;
  if negb e then ret empty_dict
  else
    try_except
      (j <- open_and_load path ;;
       ret (if json_truthy j then j else empty_dict))
      (_ <- try_except (os_rename path (path ++ ".bak")%string) (ret tt) ;;
       ret empty_dict).

(** The sentence of the specification, read on this model: the load
    returns; a missing store gives the empty state; a store that exists and
    cannot be read or parsed is renamed aside and gives the empty state; a
    store that parses is returned as parsed. *)
Definition quarantined (path : string) (n : node) (st st' : fs) : Prop :=
  get (nodes st') path = None
  /\ get (nodes st') (path ++ ".bak")%string = Some n.

Definition load_as_stated : Prop :=
  forall (st : fs) (path : string),
    exists v st',
      load_json path st = (Returned v, st')
      /\ match get (nodes st) path with
         | None => v = empty_dict /\ st' = st
         | Some (Document (Some j)) => v = j /\ st' = st
         | Some n => v = empty_dict /\ quarantined path n st st'
         end.

(** A store holding the JSON text [null]. *)
Definition null_store : fs :=
  mk_fs [("salary_records.json", Document (Some JNull))] true.

(** An unreadable store in a directory where renaming is refused. *)
Definition locked_store : fs :=
  mk_fs [("attendance_records.json", Unreadable)] false.

(** A truncated store in a directory where renaming is permitted. *)
Definition truncated_store : fs :=
  mk_fs [("attendance_records.json", Document None);
         ("salary_records.json", Document (Some (JObj [("100", JObj [])])))]
        true.

End Persistence.

(* ================================================================= *)
(** ** Vocabulary of the further properties *)

(** The sum of the cached totals of a group. *)
Definition total_deductions (gs : group_salary) : Z :=
  fold_right (fun kv acc => deductions (snd kv) + acc) 0 gs.

(** An entry lies where it says: under its own date and session, and it is
    flagged late only for a user who is no administrator. *)
Definition entry_filed (date : string) (sess : session) (e : entry) : Prop :=
  e_date e = date /\ e_session e = sess
  /\ (late e = true -> is_admin (user_id e) = false).

Definition filing_ok (s : state) : Prop :=
  all_values (fun _ ga =>
      all_values (fun date day =>
          Forall (entry_filed date morning) (d_morning day)
          /\ Forall (entry_filed date evening) (d_evening day)) ga)
    (attendance_data s).

(** Every event on file is one penalty, and the cached total is a whole
    number of penalties. *)
Definition rec_penalty_only (r : salary_rec) : Prop :=
  Forall (fun h => amount h = LATE_PENALTY) (history r)
  /\ exists n : nat, deductions r = LATE_PENALTY * Z.of_nat n.

Definition penalty_only (s : state) : Prop :=
  all_recs (fun _ r => rec_penalty_only r) s.

(** Whoever is on an attendance list of the group has a salary record in
    the group. *)
Definition frame_known (f : frame) : Prop :=
  forall date day sess e,
    get (group_att f) date = Some day -> In e (day_get day sess) ->
    In (user_id e) (keys (group_sal f)).

Definition marked_known (s : state) : Prop :=
  forall g, frame_known (frame_of s g).

(* ================================================================= *)
(** ** Saving, and loading at start-up *)

Module Saving.
Import Persistence.

Definition DATA_FILE : string := "attendance_records.json".
Definition SALARY_FILE : string := "salary_records.json".

Section Save.
(** Whether [open(path, "w")] is permitted, and whether the writes of
    [json.dump] then all go through (the disk may fill up), are the
    environment's decisions. *)
Variable can_write : fs -> string -> bool.
Variable dump_completes : fs -> string -> json -> bool.

(** [with open(path, "w", encoding="utf-8") as f: json.dump(data, f, ...)]:
    a refused [open] raises and nothing is written.  A permitted [open]
    empties the file; [json.dump] then writes the text of [data], which
    parses back to [data], or raises on a write and leaves a text without
    its end, which does not parse. *)
Definition open_and_dump (path : string) (data : json) : io unit :=
  fun st =>
    if can_write st path
    then
      if dump_completes st path data
      then (Returned tt,
            mk_fs (set (nodes st) path (Document (Some data))) (can_rename st))
      else (Raised OSError,
            mk_fs (set (nodes st) path (Document None)) (can_rename st))
    else (Raised OSError, st).

(** [save_all()], on the two ledgers as JSON values. *)
Definition save_all (attendance_data salary_data : json) : io unit :=
  bind (open_and_dump DATA_FILE attendance_data)
       (fun _ => open_and_dump SALARY_FILE salary_data).
End Save.

(** Lines 40-41: the two loads at import time. *)
Definition startup : io (json * json) :=
  bind (load_json DATA_FILE) (fun attendance_data =>
  bind (load_json SALARY_FILE) (fun salary_data =>
  ret (attendance_data, salary_data))).

(** A directory where every write is permitted, and one where only the
    attendance store may be written. *)
Definition writable (st : fs) (path : string) : bool := true.
Definition only_data_writable (st : fs) (path : string) : bool :=
  String.eqb path DATA_FILE.

(** A disk with room for every dump, and one that fills up during the dump
    of the attendance store. *)
Definition roomy (st : fs) (path : string) (data : json) : bool := true.
Definition full_on_data (st : fs) (path : string) (data : json) : bool :=
  negb (String.eqb path DATA_FILE).

Definition sample_attendance : json :=
  JObj [("100", JObj [("2025-01-01",
                       JObj [("morning", JArr []); ("evening", JArr [])])])].
Definition sample_salary : json :=
  JObj [("100", JObj [("2", JObj [("username", JStr "Bob");
                                  ("deductions", JInt 50);
                                  ("history", JArr [])])])].
End Saving.

(* ================================================================= *)
(** * Properties *)

(** ** Dictionary lemmas *)

Section DictFacts.
Context {K V : Type} `{Key K}.
Implicit Types (d : dict K V) (k : K) (v : V).

Lemma keqb_refl k : keqb k k = true.
Proof. now apply keqb_eq. Qed.

Lemma keqb_neq k k' : k <> k' -> keqb k k' = false.
Proof.
  intros Hne. destruct (keqb k k') eqn:E; [|reflexivity].
  apply keqb_eq in E. contradiction.
Qed.

Lemma get_set_eq d k v : get (set d k v) k = Some v.
Proof.
  induction d as [|[k' v'] d IH]; simpl.
  - now rewrite keqb_refl.
  - destruct (keqb k k') eqn:E; simpl; rewrite E; auto.
Qed.

Lemma get_set_ne d k k' v : k' <> k -> get (set d k v) k' = get d k'.
Proof.
  intros Hne. induction d as [|[k0 v0] d IH]; simpl.
  - now rewrite (keqb_neq Hne).
  - destruct (keqb k k0) eqn:E; simpl.
    + apply keqb_eq in E. subst k0. now rewrite (keqb_neq Hne).
    + now rewrite IH.
Qed.

(** Writing back the value a key already has changes nothing. *)
Lemma set_same d k v : get d k = Some v -> set d k v = d.
Proof.
  induction d as [|[k' v'] d IH]; simpl; [discriminate|].
  destruct (keqb k k') eqn:E.
  - now intros [= ->].
  - intros Hg. now rewrite IH.
Qed.

Lemma get_In d k v : get d k = Some v -> In (k, v) d.
Proof.
  induction d as [|[k' v'] d IH]; simpl; [discriminate|].
  destruct (keqb k k') eqn:E.
  - apply keqb_eq in E. subst k'. intros [= ->]. now left.
  - intros Hg. right. auto.
Qed.

Lemma In_get d k v : NoDup (keys d) -> In (k, v) d -> get d k = Some v.
Proof.
  induction d as [|[k' v'] d IH]; simpl; [contradiction|].
  intros Hnd [Heq|Hin].
  - injection Heq as -> ->. now rewrite keqb_refl.
  - inversion Hnd as [|? ? Hni Hnd']; subst.
    destruct (keqb k k') eqn:E; [|now apply IH].
    apply keqb_eq in E. subst k'. exfalso. apply Hni.
    change k with (fst (k, v)). now apply in_map.
Qed.

Lemma In_set d k v k' v' :
  In (k', v') (set d k v) -> (k' = k /\ v' = v) \/ In (k', v') d.
Proof.
  induction d as [|[k0 v0] d IH]; simpl.
  - intros [[= <- <-]|[]]. now left.
  - destruct (keqb k k0) eqn:E; simpl.
    + apply keqb_eq in E. subst k0.
      intros [[= <- <-]|Hin]; [now left | now right; right].
    + intros [Heq|Hin]; [now right; left|].
      destruct (IH Hin) as [?|?]; [now left | now right; right].
Qed.

Lemma contains_true d k : contains d k = true <-> exists v, get d k = Some v.
Proof.
  unfold contains. destruct (get d k) as [v|].
  - split; [now exists v | reflexivity].
  - split; [discriminate | intros [v [=]]].
Qed.

Lemma get_In_keys d k v : get d k = Some v -> In k (keys d).
Proof.
  intros Hg. apply get_In in Hg. change k with (fst (k, v)).
  now apply in_map.
Qed.

Lemma get_None_keys d k : get d k = None -> ~ In k (keys d).
Proof.
  induction d as [|[k' v'] d IH]; simpl; [tauto|].
  destruct (keqb k k') eqn:E; [discriminate|].
  intros Hg [Heq|Hin]; [|now apply IH].
  subst k'. now rewrite keqb_refl in E.
Qed.

Lemma keys_set_present d k v v0 :
  get d k = Some v0 -> keys (set d k v) = keys d.
Proof.
  induction d as [|[k' v'] d IH]; simpl; [discriminate|].
  destruct (keqb k k') eqn:E; simpl; [reflexivity|].
  intros Hg. f_equal. now apply IH.
Qed.

Lemma keys_set_absent d k v :
  get d k = None -> keys (set d k v) = keys d ++ [k].
Proof.
  induction d as [|[k' v'] d IH]; simpl; [reflexivity|].
  destruct (keqb k k') eqn:E; simpl; [discriminate|].
  intros Hg. f_equal. now apply IH.
Qed.

Lemma NoDup_keys_set d k v : NoDup (keys d) -> NoDup (keys (set d k v)).
Proof.
  intros Hnd. destruct (get d k) as [v0|] eqn:Hg.
  - erewrite keys_set_present by eassumption. assumption.
  - rewrite keys_set_absent by assumption.
    apply NoDup_app; [assumption | repeat constructor; intros [] |].
    intros x Hx [<-|[]]. revert Hx. now apply get_None_keys.
Qed.

Lemma keys_map_values (f : V -> V) d : keys (map_values f d) = keys d.
Proof.
  unfold keys, map_values. rewrite map_map. reflexivity.
Qed.

Lemma set_set d k v v' : set (set d k v) k v' = set d k v'.
Proof.
  induction d as [|[k0 v0] d IH]; simpl.
  - now rewrite keqb_refl.
  - destruct (keqb k k0) eqn:E; simpl; rewrite E; [reflexivity|].
    now rewrite IH.
Qed.

(** On a dictionary (no key twice) an assignment to a present key is the
    pointwise replacement of its value. *)
Lemma set_as_map d k v v0 :
  NoDup (keys d) -> get d k = Some v0 ->
  set d k v = map (fun kv => if keqb k (fst kv) then (fst kv, v) else kv) d.
Proof.
  induction d as [|[k' v'] d IH]; simpl; [discriminate|].
  intros Hnd. inversion Hnd as [|? ? Hni Hnd']; subst.
  destruct (keqb k k') eqn:E.
  - intros _. f_equal. apply keqb_eq in E. subst k'.
    clear IH Hnd Hnd'. induction d as [|[k1 v1] d IH]; simpl; [reflexivity|].
    simpl in Hni. destruct (keqb k k1) eqn:E1.
    + apply keqb_eq in E1. subst k1. tauto.
    + f_equal. apply IH. tauto.
  - intros Hg. f_equal. now apply IH.
Qed.
Lemma get_remove_eq d k : get (remove d k) k = None.
Proof.
  unfold remove. induction d as [|[k' v] d IH]; simpl; [reflexivity|].
  destruct (keqb k k') eqn:E; simpl; [assumption|]. now rewrite E.
Qed.
End DictFacts.

(** ** Window policy *)

(** On times with fields in range, the tuple order of [datetime.time] is the
    order of the microseconds since midnight. *)
Lemma time_compare_us (a b : dtime) :
  time_wf a -> time_wf b ->
  time_compare a b = (us_of_day a ?= us_of_day b).
Proof.
  unfold time_wf, time_compare, us_of_day.
  destruct a as [h m s u], b as [h' m' s' u']; simpl.
  intros Ha Hb. symmetry.
  destruct (Z.compare_spec h h') as [->|Hh|Hh];
    [|apply Z.compare_lt_iff; nia|apply Z.compare_gt_iff; nia].
  destruct (Z.compare_spec m m') as [->|Hm|Hm];
    [|apply Z.compare_lt_iff; nia|apply Z.compare_gt_iff; nia].
  destruct (Z.compare_spec s s') as [->|Hs|Hs];
    [|apply Z.compare_lt_iff; nia|apply Z.compare_gt_iff; nia].
  destruct (Z.compare_spec u u') as [->|Hu|Hu];
    [apply Z.compare_refl|apply Z.compare_lt_iff; nia
    |apply Z.compare_gt_iff; nia].
Qed.

Lemma time_ltb_us (a b : dtime) :
  time_wf a -> time_wf b -> time_ltb a b = (us_of_day a <? us_of_day b).
Proof.
  intros Ha Hb. unfold time_ltb, Z.ltb. now rewrite time_compare_us.
Qed.

Lemma time_leb_us (a b : dtime) :
  time_wf a -> time_wf b -> time_leb a b = (us_of_day a <=? us_of_day b).
Proof.
  intros Ha Hb. unfold time_leb, Z.leb. now rewrite time_compare_us.
Qed.

Lemma time_wf_hms (h m s : Z) :
  0 <= h < 24 -> 0 <= m < 60 -> 0 <= s < 60 -> time_wf (dtime_hms h m s).
Proof. unfold time_wf; simpl; lia. Qed.

(** The session is the side of 13:00:00 the time of day falls on. *)
Lemma current_session_spec (t : dtime) :
  time_wf t ->
  (current_session t = morning <-> us_of_day t < us_of_day (dtime_hms 13 0 0))
  /\ (current_session t = evening <->
      us_of_day (dtime_hms 13 0 0) <= us_of_day t).
Proof.
  intros Ht. unfold current_session.
  rewrite time_ltb_us by (auto; apply time_wf_hms; lia).
  destruct (Z.ltb_spec (us_of_day t) (us_of_day (dtime_hms 13 0 0))).
  - split; split; intros; try reflexivity; try assumption;
      try discriminate; lia.
  - split; split; intros; try reflexivity; try assumption;
      try discriminate; lia.
Qed.

(** Lateness is membership in the two closed windows. *)
Lemma is_within_window_spec (t : dtime) :
  time_wf t ->
  (is_within_window t = true <->
   us_of_day MORNING_START <= us_of_day t <= us_of_day MORNING_END
   \/ us_of_day EVENING_START <= us_of_day t <= us_of_day EVENING_END).
Proof.
  intros Ht. unfold is_within_window.
  rewrite !time_leb_us by (auto; apply time_wf_hms; lia).
  destruct (Z.leb_spec (us_of_day MORNING_START) (us_of_day t));
  destruct (Z.leb_spec (us_of_day t) (us_of_day MORNING_END));
  destruct (Z.leb_spec (us_of_day EVENING_START) (us_of_day t));
  destruct (Z.leb_spec (us_of_day t) (us_of_day EVENING_END));
  simpl; split; intros Hx; try reflexivity; try discriminate; try lia.
Qed.

(** ** The handler in normal form *)

Lemma prepare_eq (s : state) (g : Z) (u : tg_user) (date : string) :
  prepare s g u date =
  mk_state (set (attendance_data s) g (group_att (prepared_frame s g u date)))
           (set (salary_data s) g (group_sal (prepared_frame s g u date))).
Proof.
  unfold prepare, prepared_frame, frame_of, setdefault; simpl.
  destruct (get (attendance_data s) g), (get (salary_data s) g);
    now rewrite ?set_set.
Qed.

Lemma frame_of_prepare (s : state) (g : Z) (u : tg_user) (date : string) :
  frame_of (prepare s g u date) g = prepared_frame s g u date.
Proof.
  rewrite prepare_eq. unfold frame_of; simpl. rewrite !get_set_eq.
  reflexivity.
Qed.

Lemma handle_message_eq (s : state) (m : update) (g : Z) :
  effective_chat m = Some g ->
  let f := prepared_frame s g (effective_user m) (today (at_clock m)) in
  handle_message s m =
  (mk_state (set (attendance_data s) g (group_att (fst (dispatch f m))))
            (set (salary_data s) g (group_sal (fst (dispatch f m)))),
   snd (dispatch f m)).
Proof.
  intros Hc f. unfold handle_message. rewrite Hc, frame_of_prepare.
  fold f. destruct (dispatch f m) as [f' r]; simpl.
  unfold commit. rewrite prepare_eq; simpl. now rewrite !set_set.
Qed.

Lemma run_app (s : state) (ms ms' : list update) :
  run s (ms ++ ms') = run (run s ms) ms'.
Proof. unfold run. apply fold_left_app. Qed.

Lemma run_cons (s : state) (m : update) (ms : list update) :
  run s (m :: ms) = run (fst (handle_message s m)) ms.
Proof. reflexivity. Qed.

(** ** Retraction, record by record *)

Lemma retract_fst_cons (tick : nat -> string) (k : nat) (uid : Z)
    (r : salary_rec) (rest : group_salary) :
  fst (retract tick k ((uid, r) :: rest))
  = (uid, retract_rec tick k r)
    :: fst (retract tick (k + retract_calls tick k r) rest).
Proof.
  cbn [retract]. unfold retract_rec, retract_calls.
  destruct (select is_missing_on tick k (history r)) as [|h hs].
  - now destruct (retract tick (k + List.length (history r)) rest).
  - rewrite Nat.add_assoc.
    now destruct (retract tick (k + List.length (history r)
                                  + List.length (history r)) rest).
Qed.

Lemma retract_keys (tick : nat -> string) (gs : group_salary) :
  forall k, keys (fst (retract tick k gs)) = keys gs.
Proof.
  induction gs as [|[uid r] gs IH]; intros k; [reflexivity|].
  rewrite retract_fst_cons. unfold keys in *. cbn [map fst].
  now rewrite IH.
Qed.

Lemma retract_all_values (P : Z -> salary_rec -> Prop) (tick : nat -> string)
    (gs : group_salary) :
  (forall uid r k, P uid r -> P uid (retract_rec tick k r)) ->
  forall k, all_values P gs -> all_values P (fst (retract tick k gs)).
Proof.
  intros HP. induction gs as [|[uid r] gs IH]; intros k Hgs;
    [intros ? ? []|].
  rewrite retract_fst_cons. intros uid' r' [Heq|Hin].
  - inversion Heq; subst. apply HP. apply Hgs. now left.
  - apply (IH (k + retract_calls tick k r)%nat); [|exact Hin].
    intros u v Huv. apply Hgs. now right.
Qed.

Lemma retract_get (tick : nat -> string) (uid : Z) (gs : group_salary) :
  forall k r, get gs uid = Some r ->
  exists k', get (fst (retract tick k gs)) uid = Some (retract_rec tick k' r).
Proof.
  induction gs as [|[uid0 r0] gs IH]; intros k r Hg; [discriminate|].
  rewrite retract_fst_cons. cbn [get] in Hg |- *.
  destruct (keqb uid uid0).
  - inversion Hg; subst. now exists k.
  - now apply IH.
Qed.

Lemma select_same_day (test : string -> event -> bool) (tick : nat -> string)
    (date : string) (hist : list event) :
  (forall i, tick i = date) ->
  forall k, select test tick k hist = filter (test date) hist.
Proof.
  intros Ht. induction hist as [|h hist IH]; intros k; [reflexivity|].
  cbn [select filter]. now rewrite Ht, IH.
Qed.

Lemma retract_rec_same_day (tick : nat -> string) (date : string) (k : nat)
    (r : salary_rec) :
  (forall i, tick i = date) -> retract_rec tick k r = retract_rec_on date r.
Proof.
  intros Ht. unfold retract_rec, retract_rec_on.
  now rewrite !(@select_same_day _ tick date (history r) Ht).
Qed.

Lemma retract_fst_same_day (tick : nat -> string) (date : string)
    (gs : group_salary) :
  (forall i, tick i = date) ->
  forall k, fst (retract tick k gs) = map_values (retract_rec_on date) gs.
Proof.
  intros Ht. induction gs as [|[uid r] gs IH]; intros k; [reflexivity|].
  rewrite retract_fst_cons, IH, (@retract_rec_same_day tick date k r Ht).
  reflexivity.
Qed.

Lemma sum_amounts_app (l l' : list event) :
  sum_amounts (l ++ l') = sum_amounts l + sum_amounts l'.
Proof. induction l; simpl; lia. Qed.

Lemma sum_amounts_split (p : event -> bool) (l : list event) :
  sum_amounts l =
  sum_amounts (filter p l) + sum_amounts (filter (fun h => negb (p h)) l).
Proof.
  induction l as [|h l IH]; simpl; [reflexivity|].
  destruct (p h); simpl; lia.
Qed.

Lemma sum_amounts_nonneg (l : list event) :
  Forall (fun h => 0 <= amount h) l -> 0 <= sum_amounts l.
Proof. induction 1; simpl; lia. Qed.

Lemma Forall_filter_keep {A} (P : A -> Prop) (p : A -> bool) (l : list A) :
  Forall P l -> Forall P (filter p l).
Proof.
  induction 1; simpl; [constructor|].
  destruct (p x); [constructor|]; assumption.
Qed.

Lemma all_values_set {K V : Type} `{Key K} (P : K -> V -> Prop)
    (d : dict K V) (k : K) (v : V) :
  all_values P d -> P k v -> all_values P (set d k v).
Proof.
  intros Hd Hv k' v' Hin. apply In_set in Hin as [[-> ->]|Hin]; auto.
Qed.

Lemma all_values_map_values {K V : Type} (P : K -> V -> Prop) (f : V -> V)
    (d : dict K V) :
  (forall k v, P k v -> P k (f v)) ->
  all_values P d -> all_values P (map_values f d).
Proof.
  intros Hf Hd k v Hin. unfold map_values in Hin.
  apply in_map_iff in Hin as [[k0 v0] [[= <- <-] Hin]]. simpl. auto.
Qed.

Lemma missing_members_nonadmin (members : list (Z * string)) (marked : list Z)
    (m : Z * string) :
  In m (missing_members members marked) -> is_admin (fst m) = false.
Proof.
  unfold missing_members. intros Hin. apply filter_In in Hin as [_ Hm].
  apply andb_true_iff in Hm as [_ Hm]. now apply negb_true_iff in Hm.
Qed.

Section RecInvariant.
Variable Q : (nat -> string) -> Prop.
Variable P : Z -> salary_rec -> Prop.
Hypothesis HP : rec_invariant Q P.

Lemma ensure_user_salary_inv (gs : group_salary) (uid : Z) (n : string) :
  all_values P gs -> all_values P (ensure_user_salary gs uid n).
Proof.
  intros Hgs. unfold ensure_user_salary.
  destruct (get gs uid) as [r|] eqn:Hg.
  - destruct (truthy n && negb (truthy (username r))) eqn:E; [|assumption].
    apply andb_true_iff in E as [Hn _].
    apply all_values_set; [assumption|].
    apply (inv_backfill HP); [assumption|]. apply Hgs. now apply get_In.
  - apply all_values_set; [assumption | apply (inv_fresh HP)].
Qed.

Lemma rec_at_inv (gs : group_salary) (uid : Z) :
  all_values P gs -> P uid (rec_at gs uid).
Proof.
  intros Hgs. unfold rec_at. destruct (get gs uid) as [r|] eqn:Hg.
  - apply Hgs. now apply get_In.
  - apply (inv_fresh HP uid "").
Qed.

Lemma penalize_inv (date : string) (missing : list (Z * string)) :
  forall gs : group_salary,
  (forall m, In m missing -> is_admin (fst m) = false) ->
  all_values P gs -> all_values P (penalize date gs missing).
Proof.
  unfold penalize.
  induction missing as [|m missing IH]; intros gs Hna Hgs; simpl;
    [assumption|].
  apply IH; [intros m' Hm'; apply Hna; now right|].
  apply all_values_set.
  - now apply ensure_user_salary_inv.
  - apply (inv_deduct HP); [apply Hna; now left|].
    apply rec_at_inv. now apply ensure_user_salary_inv.
Qed.

Lemma mark_inv (f : frame) (u : tg_user) (c : clock) :
  all_values P (group_sal f) -> all_values P (group_sal (fst (mark f u c))).
Proof.
  intros Hf. unfold mark.
  destruct (existsb _ _); [assumption|].
  destruct (is_admin (u_id u)) eqn:Ha; [assumption|].
  destruct (negb (is_within_window (now c))); [|assumption].
  simpl. apply all_values_set; [assumption|].
  apply (inv_deduct HP); [assumption|]. now apply rec_at_inv.
Qed.

Lemma sweep_inv (f : frame) (c : clock) :
  all_values P (group_sal f) -> all_values P (group_sal (fst (sweep f c))).
Proof.
  intros Hf. unfold sweep.
  destruct (known_members _ _) as [|m0 members]; [assumption|].
  destruct (missing_members _ _) as [|x missing] eqn:Hm; [assumption|].
  cbn [fst group_sal]. apply penalize_inv; [|assumption].
  intros m Hin. rewrite <- Hm in Hin.
  now apply missing_members_nonadmin in Hin.
Qed.

Lemma clear_missing_today_inv (f : frame) (c : clock) :
  Q (today_again c) ->
  all_values P (group_sal f) ->
  all_values P (group_sal (fst (clear_missing_today f c))).
Proof.
  intros Hq Hf. unfold clear_missing_today.
  assert (all_values P (fst (retract (today_again c) 0 (group_sal f)))) as H.
  { apply retract_all_values; [|assumption].
    intros uid r k. now apply (inv_retract HP). }
  destruct (retract (today_again c) 0 (group_sal f)) as [gs cleared].
  now destruct cleared.
Qed.

Lemma dispatch_inv (f : frame) (m : update) :
  Q (today_again (at_clock m)) ->
  all_values P (group_sal f) ->
  all_values P (group_sal (fst (dispatch f m))).
Proof.
  intros Hq Hf. unfold dispatch.
  destruct (text m =? "1")%string; [now apply mark_inv|].
  destruct (text m =? "2")%string; [assumption|].
  destruct (text m =? "3")%string; [assumption|].
  destruct (text m =? "4")%string.
  { destruct (negb _); [assumption|]. case (group_sal f); intros; exact Hf. }
  destruct (text m =? "5")%string.
  { destruct (negb _); [assumption|]. simpl.
    apply all_values_map_values; [|assumption].
    intros k v. apply (inv_clear HP). }
  destruct (text m =? "6")%string.
  { destruct (negb _); [assumption|]. now apply sweep_inv. }
  destruct (text m =? "7")%string.
  { destruct (negb _); [assumption|]. now apply clear_missing_today_inv. }
  destruct (text m =? "0")%string; [|assumption].
  now destruct (negb _).
Qed.

Lemma frame_of_inv (s : state) (g : Z) :
  all_recs P s -> all_values P (group_sal (frame_of s g)).
Proof.
  intros Hs. unfold frame_of; simpl.
  destruct (get (salary_data s) g) as [gs|] eqn:Hg.
  - apply (Hs g). now apply get_In.
  - intros k v [].
Qed.

Lemma handle_message_inv (s : state) (m : update) :
  Q (today_again (at_clock m)) ->
  all_recs P s -> all_recs P (fst (handle_message s m)).
Proof.
  intros Hq Hs. destruct (effective_chat m) as [g|] eqn:Hc.
  - rewrite (handle_message_eq s m Hc). simpl.
    unfold all_recs; simpl. apply all_values_set; [exact Hs|].
    apply dispatch_inv; [exact Hq|]. unfold prepared_frame; simpl.
    apply ensure_user_salary_inv. now apply frame_of_inv.
  - unfold handle_message. now rewrite Hc.
Qed.

Lemma run_inv (ms : list update) :
  Forall (fun m => Q (today_again (at_clock m))) ms ->
  forall s, all_recs P s -> all_recs P (run s ms).
Proof.
  induction ms as [|m ms IH]; intros Hq s Hs; [assumption|].
  inversion Hq; subst.
  rewrite run_cons. apply IH; [assumption|]. now apply handle_message_inv.
Qed.
End RecInvariant.

Lemma any_reads_all (ms : list update) :
  Forall (fun m => any_reads (today_again (at_clock m))) ms.
Proof. apply Forall_forall. intros m _. exact I. Qed.

Lemma apply_deduction_balanced (r : salary_rec) (date : string) (why : reason) :
  rec_ledger_ok r -> rec_ledger_ok (apply_deduction r date why).
Proof.
  unfold rec_ledger_ok, rec_balanced, apply_deduction; simpl.
  intros [Hb Hn]. split.
  - rewrite sum_amounts_app; simpl. lia.
  - apply Forall_app. split; [assumption|].
    repeat constructor. simpl. unfold LATE_PENALTY. lia.
Qed.

Lemma clear_rec_balanced (r : salary_rec) : rec_ledger_ok (clear_rec r).
Proof. unfold rec_ledger_ok, rec_balanced; simpl. split; [reflexivity|constructor]. Qed.

(** On a record in order the floor at 0 of line 276 never bites: the removed
    sum is at most the cached total. *)
Lemma retract_rec_balanced (date : string) (r : salary_rec) :
  rec_ledger_ok r -> rec_ledger_ok (retract_rec_on date r).
Proof.
  unfold rec_ledger_ok, rec_balanced, retract_rec_on. intros [Hb Hn].
  pose proof (sum_amounts_split (is_missing_on date) (history r)) as Hs.
  pose proof (sum_amounts_nonneg
                (Forall_filter_keep (fun h => negb (is_missing_on date h)) Hn))
    as Hk.
  destruct (filter (is_missing_on date) (history r)) as [|h hs] eqn:Hf;
    [now split|].
  simpl in Hs |- *. split.
  - lia.
  - now apply Forall_filter_keep.
Qed.

Lemma ledger_invariant :
  rec_invariant constant_reads (fun _ r => rec_ledger_ok r).
Proof.
  constructor.
  - intros _ n. split; [reflexivity|constructor].
  - intros _ r n _ H. exact H.
  - intros _ r date why _. apply apply_deduction_balanced.
  - intros _ r _. apply clear_rec_balanced.
  - intros _ r tick k Hq.
    rewrite (@retract_rec_same_day tick (tick O) k r (fun i => Hq i O)).
    apply retract_rec_balanced.
Qed.

(** ** Administrators *)

Lemma is_admin_In (uid : Z) : is_admin uid = true <-> In uid ADMIN_IDS.
Proof.
  unfold is_admin. rewrite existsb_exists. split.
  - intros [x [Hin Heq]]. apply Z.eqb_eq in Heq. now subst.
  - intros Hin. exists uid. split; [assumption | apply Z.eqb_refl].
Qed.

Lemma admin_invariant : rec_invariant any_reads rec_admin_clean.
Proof.
  constructor; unfold rec_admin_clean.
  - intros uid n _. now split.
  - intros uid r n _ H Ha. exact (H Ha).
  - intros uid r date why Hna _ Ha. congruence.
  - intros uid r _ _. now split.
  - intros uid r tick k _ H Ha. destruct (H Ha) as [Hh Hd].
    unfold retract_rec. rewrite Hh. simpl. now split.
Qed.

(** ** Claims on the invariants of the salary ledger *)

(** Finite case analysis of a membership in a literal list. *)
Ltac in_cases H :=
  simpl in H;
  repeat (destruct H as [H|H]; [inversion H; subst; clear H|]);
  try contradiction.

Lemma ledger_ok_stored : ledger_ok Fixture.stored.
Proof.
  intros g gs Hg uid r Hr. in_cases Hg. in_cases Hr.
  - split; [reflexivity | repeat constructor; simpl; lia].
  - split; [reflexivity | constructor].
Qed.

Lemma ledger_ok_empty : ledger_ok empty_state.
Proof. intros g gs []. Qed.

Lemma constant_same_day (date : string) : constant_reads (same_day date).
Proof. intros i j. reflexivity. Qed.

(** Turns during which the date does not change keep the ledger in order. *)
Lemma run_ledger_ok (s : state) (ms : list update) :
  ledger_ok s ->
  Forall (fun m => constant_reads (today_again (at_clock m))) ms ->
  ledger_ok (run s ms).
Proof.
  intros Hs Hq. exact (@run_inv _ _ ledger_invariant ms Hq s Hs).
Qed.

Lemma constant_reads_day1 :
  Forall (fun m => constant_reads (today_again (at_clock m))) Fixture.day1.
Proof. repeat constructor; apply constant_same_day. Qed.

Lemma constant_reads_midnight_before :
  Forall (fun m => constant_reads (today_again (at_clock m))) Midnight.before.
Proof. repeat constructor; apply constant_same_day. Qed.

(** C1. The cached [deductions] does not always equal the sum of the
    [amount]s of the [history]: the retraction loop calls [today_str()] anew
    for each of its two passes, and when the day ends between them the first
    pass finds the events of the old day, their sum is subtracted, and the
    second pass, comparing with the new day, removes none of them.  From the
    empty ledgers: Bob asks for the count, the sweep charges him 50 (the
    ledger is in order then), and a ["7"] handled across midnight leaves his
    record with [deductions] 0 and the event of 50 still on file. *)
Theorem balance_lost_at_date_change :
  let s := run empty_state Midnight.before in
  let s' := fst (handle_message s Midnight.at_midnight) in
  ledger_ok s
  /\ salary_of s 100 2 = Some Midnight.charged
  /\ salary_of s' 100 2 = Some Midnight.left_over
  /\ deductions Midnight.left_over = 0
  /\ sum_amounts (history Midnight.left_over) = 50
  /\ ~ ledger_ok s'.
Proof.
  intros s s'. split; [|split; [|split; [|split; [|split]]]].
  - apply run_ledger_ok;
      [exact ledger_ok_empty | exact constant_reads_midnight_before].
  - vm_compute. reflexivity.
  - vm_compute. reflexivity.
  - reflexivity.
  - reflexivity.
  - intros H.
    assert (rec_ledger_ok Midnight.left_over) as [Hb _].
    { apply (H 100 (group_sal (frame_of s' 100))) with (k := 2).
      - vm_compute. left. reflexivity.
      - vm_compute. left. reflexivity. }
    discriminate Hb.
Qed.

(** X21. As long as no turn sees the date change between the calls of
    [today_str()] of its retraction loop, the cached [deductions] of every
    record of every group equals the sum of the [amount]s of its [history]
    after any sequence of handled messages (late marks, missing sweeps,
    retractions, clear-alls and all the other actions), provided the ledger
    started that way with no negative amount on file. *)
Theorem balance_kept_within_days (s : state) (ms : list update) :
  ledger_ok s ->
  Forall (fun m => constant_reads (today_again (at_clock m))) ms ->
  forall g gs uid r,
    In (g, gs) (salary_data (run s ms)) -> In (uid, r) gs ->
    deductions r = sum_amounts (history r).
Proof.
  intros Hs Hq g gs uid r Hg Hr.
  exact (proj1 (@run_ledger_ok s ms Hs Hq _ _ Hg _ _ Hr)).
Qed.

Lemma balance_kept_within_days_witness :
  ledger_ok Fixture.stored
  /\ Forall (fun m => constant_reads (today_again (at_clock m))) Fixture.day1
  /\ let gs := group_sal (frame_of (run Fixture.stored Fixture.day1) 100) in
     deductions (rec_at gs 2) = sum_amounts (history (rec_at gs 2)).
Proof.
  split; [exact ledger_ok_stored|].
  split; [exact constant_reads_day1|]. intros gs.
  apply (@balance_kept_within_days Fixture.stored Fixture.day1
           ledger_ok_stored constant_reads_day1 100 gs 2 (rec_at gs 2)).
  - vm_compute. left. reflexivity.
  - vm_compute. left. reflexivity.
Defined.

Lemma admin_clean_stored : admin_clean Fixture.stored.
Proof.
  intros g gs Hg uid r Hr. in_cases Hg. in_cases Hr.
  - intros Ha. discriminate Ha.
  - intros _. split; reflexivity.
Qed.

(** C5. Administrator immunity: whatever messages are handled (marks at any
    time of day, sweeps, and every other action), the salary record of an
    administrator id, where there is one, keeps an empty history and zero
    deductions. *)
Theorem admin_immunity (s : state) (ms : list update) :
  admin_clean s ->
  forall g gs uid r,
    In (g, gs) (salary_data (run s ms)) -> In (uid, r) gs ->
    In uid ADMIN_IDS ->
    history r = [] /\ deductions r = 0.
Proof.
  intros Hs g gs uid r Hg Hr Ha.
  pose proof (@run_inv _ _ admin_invariant ms (any_reads_all ms) s Hs) as H.
  apply (H _ _ Hg _ _ Hr). now apply is_admin_In.
Qed.

Lemma admin_immunity_witness :
  admin_clean Fixture.stored
  /\ let gs := group_sal (frame_of (run Fixture.stored Fixture.day1) 100) in
     history (rec_at gs 7958117532) = []
     /\ deductions (rec_at gs 7958117532) = 0.
Proof.
  split; [exact admin_clean_stored|]. intros gs.
  apply (@admin_immunity Fixture.stored Fixture.day1 admin_clean_stored
           100 gs 7958117532 (rec_at gs 7958117532)).
  - vm_compute. left. reflexivity.
  - vm_compute. right. left. reflexivity.
  - vm_compute. left. reflexivity.
Defined.

(** ** Marking attendance *)

Lemma day_get_append (day : day_rec) (sess : session) (e : entry) :
  day_get (day_append day sess e) sess = day_get day sess ++ [e].
Proof. now destruct sess. Qed.

Lemma day_at_ensure (ga : group_attendance) (date : string) :
  get (ensure_day_structure ga date) date = Some (day_at ga date).
Proof.
  unfold ensure_day_structure, contains, day_at.
  destruct (get ga date) as [day|] eqn:Hg; [assumption|].
  apply get_set_eq.
Qed.

Lemma ensure_user_salary_get (gs : group_salary) (uid : Z) (n : string) :
  get (ensure_user_salary gs uid n) uid = Some (rec_at (ensure_user_salary gs uid n) uid).
Proof.
  unfold rec_at.
  assert (exists r, get (ensure_user_salary gs uid n) uid = Some r) as [r Hr].
  { unfold ensure_user_salary. destruct (get gs uid) as [r|] eqn:Hg.
    - destruct (truthy n && negb (truthy (username r)));
        eexists; [apply get_set_eq | eassumption].
    - eexists. apply get_set_eq. }
  now rewrite Hr.
Qed.

Lemma frame_of_commit (att : dict Z group_attendance) (sal : dict Z group_salary)
    (g : Z) (ga : group_attendance) (gs : group_salary) :
  frame_of (mk_state (set att g ga) (set sal g gs)) g = mk_frame ga gs.
Proof. unfold frame_of; simpl. now rewrite !get_set_eq. Qed.

Lemma prepared_day (s : state) (g : Z) (u : tg_user) (date : string) :
  day_at (group_att (prepared_frame s g u date)) date
  = day_at (group_att (frame_of s g)) date.
Proof.
  unfold prepared_frame; simpl. unfold day_at at 1.
  now rewrite day_at_ensure.
Qed.

(** A first mark of the session by a non-administrator: the entry goes to
    the session's list, and the penalty is charged exactly when the time of
    day is outside both windows. *)
Lemma first_mark (s : state) (m : update) (g : Z) :
  let u := effective_user m in
  let c := at_clock m in
  let sess := current_session (now c) in
  let late_flag := negb (is_within_window (now c)) in
  let s' := fst (handle_message s m) in
  effective_chat m = Some g -> text m = "1" ->
  is_admin (u_id u) = false ->
  already_marked s g (today c) sess (u_id u) = false ->
  snd (handle_message s m)
  = (if late_flag then MarkedLate sess (strftime_HMS (now c)) LATE_PENALTY
     else MarkedOnTime sess (strftime_HMS (now c)))
  /\ entries_of s' g (today c) sess
     = entries_of s g (today c) sess
       ++ [mk_entry (u_id u) (display_name u) (today c)
                    (strftime_HMS (now c)) late_flag sess]
  /\ salary_of s' g (u_id u)
     = Some (if late_flag
             then apply_deduction (sender_record s g u) (today c) r_late
             else sender_record s g u).
Proof.
  intros u c sess late_flag s' Hc Ht Hna Hnm. subst s'.
  rewrite (handle_message_eq s m Hc).
  cbn [fst snd]. unfold entries_of, salary_of. rewrite frame_of_commit.
  cbn [group_att group_sal].
  unfold dispatch. rewrite Ht. cbn [String.eqb Ascii.eqb Bool.eqb].
  unfold mark. fold u c. rewrite prepared_day. fold sess.
  unfold already_marked in Hnm. rewrite Hnm, Hna.
  subst late_flag. destruct (negb (is_within_window (now c))).
  - cbn [fst snd group_att group_sal]. split; [reflexivity|]. split.
    + unfold day_at at 1. rewrite get_set_eq. apply day_get_append.
    + rewrite get_set_eq. reflexivity.
  - cbn [fst snd group_att group_sal]. split; [reflexivity|]. split.
    + unfold day_at at 1. rewrite get_set_eq. apply day_get_append.
    + unfold prepared_frame; cbn [group_sal]. apply ensure_user_salary_get.
Qed.

(** ** Claims on the window policy *)

(** C8. The two windows are closed intervals: 10:00:00, 10:30:00, 16:30:00
    and 17:00:00 are on time, 10:30:01 and 17:00:01 are late, and in general
    a time of day is on time exactly when it lies in [10:00:00, 10:30:00] or
    in [16:30:00, 17:00:00], bounds included; a first check-in of a
    non-administrator is answered and recorded as on time or late by that
    test alone. *)
Theorem window_bounds_inclusive (s : state) (m : update) (g : Z) (t : dtime) :
  let u := effective_user m in
  let c := at_clock m in
  let sess := current_session (now c) in
  let s' := fst (handle_message s m) in
  time_wf t ->
  effective_chat m = Some g -> text m = "1" ->
  is_admin (u_id u) = false ->
  already_marked s g (today c) sess (u_id u) = false ->
  is_within_window (dtime_hms 10 0 0) = true
  /\ is_within_window (dtime_hms 10 30 0) = true
  /\ is_within_window (dtime_hms 16 30 0) = true
  /\ is_within_window (dtime_hms 17 0 0) = true
  /\ is_within_window (dtime_hms 10 30 1) = false
  /\ is_within_window (dtime_hms 17 0 1) = false
  /\ (is_within_window t = true <->
      us_of_day (dtime_hms 10 0 0) <= us_of_day t
        <= us_of_day (dtime_hms 10 30 0)
      \/ us_of_day (dtime_hms 16 30 0) <= us_of_day t
        <= us_of_day (dtime_hms 17 0 0))
  /\ snd (handle_message s m)
     = (if is_within_window (now c)
        then MarkedOnTime sess (strftime_HMS (now c))
        else MarkedLate sess (strftime_HMS (now c)) LATE_PENALTY)
  /\ (exists e, entries_of s' g (today c) sess
                = entries_of s g (today c) sess ++ [e]
                /\ user_id e = u_id u
                /\ late e = negb (is_within_window (now c))).
Proof.
  intros u c sess s' Ht Hc Htx Hna Hnm.
  repeat (split; [reflexivity|]).
  split; [apply (is_within_window_spec Ht)|].
  destruct (first_mark s m Hc Htx Hna Hnm) as [Hr [Hes _]].
  fold u c sess s' in Hr, Hes. split.
  - rewrite Hr. now destruct (is_within_window (now c)).
  - eexists. split; [exact Hes|]. split; reflexivity.
Qed.

Lemma window_bounds_inclusive_witness :
  let on_time := Fixture.msg "1" Fixture.alice (Fixture.jan1 10 30 0) in
  let too_late := Fixture.msg "1" Fixture.alice (Fixture.jan1 10 30 1) in
  time_wf (mk_dtime 10 30 0 1)
  /\ is_within_window (mk_dtime 10 30 0 1) = false
  /\ snd (handle_message empty_state on_time)
     = MarkedOnTime morning "10:30:00"
  /\ snd (handle_message empty_state too_late)
     = MarkedLate morning "10:30:01" 50.
Proof.
  intros on_time too_late.
  assert (time_wf (mk_dtime 10 30 0 1)) as Hwf by (unfold time_wf; simpl; lia).
  pose proof (@window_bounds_inclusive empty_state on_time 100
                (mk_dtime 10 30 0 1) Hwf eq_refl eq_refl eq_refl eq_refl) as H1.
  pose proof (@window_bounds_inclusive empty_state too_late 100
                (mk_dtime 10 30 0 1) Hwf eq_refl eq_refl eq_refl eq_refl) as H2.
  destruct H1 as (_ & _ & _ & _ & _ & _ & _ & Hon & _).
  destruct H2 as (_ & _ & _ & _ & _ & _ & _ & Hlate & _).
  split; [exact Hwf|]. split; [reflexivity|].
  split; [exact Hon | exact Hlate].
Defined.

(** C7. The session is the side of 13:00:00 the time of day falls on; the
    lateness is the complement of the two windows and does not look at the
    session: a first mark by a non-administrator outside both windows is
    answered as late, recorded with [late = true] in whichever session the
    time falls in, and charged the penalty with one ["late"] event; both
    sessions have such times.  A mark at 10:45:00 by a user without a record
    leaves that user with deductions 50 and the single event (late, 50). *)
Theorem session_and_lateness (s : state) (m : update) (g : Z) (t : dtime) :
  let u := effective_user m in
  let c := at_clock m in
  let sess := current_session (now c) in
  let s' := fst (handle_message s m) in
  time_wf t ->
  effective_chat m = Some g -> text m = "1" ->
  is_admin (u_id u) = false ->
  already_marked s g (today c) sess (u_id u) = false ->
  is_within_window (now c) = false ->
  (current_session t = morning <-> us_of_day t < us_of_day (dtime_hms 13 0 0))
  /\ (current_session t = evening <->
      us_of_day (dtime_hms 13 0 0) <= us_of_day t)
  /\ (is_within_window t = false <->
      ~ (us_of_day MORNING_START <= us_of_day t <= us_of_day MORNING_END
         \/ us_of_day EVENING_START <= us_of_day t <= us_of_day EVENING_END))
  /\ (current_session (dtime_hms 12 0 0) = morning
      /\ is_within_window (dtime_hms 12 0 0) = false
      /\ current_session (dtime_hms 14 0 0) = evening
      /\ is_within_window (dtime_hms 14 0 0) = false)
  /\ snd (handle_message s m)
     = MarkedLate sess (strftime_HMS (now c)) LATE_PENALTY
  /\ entries_of s' g (today c) sess
     = entries_of s g (today c) sess
       ++ [mk_entry (u_id u) (display_name u) (today c)
                    (strftime_HMS (now c)) true sess]
  /\ salary_of s' g (u_id u)
     = Some (mk_salary (username (sender_record s g u))
                       (deductions (sender_record s g u) + 50)
                       (history (sender_record s g u)
                        ++ [mk_event (today c) 50 r_late]))
  /\ (now c = dtime_hms 10 45 0 -> salary_of s g (u_id u) = None ->
      sess = morning
      /\ salary_of s' g (u_id u)
         = Some (mk_salary (str_or (display_name u) "unknown") 50
                           [mk_event (today c) 50 r_late])).
Proof.
  intros u c sess s' Ht Hc Htx Hna Hnm Hw.
  destruct (current_session_spec Ht) as [Hm He].
  split; [exact Hm|]. split; [exact He|]. split.
  { rewrite <- (is_within_window_spec Ht).
    destruct (is_within_window t); split; congruence. }
  split; [repeat split; reflexivity|].
  destruct (first_mark s m Hc Htx Hna Hnm) as [Hr [Hes Hs]].
  fold u c sess s' in Hr, Hes, Hs. rewrite Hw in Hr, Hes, Hs.
  cbn [negb] in Hr, Hes, Hs.
  split; [exact Hr|]. split; [exact Hes|]. split; [exact Hs|].
  intros Hnow Hnone. split; [subst sess; now rewrite Hnow|].
  rewrite Hs. unfold sender_record, ensure_user_salary.
  unfold salary_of in Hnone. rewrite Hnone.
  unfold rec_at. rewrite get_set_eq. reflexivity.
Qed.

Lemma session_and_lateness_witness :
  let m := Fixture.msg "1" Fixture.alice (Fixture.jan1 10 45 0) in
  let s' := fst (handle_message empty_state m) in
  time_wf (dtime_hms 12 59 59)
  /\ snd (handle_message empty_state m) = MarkedLate morning "10:45:00" 50
  /\ salary_of s' 100 1
     = Some (mk_salary "alice" 50 [mk_event "2025-01-01" 50 r_late]).
Proof.
  intros m s'.
  assert (time_wf (dtime_hms 12 59 59)) as Hwf
    by (unfold time_wf; simpl; lia).
  pose proof (@session_and_lateness empty_state m 100 (dtime_hms 12 59 59)
                Hwf eq_refl eq_refl eq_refl eq_refl eq_refl) as H.
  destruct H as (_ & _ & _ & _ & Hreply & _ & _ & Hscen).
  split; [exact Hwf|]. split; [exact Hreply|].
  exact (proj2 (Hscen eq_refl eq_refl)).
Defined.

(** ** Retraction of today's missing deductions *)

Lemma is_missing_on_spec (date : string) (h : event) :
  is_missing_on date h = true <-> ev_date h = date /\ ev_reason h = r_missing.
Proof.
  unfold is_missing_on. rewrite andb_true_iff, String.eqb_eq.
  destruct (ev_reason h); simpl; split; intros [? ?]; split;
    auto; discriminate.
Qed.

Lemma retract_rec_retracted (date : string) (uid : Z) (r : salary_rec) :
  retracted date (uid, r) (uid, retract_rec_on date r).
Proof.
  unfold retracted, removed_on, retract_rec_on; simpl.
  pose proof (sum_amounts_split (is_missing_on date) (history r)) as Hs.
  destruct (filter (is_missing_on date) (history r)) as [|h hs] eqn:Hf.
  - repeat split; auto; try congruence.
    + clear Hs. induction (history r) as [|x l IH]; simpl in *; [reflexivity|].
      destruct (is_missing_on date x); [discriminate|].
      simpl. f_equal. auto.
    + intros _. change (sum_amounts []) with 0. lia.
  - repeat split; auto; try discriminate.
    intros [Hb Hn].
    pose proof (sum_amounts_nonneg
                  (Forall_filter_keep (fun x => negb (is_missing_on date x)) Hn)).
    unfold rec_balanced in Hb. simpl in Hs |- *. lia.
Qed.

Lemma Forall2_map_values {V : Type} (R : Z * V -> Z * V -> Prop) (f : V -> V)
    (d : dict Z V) :
  (forall k v, R (k, v) (k, f v)) -> Forall2 R d (map_values f d).
Proof.
  intros HR. induction d as [|[k v] d IH]; simpl; constructor; auto.
Qed.

Lemma In_combine_map_values {V : Type} (f : V -> V) (d : dict Z V)
    (kv kv' : Z * V) :
  In (kv, kv') (combine d (map_values f d)) -> kv' = (fst kv, f (snd kv)).
Proof.
  induction d as [|x d IH]; simpl; [contradiction|].
  intros [[= <- <-]|Hin]; auto.
Qed.

Lemma retract_report_eq (tick : nat -> string) (date : string)
    (gs : group_salary) :
  (forall i, tick i = date) ->
  forall k, snd (retract tick k gs) = retraction_report date gs.
Proof.
  intros Ht. unfold retraction_report, removed_on.
  induction gs as [|[uid r] gs IH]; intros k; [reflexivity|].
  cbn [retract flat_map snd].
  rewrite (@select_same_day is_missing_on tick date (history r) Ht k).
  destruct (filter (is_missing_on date) (history r)) as [|h hs].
  - rewrite <- (IH (k + List.length (history r))%nat).
    now destruct (retract tick (k + List.length (history r)) gs).
  - rewrite <- (IH (k + List.length (history r)
                      + List.length (history r))%nat).
    now destruct (retract tick (k + List.length (history r)
                                  + List.length (history r)) gs).
Qed.

(** Action "7" of an administrator during a turn in which the date does not
    change. *)
Lemma handle_retract_eq (s : state) (m : update) (g : Z) :
  let u := effective_user m in
  let date := today (at_clock m) in
  let pf := prepared_frame s g u date in
  effective_chat m = Some g -> text m = "7" -> is_admin (u_id u) = true ->
  steady (at_clock m) ->
  handle_message s m
  = (mk_state (set (attendance_data s) g (group_att pf))
              (set (salary_data s) g
                   (map_values (retract_rec_on date) (group_sal pf))),
     match retraction_report date (group_sal pf) with
     | [] => NothingToClear
     | x :: l =>
         MissingCleared (x :: l) (fold_left (fun t ua => t + snd ua) (x :: l) 0)
     end).
Proof.
  intros u date pf Hc Ht Ha Hst. rewrite (@handle_message_eq s m g Hc).
  fold u date pf. unfold dispatch. rewrite Ht. fold u. rewrite Ha.
  cbn [String.eqb Ascii.eqb Bool.eqb negb]. unfold clear_missing_today.
  pose proof (@retract_fst_same_day (today_again (at_clock m)) date
                (group_sal pf) Hst O) as H1.
  pose proof (@retract_report_eq (today_again (at_clock m)) date
                (group_sal pf) Hst O) as H2.
  destruct (retract (today_again (at_clock m)) 0 (group_sal pf))
    as [gs cleared].
  cbn [fst snd] in H1, H2. subst gs cleared.
  now destruct (retraction_report date (group_sal pf)).
Qed.

(** C3. Action "7" is not always exact: the events to remove are selected
    twice, at line 272 for the sum and at line 277 for the removal, and each
    selection calls [today_str()] anew.  When the day ends between the two,
    the sum of the old day's "missing" events is subtracted and reported and
    none of them is removed: Bob, charged 50 by the sweep, is reported as
    cleared of 50 and has [deductions] 0, and his history still holds the
    event, so his record is not the retraction of what it was. *)
Theorem retraction_inexact_at_date_change :
  let s := run empty_state Midnight.before in
  let m := Midnight.at_midnight in
  let u := effective_user m in
  let date := today (at_clock m) in
  let gs := group_sal (prepared_frame s 100 u date) in
  let gs' := group_sal (frame_of (fst (handle_message s m)) 100) in
  effective_chat m = Some 100 /\ text m = "7" /\ is_admin (u_id u) = true
  /\ get gs 2 = Some Midnight.charged
  /\ removed_on date Midnight.charged = history Midnight.charged
  /\ snd (handle_message s m) = MissingCleared [("Bob", 50)] 50
  /\ get gs' 2 = Some Midnight.left_over
  /\ history Midnight.left_over = history Midnight.charged
  /\ deductions Midnight.left_over = deductions Midnight.charged - 50
  /\ ~ Forall2 (retracted date) gs gs'.
Proof.
  intros s m u date gs gs'.
  assert (gs = [(2, Midnight.charged); (7958117532, mk_salary "boss" 0 [])])
    as Hgs by (vm_compute; reflexivity).
  assert (gs' = [(2, Midnight.left_over);
                 (7958117532, mk_salary "boss" 0 [])])
    as Hgs' by (vm_compute; reflexivity).
  repeat (split; [vm_compute; reflexivity|]).
  rewrite Hgs, Hgs'. intros H. inversion H as [|? ? ? ? Hr _]; subst.
  destruct Hr as (_ & _ & Hh & _). discriminate Hh.
Qed.

(** X22. During a turn in which the date does not change, action "7" by an
    administrator is exact: every record of the group loses exactly the
    history events dated today with reason "missing" (the others, among
    them today's "late" events, stay in place and in order); a record with
    such events has its deductions lowered by their sum, floored at 0 (and
    by exactly their sum on a ledger in order); the report lists the records
    that had such events, each with the sum removed. *)
Theorem retraction_exact_within_a_day (s : state) (m : update) (g : Z) :
  let u := effective_user m in
  let date := today (at_clock m) in
  let gs := group_sal (prepared_frame s g u date) in
  let gs' := group_sal (frame_of (fst (handle_message s m)) g) in
  effective_chat m = Some g -> text m = "7" -> is_admin (u_id u) = true ->
  steady (at_clock m) ->
  Forall2 (retracted date) gs gs'
  /\ (forall h, is_missing_on date h = true <->
                ev_date h = date /\ ev_reason h = r_missing)
  /\ (forall kv kv' h, In (kv, kv') (combine gs gs') ->
        In h (history (snd kv)) -> ev_reason h = r_late ->
        In h (history (snd kv')))
  /\ match snd (handle_message s m) with
     | NothingToClear => retraction_report date gs = []
     | MissingCleared cleared _ =>
         cleared = retraction_report date gs /\ cleared <> []
     | _ => False
     end.
Proof.
  intros u date gs gs' Hc Ht Ha Hst.
  pose proof (@handle_retract_eq s m g Hc Ht Ha Hst) as He. cbv zeta in He.
  fold u date in He. fold gs in He.
  assert (gs' = map_values (retract_rec_on date) gs) as Hgs'.
  { unfold gs'. rewrite He. cbn [fst]. now rewrite frame_of_commit. }
  split; [|split; [|split]].
  - rewrite Hgs'. apply Forall2_map_values. intros k v.
    apply retract_rec_retracted.
  - intros h. apply is_missing_on_spec.
  - rewrite Hgs'. intros kv kv' h Hin Hh Hlate.
    apply In_combine_map_values in Hin. subst kv'.
    destruct (retract_rec_retracted date (fst kv) (snd kv))
      as (_ & _ & Hhist & _). simpl in Hhist. simpl. rewrite Hhist.
    apply filter_In. split; [assumption|].
    unfold is_missing_on. rewrite Hlate. simpl. now rewrite andb_false_r.
  - rewrite He. cbn [snd].
    destruct (retraction_report date gs) as [|x l] eqn:E; [reflexivity|].
    split; [reflexivity | discriminate].
Qed.

Lemma retraction_exact_within_a_day_witness :
  let s := run empty_state Scenario.before_retract in
  let m := Scenario.retract_msg in
  is_admin (u_id (effective_user m)) = true
  /\ steady (at_clock m)
  /\ Forall2 (retracted "2025-01-01")
             (group_sal (prepared_frame s 100 Fixture.boss "2025-01-01"))
             (group_sal (frame_of (fst (handle_message s m)) 100))
  /\ snd (handle_message s m)
     = MissingCleared [("Bob", 100); ("unknown", 100)] 200.
Proof.
  intros s m. split; [reflexivity|].
  split; [intros i; reflexivity|].
  pose proof (@retraction_exact_within_a_day s m 100 eq_refl eq_refl eq_refl
                (fun i => eq_refl)) as H.
  split; [exact (proj1 H) | vm_compute; reflexivity].
Defined.

(** ** Idempotent marking *)

Lemma names_invariant :
  rec_invariant any_reads (fun _ r => truthy (username r) = true).
Proof.
  constructor; simpl; auto.
  - intros _ n. unfold str_or. now destruct (truthy n) eqn:E.
  - intros _ r tick k _ H. unfold retract_rec.
    now destruct (select is_missing_on tick k (history r)).
Qed.

Lemma existsb_user_id_In (l : list entry) (uid : Z) :
  existsb (fun e => user_id e =? uid) l = true <-> In uid (map user_id l).
Proof.
  rewrite existsb_exists, in_map_iff. split.
  - intros [e [Hin He]]. apply Z.eqb_eq in He. now exists e.
  - intros [e [He Hin]]. exists e. split; [assumption|]. now apply Z.eqb_eq.
Qed.

Lemma day_ok_append (day : day_rec) (sess : session) (e : entry) :
  day_ok day ->
  existsb (fun x => user_id x =? user_id e) (day_get day sess) = false ->
  day_ok (day_append day sess e).
Proof.
  intros [Hm He] Hne.
  assert (~ In (user_id e) (map user_id (day_get day sess))) as Hni.
  { intros Hin. apply existsb_user_id_In in Hin. congruence. }
  assert (forall l, NoDup (map user_id l) -> ~ In (user_id e) (map user_id l) ->
                    NoDup (map user_id (l ++ [e]))) as Happ.
  { intros l Hl Hn. rewrite map_app. simpl.
    apply NoDup_app; [assumption | repeat constructor; intros [] |].
    intros x Hx [<-|[]]. contradiction. }
  destruct sess; split; simpl in *; auto.
Qed.

Lemma day_at_ok (ga : group_attendance) (date : string) :
  all_values (fun _ day => day_ok day) ga -> day_ok (day_at ga date).
Proof.
  intros Hga. unfold day_at. destruct (get ga date) as [day|] eqn:Hg.
  - apply (Hga date). now apply get_In.
  - split; constructor.
Qed.

Lemma mark_att_ok (f : frame) (u : tg_user) (c : clock) :
  all_values (fun _ day => day_ok day) (group_att f) ->
  all_values (fun _ day => day_ok day) (group_att (fst (mark f u c))).
Proof.
  intros Hf. unfold mark.
  destruct (existsb _ _) eqn:Hex; [assumption|].
  assert (forall b, day_ok (day_append (day_at (group_att f) (today c))
            (current_session (now c))
            (mk_entry (u_id u) (display_name u) (today c)
                      (strftime_HMS (now c)) b (current_session (now c)))))
    as Hday.
  { intros b. apply day_ok_append; [now apply day_at_ok | exact Hex]. }
  destruct (is_admin (u_id u)); [|destruct (negb _)];
    cbn [fst group_att]; apply all_values_set; auto.
Qed.

Lemma dispatch_att_ok (f : frame) (m : update) :
  all_values (fun _ day => day_ok day) (group_att f) ->
  all_values (fun _ day => day_ok day) (group_att (fst (dispatch f m))).
Proof.
  intros Hf. unfold dispatch.
  destruct (text m =? "1")%string; [now apply mark_att_ok|].
  destruct (text m =? "2")%string; [assumption|].
  destruct (text m =? "3")%string; [assumption|].
  destruct (text m =? "4")%string.
  { destruct (negb _); [assumption|]. case (group_sal f); intros; exact Hf. }
  destruct (text m =? "5")%string.
  { destruct (negb _); assumption. }
  destruct (text m =? "6")%string.
  { destruct (negb _); [assumption|]. unfold sweep.
    destruct (known_members _ _); [assumption|].
    destruct (missing_members _ _); assumption. }
  destruct (text m =? "7")%string.
  { destruct (negb _); [assumption|]. unfold clear_missing_today.
    destruct (retract _ _ _) as [gs [|x cleared]]; assumption. }
  destruct (text m =? "0")%string; [|assumption].
  destruct (negb _); [assumption|]. intros k v [].
Qed.

Lemma handle_message_att_ok (s : state) (m : update) :
  attendance_ok s -> attendance_ok (fst (handle_message s m)).
Proof.
  intros Hs. destruct (effective_chat m) as [g|] eqn:Hc.
  - rewrite (handle_message_eq s m Hc). cbn [fst].
    unfold attendance_ok; cbn [attendance_data].
    apply all_values_set; [exact Hs|].
    apply dispatch_att_ok. unfold prepared_frame; cbn [group_att].
    unfold ensure_day_structure. destruct (contains _ _).
    + unfold frame_of; cbn [group_att].
      destruct (get (attendance_data s) g) as [ga|] eqn:Hg.
      * apply (Hs g). now apply get_In.
      * intros k v [].
    + apply all_values_set; [|split; constructor].
      unfold frame_of; cbn [group_att].
      destruct (get (attendance_data s) g) as [ga|] eqn:Hg.
      * apply (Hs g). now apply get_In.
      * intros k v [].
  - unfold handle_message. now rewrite Hc.
Qed.

Lemma run_att_ok (ms : list update) :
  forall s, attendance_ok s -> attendance_ok (run s ms).
Proof.
  induction ms as [|m ms IH]; intros s Hs; [assumption|].
  rewrite run_cons. apply IH. now apply handle_message_att_ok.
Qed.

(** Every state the handler reaches from the empty ledgers is in order. *)
Lemma reachable_ok (ms : list update) :
  let s := run empty_state ms in
  names_ok s /\ attendance_ok s /\ admin_clean s.
Proof.
  cbv zeta. split; [|split].
  - apply (@run_inv _ _ names_invariant ms (any_reads_all ms)).
    intros g gs [].
  - apply run_att_ok. intros g ga [].
  - apply (@run_inv _ _ admin_invariant ms (any_reads_all ms)).
    intros g gs [].
Qed.

(** A mark by a user who is on today's list of the session, and whose record
    has a name on file, changes nothing. *)
Lemma handle_mark_again (s : state) (m : update) (g : Z)
    (ga : group_attendance) (day : day_rec) (gs : group_salary)
    (r : salary_rec) :
  let u := effective_user m in
  let c := at_clock m in
  let sess := current_session (now c) in
  effective_chat m = Some g -> text m = "1" ->
  get (attendance_data s) g = Some ga -> get ga (today c) = Some day ->
  existsb (fun e => user_id e =? u_id u) (day_get day sess) = true ->
  get (salary_data s) g = Some gs -> get gs (u_id u) = Some r ->
  truthy (username r) = true ->
  handle_message s m = (s, AlreadyMarked sess).
Proof.
  intros u c sess Hc Ht Hga Hday Hex Hgs Hr Hn.
  rewrite (handle_message_eq s m Hc).
  assert (prepared_frame s g u (today c) = mk_frame ga gs) as Hpf.
  { unfold prepared_frame, frame_of. rewrite Hga, Hgs. cbn [group_att group_sal].
    unfold ensure_day_structure, contains, ensure_user_salary.
    rewrite Hday, Hr, Hn. cbn [negb]. now rewrite andb_false_r. }
  fold u c. rewrite Hpf.
  unfold dispatch. rewrite Ht. cbn [String.eqb Ascii.eqb Bool.eqb].
  unfold mark. fold u c sess. cbn [group_att].
  unfold day_at. rewrite Hday, Hex. cbn [fst snd group_att group_sal].
  rewrite (set_same _ _ Hga), (set_same _ _ Hgs). now destruct s.
Qed.

(** After a mark the sender is on the session's list and has a record. *)
Lemma mark_result (f : frame) (u : tg_user) (c : clock) (day0 : day_rec)
    (r0 : salary_rec) :
  let sess := current_session (now c) in
  get (group_att f) (today c) = Some day0 ->
  get (group_sal f) (u_id u) = Some r0 ->
  exists day1 r1,
    get (group_att (fst (mark f u c))) (today c) = Some day1
    /\ existsb (fun e => user_id e =? u_id u) (day_get day1 sess) = true
    /\ get (group_sal (fst (mark f u c))) (u_id u) = Some r1.
Proof.
  intros sess Hday Hr. unfold mark. fold sess.
  unfold day_at. rewrite Hday.
  destruct (existsb _ (day_get day0 sess)) eqn:Hex.
  - exists day0, r0. auto.
  - assert (forall b,
      existsb (fun e => user_id e =? u_id u)
        (day_get (day_append day0 sess
                    (mk_entry (u_id u) (display_name u) (today c)
                              (strftime_HMS (now c)) b sess)) sess) = true)
      as Happ.
    { intros b. rewrite day_get_append, existsb_app. simpl.
      rewrite Z.eqb_refl. now rewrite orb_true_r. }
    destruct (is_admin (u_id u)); [|destruct (negb _)];
      cbn [fst group_att group_sal]; eexists; eexists;
      rewrite ?get_set_eq; repeat split; eauto.
Qed.

(** C2. Marking is idempotent per group, day, session and user: after a
    mark, a second mark by the same user in the same group, on the same day
    and in the same session, whatever its time and whatever the display name,
    is answered [AlreadyMarked] and leaves both ledgers as they were; the
    session's list holds exactly one entry of that user, and no list of any
    day holds a user twice. *)
Theorem mark_idempotent (s : state) (m1 m2 : update) (g : Z) :
  let uid := u_id (effective_user m1) in
  let date := today (at_clock m1) in
  let sess := current_session (now (at_clock m1)) in
  let s1 := fst (handle_message s m1) in
  names_ok s -> attendance_ok s ->
  effective_chat m1 = Some g -> effective_chat m2 = Some g ->
  text m1 = "1" -> text m2 = "1" ->
  u_id (effective_user m2) = uid ->
  today (at_clock m2) = date ->
  current_session (now (at_clock m2)) = sess ->
  handle_message s1 m2 = (s1, AlreadyMarked sess)
  /\ count_occ Z.eq_dec (map user_id (entries_of s1 g date sess)) uid = 1%nat
  /\ attendance_ok s1.
Proof.
  intros uid date sess s1 Hnames Hatt Hc1 Hc2 Ht1 Ht2 Hu Hd Hs.
  pose proof (@handle_message_inv _ _ names_invariant s m1 I Hnames)
    as Hnames1.
  pose proof (handle_message_att_ok m1 Hatt) as Hatt1.
  fold s1 in Hnames1, Hatt1.
  pose proof (handle_message_eq s m1 Hc1) as Heq. cbv zeta in Heq.
  set (pf := prepared_frame s g (effective_user m1) (today (at_clock m1))) in *.
  assert (dispatch pf m1 = mark pf (effective_user m1) (at_clock m1)) as Hd1.
  { unfold dispatch. now rewrite Ht1. }
  rewrite Hd1 in Heq.
  destruct (@mark_result pf (effective_user m1) (at_clock m1)
              (day_at (group_att (frame_of s g)) date)
              (rec_at (group_sal pf) uid))
    as (day1 & r1 & Hday1 & Hex1 & Hr1).
  { unfold pf, prepared_frame; cbn [group_att]. apply day_at_ensure. }
  { unfold pf, prepared_frame; cbn [group_sal]. apply ensure_user_salary_get. }
  set (f1 := fst (mark pf (effective_user m1) (at_clock m1))) in *.
  assert (s1 = mk_state (set (attendance_data s) g (group_att f1))
                        (set (salary_data s) g (group_sal f1))) as Hs1.
  { unfold s1. now rewrite Heq. }
  assert (In (g, group_att f1) (attendance_data s1)) as Hin_att.
  { rewrite Hs1. cbn [attendance_data]. apply get_In, get_set_eq. }
  assert (In (g, group_sal f1) (salary_data s1)) as Hin_sal.
  { rewrite Hs1. cbn [salary_data]. apply get_In, get_set_eq. }
  fold date in Hday1. fold uid in Hr1, Hex1. fold sess in Hex1.
  split; [|split; [|exact Hatt1]].
  - rewrite <- Hs in *. rewrite <- Hd in *. rewrite <- Hu in *.
    apply (@handle_mark_again s1 m2 g (group_att f1) day1 (group_sal f1) r1);
      auto.
    + rewrite Hs1. cbn [attendance_data]. apply get_set_eq.
    + rewrite Hs1. cbn [salary_data]. apply get_set_eq.
    + apply (Hnames1 _ _ Hin_sal (u_id (effective_user m2))).
      now apply get_In.
  - assert (entries_of s1 g date sess = day_get day1 sess) as ->.
    { unfold entries_of. rewrite Hs1, frame_of_commit. cbn [group_att].
      unfold day_at. now rewrite Hday1. }
    apply NoDup_count_occ'.
    + assert (day_ok day1) as [Hm He].
      { apply (Hatt1 _ _ Hin_att date). now apply get_In. }
      now destruct sess.
    + now apply existsb_user_id_In.
Qed.

Lemma names_ok_stored : names_ok Fixture.stored.
Proof.
  intros g gs Hg uid r Hr. in_cases Hg. in_cases Hr; reflexivity.
Qed.

Lemma attendance_ok_stored : attendance_ok Fixture.stored.
Proof.
  intros g ga Hg date day Hd. in_cases Hg. in_cases Hd. split; constructor.
Qed.

Lemma mark_idempotent_witness :
  let m1 := Fixture.msg "1" Fixture.alice (Fixture.jan1 10 5 0) in
  let m2 := Fixture.msg "1" (mk_user 1 (Some "alice_new") "Alice")
                        (Fixture.jan1 10 20 0) in
  let s1 := fst (handle_message Fixture.stored m1) in
  names_ok Fixture.stored /\ attendance_ok Fixture.stored
  /\ snd (handle_message Fixture.stored m1) = MarkedOnTime morning "10:05:00"
  /\ handle_message s1 m2 = (s1, AlreadyMarked morning)
  /\ count_occ Z.eq_dec
       (map user_id (entries_of s1 100 "2025-01-01" morning)) 1 = 1%nat.
Proof.
  intros m1 m2 s1.
  pose proof (@mark_idempotent Fixture.stored m1 m2 100
                names_ok_stored attendance_ok_stored
                eq_refl eq_refl eq_refl eq_refl eq_refl eq_refl eq_refl) as H.
  split; [exact names_ok_stored|]. split; [exact attendance_ok_stored|].
  split; [reflexivity|]. split; [exact (proj1 H) | exact (proj1 (proj2 H))].
Defined.

(** ** The keys of the salary ledger *)

Lemma keys_ext_refl (gs : group_salary) : keys_ext gs gs.
Proof. split; [auto | apply incl_refl]. Qed.

Lemma keys_ext_trans (a b c : group_salary) :
  keys_ext a b -> keys_ext b c -> keys_ext a c.
Proof.
  intros [N1 I1] [N2 I2]. split; [auto | eapply incl_tran; eauto].
Qed.

Lemma keys_ext_set (gs : group_salary) (uid : Z) (r : salary_rec) :
  keys_ext gs (set gs uid r).
Proof.
  split; [apply NoDup_keys_set|].
  destruct (get gs uid) as [r0|] eqn:Hg.
  - erewrite keys_set_present by eassumption. apply incl_refl.
  - rewrite keys_set_absent by assumption. now apply incl_appl, incl_refl.
Qed.

Lemma keys_ext_map_values (f : salary_rec -> salary_rec) (gs : group_salary) :
  keys_ext gs (map_values f gs).
Proof.
  unfold keys_ext. rewrite keys_map_values. split; [auto | apply incl_refl].
Qed.

Lemma keys_ext_ensure (gs : group_salary) (uid : Z) (n : string) :
  keys_ext gs (ensure_user_salary gs uid n).
Proof.
  unfold ensure_user_salary. destruct (get gs uid) as [r|].
  - destruct (truthy n && negb (truthy (username r)));
      [apply keys_ext_set | apply keys_ext_refl].
  - apply keys_ext_set.
Qed.

Lemma keys_ext_penalize (date : string) (missing : list (Z * string)) :
  forall gs, keys_ext gs (penalize date gs missing).
Proof.
  unfold penalize.
  induction missing as [|m missing IH]; intros gs; simpl;
    [apply keys_ext_refl|].
  eapply keys_ext_trans; [|apply IH].
  eapply keys_ext_trans; [apply keys_ext_ensure | apply keys_ext_set].
Qed.

Lemma keys_ext_dispatch (f : frame) (m : update) :
  keys_ext (group_sal f) (group_sal (fst (dispatch f m))).
Proof.
  unfold dispatch.
  destruct (text m =? "1")%string.
  { unfold mark. destruct (existsb _ _); [apply keys_ext_refl|].
    destruct (is_admin _); [apply keys_ext_refl|].
    destruct (negb _); [apply keys_ext_set | apply keys_ext_refl]. }
  destruct (text m =? "2")%string; [apply keys_ext_refl|].
  destruct (text m =? "3")%string; [apply keys_ext_refl|].
  destruct (text m =? "4")%string.
  { destruct (negb _); [apply keys_ext_refl|].
    destruct (group_sal f) eqn:E; cbn [fst]; rewrite E; apply keys_ext_refl. }
  destruct (text m =? "5")%string.
  { destruct (negb _); [apply keys_ext_refl | apply keys_ext_map_values]. }
  destruct (text m =? "6")%string.
  { destruct (negb _); [apply keys_ext_refl|]. unfold sweep.
    destruct (known_members _ _); [apply keys_ext_refl|].
    destruct (missing_members _ _);
      [apply keys_ext_refl | apply keys_ext_penalize]. }
  destruct (text m =? "7")%string.
  { destruct (negb _); [apply keys_ext_refl|]. unfold clear_missing_today.
    pose proof (@retract_keys (today_again (at_clock m)) (group_sal f) O)
      as Hr.
    destruct (retract _ _ _) as [gs cleared]. cbn [fst] in Hr.
    assert (keys_ext (group_sal f) gs) as Hk.
    { unfold keys_ext. rewrite Hr. split; [auto | apply incl_refl]. }
    destruct cleared; exact Hk. }
  destruct (text m =? "0")%string; [|apply keys_ext_refl].
  destruct (negb _); apply keys_ext_refl.
Qed.

Lemma frame_of_dict_ok (s : state) (g : Z) :
  dict_ok s -> NoDup (keys (group_sal (frame_of s g))).
Proof.
  intros Hs. unfold frame_of; cbn [group_sal].
  destruct (get (salary_data s) g) as [gs|] eqn:Hg.
  - apply (Hs g). now apply get_In.
  - constructor.
Qed.

Lemma prepared_keys_ext (s : state) (g : Z) (u : tg_user) (date : string) :
  keys_ext (group_sal (frame_of s g)) (group_sal (prepared_frame s g u date)).
Proof. unfold prepared_frame; cbn [group_sal]. apply keys_ext_ensure. Qed.

Lemma handle_message_dict_ok (s : state) (m : update) :
  dict_ok s -> dict_ok (fst (handle_message s m)).
Proof.
  intros Hs. destruct (effective_chat m) as [g|] eqn:Hc.
  - rewrite (handle_message_eq s m Hc). cbn [fst].
    unfold dict_ok; cbn [salary_data]. apply all_values_set; [exact Hs|].
    apply keys_ext_dispatch, prepared_keys_ext. now apply frame_of_dict_ok.
  - unfold handle_message. now rewrite Hc.
Qed.

Lemma run_dict_ok (ms : list update) :
  forall s, dict_ok s -> dict_ok (run s ms).
Proof.
  induction ms as [|m ms IH]; intros s Hs; [assumption|].
  rewrite run_cons. apply IH. now apply handle_message_dict_ok.
Qed.

(** A salary record, once created, is never removed. *)
Lemma handle_message_keeps_keys (s : state) (m : update) (g uid : Z) :
  In uid (keys (group_sal (frame_of s g))) ->
  In uid (keys (group_sal (frame_of (fst (handle_message s m)) g))).
Proof.
  intros Hin. destruct (effective_chat m) as [g'|] eqn:Hc.
  - rewrite (handle_message_eq s m Hc). cbn [fst].
    destruct (Z.eq_dec g g') as [->|Hne].
    + rewrite frame_of_commit. cbn [group_sal].
      apply (proj2 (keys_ext_dispatch _ m)).
      now apply (proj2 (prepared_keys_ext s g' (effective_user m)
                          (today (at_clock m)))).
    + unfold frame_of in *; cbn [group_sal salary_data] in *.
      now rewrite get_set_ne.
  - unfold handle_message. now rewrite Hc.
Qed.

Lemma run_keeps_keys (ms : list update) (g uid : Z) :
  forall s, In uid (keys (group_sal (frame_of s g))) ->
            In uid (keys (group_sal (frame_of (run s ms) g))).
Proof.
  induction ms as [|m ms IH]; intros s Hs; [assumption|].
  rewrite run_cons. apply IH. now apply handle_message_keeps_keys.
Qed.

(** ** The missing sweep *)

Lemma existsb_Zeqb_In (x : Z) (l : list Z) :
  existsb (Z.eqb x) l = true <-> In x l.
Proof.
  rewrite existsb_exists. split.
  - intros [y [Hin Heq]]. apply Z.eqb_eq in Heq. now subst.
  - intros Hin. exists x. split; [assumption | apply Z.eqb_refl].
Qed.

Lemma existsb_Zeqb_false (x : Z) (l : list Z) :
  ~ In x l -> existsb (Z.eqb x) l = false.
Proof.
  intros Hni. destruct (existsb (Z.eqb x) l) eqn:E; [|reflexivity].
  apply existsb_Zeqb_In in E. contradiction.
Qed.

(** On a dictionary, the penalty loop over members taken from that
    dictionary charges each of them once and creates or renames nothing. *)
Lemma penalize_spec (date : string) (missing : list (Z * string)) :
  forall gs : group_salary,
    NoDup (keys gs) -> NoDup (map fst missing) ->
    (forall uid n, In (uid, n) missing ->
                   exists r, get gs uid = Some r /\ username r = n) ->
    penalize date gs missing = map (penalized date missing) gs.
Proof.
  unfold penalize.
  induction missing as [|[uid n] missing IH]; intros gs Hgs Hnd Hmem.
  - simpl. symmetry. erewrite map_ext; [apply map_id|]. intros kv. reflexivity.
  - cbn [fold_left fst snd].
    destruct (Hmem uid n (or_introl eq_refl)) as [r [Hr Hn]].
    inversion Hnd as [|? ? Hni Hnd']; subst. cbn [fst] in Hni.
    assert (ensure_user_salary gs uid (username r) = gs) as Hens.
    { unfold ensure_user_salary. rewrite Hr.
      now destruct (truthy (username r)). }
    rewrite Hens.
    assert (rec_at gs uid = r) as -> by (unfold rec_at; now rewrite Hr).
    rewrite IH; [| | assumption |].
    + rewrite (@set_as_map _ _ _ gs uid _ r Hgs Hr), map_map.
      apply map_ext_in.
      intros [k v] Hin. unfold penalized. cbn [fst snd keqb Key_Z map].
      cbn [existsb]. rewrite (Z.eqb_sym k uid).
      destruct (Z.eqb_spec uid k) as [<-|Hne]; cbn [fst snd orb].
      * rewrite existsb_Zeqb_false by exact Hni.
        pose proof (@In_get _ _ _ gs uid v Hgs Hin) as Hv. rewrite Hr in Hv.
        now injection Hv as ->.
      * reflexivity.
    + erewrite keys_set_present by eassumption. assumption.
    + intros uid' n' Hin'.
      destruct (Hmem uid' n' (or_intror Hin')) as [r' [Hr' Hn']].
      exists r'. split; [|assumption].
      rewrite get_set_ne; [assumption|].
      intros ->. apply Hni. change uid with (fst (uid, n')).
      now apply in_map.
Qed.

Lemma salary_members_keys (gs : group_salary) :
  map fst (salary_members gs) = keys gs.
Proof. unfold salary_members, keys. rewrite map_map. reflexivity. Qed.

Lemma filter_members_NoDup (keep : Z * string -> bool)
    (members : list (Z * string)) :
  NoDup (map fst members) -> NoDup (map fst (filter keep members)).
Proof.
  intros Hnd. induction members as [|mem members IH]; [exact Hnd|].
  inversion Hnd as [|? ? Hni Hnd']; subst. cbn [filter].
  destruct (keep mem); [|now apply IH].
  cbn [map]. constructor; [|now apply IH].
  intros Hin. apply Hni.
  apply in_map_iff in Hin as [other [Hother Hin]].
  apply filter_In in Hin as [Hin _].
  rewrite <- Hother. now apply in_map.
Qed.

Lemma unmarked_members_spec (gs : group_salary) (marked : list Z)
    (uid : Z) (n : string) :
  In (uid, n) (unmarked_members gs marked) <->
  In (uid, n) (salary_members gs) /\ ~ In uid marked /\ ~ In uid ADMIN_IDS.
Proof.
  unfold unmarked_members. rewrite filter_In. cbn [fst].
  rewrite andb_true_iff, !negb_true_iff.
  rewrite <- is_admin_In, <- existsb_Zeqb_In.
  destruct (existsb (Z.eqb uid) marked), (is_admin uid); intuition congruence.
Qed.

Lemma unmarked_members_on_file (gs : group_salary) (marked : list Z)
    (uid : Z) (n : string) :
  NoDup (keys gs) ->
  In (uid, n) (unmarked_members gs marked) ->
  exists r, get gs uid = Some r /\ username r = n.
Proof.
  intros Hnd Hin. apply unmarked_members_spec in Hin as [Hin _].
  unfold salary_members in Hin.
  apply in_map_iff in Hin as [[k r] [[= <- <-] Hin]].
  exists r. split; [now apply In_get | reflexivity].
Qed.

(** The sweep on a frame whose salary dictionary is not empty. *)
Lemma sweep_spec (f : frame) (c : clock) :
  let sess := current_session (now c) in
  let marked := marked_ids (day_at (group_att f) (today c)) sess in
  let missing := unmarked_members (group_sal f) marked in
  NoDup (keys (group_sal f)) -> group_sal f <> [] ->
  known_members (group_sal f) (group_att f) = salary_members (group_sal f)
  /\ group_att (fst (sweep f c)) = group_att f
  /\ group_sal (fst (sweep f c))
     = map (penalized (today c) missing) (group_sal f)
  /\ snd (sweep f c)
     = match missing with
       | [] => EveryoneMarked sess
       | _ :: _ => MissingReport sess (today c) missing
       end.
Proof.
  intros sess marked missing Hnd Hne.
  assert (known_members (group_sal f) (group_att f)
          = salary_members (group_sal f)) as Hk.
  { unfold known_members. destruct (group_sal f); [contradiction|reflexivity]. }
  split; [exact Hk|].
  unfold sweep. rewrite Hk. fold sess marked.
  change (missing_members (salary_members (group_sal f)) marked) with missing.
  destruct (salary_members (group_sal f)) as [|m0 ms] eqn:Hsm.
  { unfold salary_members in Hsm. destruct (group_sal f);
      [contradiction|discriminate]. }
  destruct missing as [|x missing'] eqn:Hmiss.
  - cbn [fst snd]. repeat split.
    symmetry. erewrite map_ext; [apply map_id|]. now intros kv.
  - cbn [fst snd group_att group_sal]. repeat split.
    rewrite <- Hmiss. apply penalize_spec; [assumption| |].
    + unfold missing, unmarked_members. apply filter_members_NoDup.
      now rewrite salary_members_keys.
    + intros uid n Hin. eapply unmarked_members_on_file; eassumption.
Qed.

Lemma set_to_list_In (l : list (Z * string)) (p : Z * string) :
  In p (set_to_list l) <-> In p l.
Proof.
  induction l as [|x l IH]; simpl; [tauto|].
  rewrite filter_In, IH.
  assert ((Z.eqb (fst x) (fst p) && String.eqb (snd x) (snd p)) = true
          <-> x = p) as Heq.
  { rewrite andb_true_iff, Z.eqb_eq, String.eqb_eq.
    destruct x, p; simpl. split; [intros [-> ->]; reflexivity|].
    intros [= -> ->]. now split. }
  destruct (Z.eqb (fst x) (fst p) && String.eqb (snd x) (snd p)) eqn:E.
  - split; intros _; left; now apply Heq.
  - cbn [negb]. tauto.
Qed.

(** The fallback of lines 231-236, taken only on an empty salary dictionary:
    the pairs (user id, name) of all entries of all days and both sessions. *)
Lemma known_members_fallback (ga : group_attendance) (p : Z * string) :
  In p (known_members [] ga) <->
  exists date day e,
    In (date, day) ga /\ (In e (d_morning day) \/ In e (d_evening day))
    /\ p = (user_id e, e_username e).
Proof.
  unfold known_members. rewrite set_to_list_In, in_flat_map. split.
  - intros [[date day] [Hin Hp]]. cbn [snd] in Hp.
    apply in_app_or in Hp as [Hp|Hp];
      apply in_map_iff in Hp as [e [He Hin']];
      exists date, day, e; auto.
  - intros (date & day & e & Hin & He & ->). exists (date, day).
    split; [assumption|]. cbn [snd]. apply in_or_app.
    destruct He as [He|He]; [left|right];
      apply in_map_iff; exists e; auto.
Qed.

Lemma ensure_user_salary_nonempty (gs : group_salary) (uid : Z) (n : string) :
  ensure_user_salary gs uid n <> [].
Proof.
  intros Heq. pose proof (ensure_user_salary_get gs uid n) as Hg.
  rewrite Heq in Hg. discriminate.
Qed.

(** C4. A sweep (action "6" by an administrator) always finds the group's
    salary dictionary non-empty, since the sender's record has just been
    ensured, and takes the known members from it, in dictionary order; the
    fallback to the attendance entries is what [known_members] computes on an
    empty salary dictionary.  The list reported and penalized consists of the
    known members who are neither on today's list of the current session nor
    administrators, in the same order and without repetition of a user id;
    each of them, and nobody else, is charged once. *)
Theorem sweep_members (s : state) (m : update) (g : Z) :
  let u := effective_user m in
  let date := today (at_clock m) in
  let sess := current_session (now (at_clock m)) in
  let pf := prepared_frame s g u date in
  let gs := group_sal pf in
  let marked := map user_id (entries_of s g date sess) in
  let missing :=
    filter (fun mem => negb (existsb (Z.eqb (fst mem)) marked)
                       && negb (is_admin (fst mem)))
           (map (fun kv => (fst kv, username (snd kv))) gs) in
  dict_ok s ->
  effective_chat m = Some g -> text m = "6" -> is_admin (u_id u) = true ->
  (gs <> []
   /\ known_members gs (group_att pf)
      = map (fun kv => (fst kv, username (snd kv))) gs)
  /\ (forall ga p,
        In p (known_members [] ga) <->
        exists d day e,
          In (d, day) ga /\ (In e (d_morning day) \/ In e (d_evening day))
          /\ p = (user_id e, e_username e))
  /\ NoDup (map fst missing)
  /\ (forall uid n,
        In (uid, n) missing <->
        In (uid, n) (known_members gs (group_att pf))
        /\ ~ In uid marked /\ ~ In uid ADMIN_IDS)
  /\ snd (handle_message s m)
     = match missing with
       | [] => EveryoneMarked sess
       | _ :: _ => MissingReport sess date missing
       end
  /\ group_sal (frame_of (fst (handle_message s m)) g)
     = map (fun kv =>
              if existsb (Z.eqb (fst kv)) (map fst missing)
              then (fst kv, apply_deduction (snd kv) date r_missing)
              else kv) gs.
Proof.
  intros u date sess pf gs marked missing Hd Hc Ht Ha.
  assert (NoDup (keys gs)) as Hnd.
  { apply prepared_keys_ext. now apply frame_of_dict_ok. }
  assert (gs <> []) as Hne.
  { unfold gs, pf, prepared_frame; cbn [group_sal].
    apply ensure_user_salary_nonempty. }
  assert (marked_ids (day_at (group_att pf) date) sess = marked) as Hm.
  { unfold marked_ids, marked, entries_of, pf. now rewrite prepared_day. }
  destruct (@sweep_spec pf (at_clock m) Hnd Hne) as (Hk & _ & Hgs & Hr).
  fold date sess in Hgs, Hr. rewrite Hm in Hgs, Hr.
  change (unmarked_members (group_sal pf) marked) with missing in Hgs, Hr.
  split; [split; [exact Hne | exact Hk]|].
  split; [intros ga p; apply known_members_fallback|].
  split.
  { unfold missing. apply filter_members_NoDup.
    change (map (fun kv => (fst kv, username (snd kv))) gs)
      with (salary_members gs).
    now rewrite salary_members_keys. }
  split.
  { intros uid n. fold gs in Hk. rewrite Hk.
    apply (unmarked_members_spec gs marked uid n). }
  rewrite (handle_message_eq s m Hc). cbn [fst snd].
  rewrite frame_of_commit. cbn [group_sal]. fold u date pf.
  assert (dispatch pf m = sweep pf (at_clock m)) as ->.
  { unfold dispatch. rewrite Ht. cbn [String.eqb Ascii.eqb Bool.eqb].
    fold u. now rewrite Ha. }
  split; [exact Hr | exact Hgs].
Qed.

Lemma dict_ok_empty : dict_ok empty_state.
Proof. intros g gs []. Qed.

Lemma sweep_members_witness :
  let s := run empty_state SweepScenario.before_sweep in
  let m := SweepScenario.sweep_msg in
  dict_ok s
  /\ snd (handle_message s m)
     = MissingReport morning "2025-01-01" [(2, "Bob"); (3, "unknown")]
  /\ salary_of (fst (handle_message s m)) 100 2
     = Some (mk_salary "Bob" 50 [mk_event "2025-01-01" 50 r_missing]).
Proof.
  intros s m.
  assert (dict_ok s) as Hd by (apply run_dict_ok, dict_ok_empty).
  pose proof (@sweep_members s m 100 Hd eq_refl eq_refl eq_refl) as H.
  destruct H as (_ & _ & _ & _ & Hreply & Hgs).
  split; [exact Hd|]. split; [exact Hreply|].
  unfold salary_of. rewrite Hgs. reflexivity.
Defined.

(** ** Repeating the sweep *)

Lemma handle_sweep_eq (s : state) (m : update) (g : Z) :
  let u := effective_user m in
  let date := today (at_clock m) in
  let sess := current_session (now (at_clock m)) in
  let pf := prepared_frame s g u date in
  let missing :=
    unmarked_members (group_sal pf) (map user_id (entries_of s g date sess)) in
  dict_ok s ->
  effective_chat m = Some g -> text m = "6" -> is_admin (u_id u) = true ->
  handle_message s m
  = (mk_state (set (attendance_data s) g (group_att pf))
              (set (salary_data s) g
                   (map (penalized date missing) (group_sal pf))),
     match missing with
     | [] => EveryoneMarked sess
     | _ :: _ => MissingReport sess date missing
     end).
Proof.
  intros u date sess pf missing Hd Hc Ht Ha.
  assert (NoDup (keys (group_sal pf))) as Hnd.
  { apply prepared_keys_ext. now apply frame_of_dict_ok. }
  assert (group_sal pf <> []) as Hne.
  { unfold pf, prepared_frame; cbn [group_sal].
    apply ensure_user_salary_nonempty. }
  destruct (@sweep_spec pf (at_clock m) Hnd Hne) as (_ & Hga & Hgs & Hr).
  fold date sess in Hgs, Hr.
  assert (marked_ids (day_at (group_att pf) date) sess
          = map user_id (entries_of s g date sess)) as Hm.
  { unfold marked_ids, entries_of, pf. now rewrite prepared_day. }
  rewrite Hm in Hgs, Hr. fold missing in Hgs, Hr.
  rewrite (handle_message_eq s m Hc). fold u date pf.
  assert (dispatch pf m = sweep pf (at_clock m)) as ->.
  { unfold dispatch. rewrite Ht. cbn [String.eqb Ascii.eqb Bool.eqb].
    fold u. now rewrite Ha. }
  now rewrite Hga, Hgs, Hr.
Qed.

Lemma ensure_user_salary_stable (gs : group_salary) (uid : Z) (n : string) :
  exists r, get (ensure_user_salary gs uid n) uid = Some r
            /\ truthy n && negb (truthy (username r)) = false.
Proof.
  unfold ensure_user_salary. destruct (get gs uid) as [r0|] eqn:Hg.
  - destruct (truthy n && negb (truthy (username r0))) eqn:E.
    + eexists. split; [apply get_set_eq|]. cbn [username].
      apply andb_true_iff in E as [-> _]. reflexivity.
    + exists r0. auto.
  - eexists. split; [apply get_set_eq|]. cbn [username].
    unfold str_or. destruct (truthy n) eqn:E; [now rewrite E | reflexivity].
Qed.

Lemma penalized_fst (date : string) (missing : list (Z * string))
    (kv : Z * salary_rec) :
  fst (penalized date missing kv) = fst kv.
Proof. unfold penalized. now destruct (existsb _ _). Qed.

Lemma penalized_username (date : string) (missing : list (Z * string))
    (kv : Z * salary_rec) :
  username (snd (penalized date missing kv)) = username (snd kv).
Proof. unfold penalized. now destruct (existsb _ _). Qed.

Lemma get_map_penalized (date : string) (missing : list (Z * string))
    (gs : group_salary) (k : Z) :
  get (map (penalized date missing) gs) k
  = option_map (fun r => snd (penalized date missing (k, r))) (get gs k).
Proof.
  induction gs as [|[k0 r0] gs IH]; [reflexivity|].
  cbn [map get].
  destruct (penalized date missing (k0, r0)) as [k1 r1] eqn:Hp.
  pose proof (penalized_fst date missing (k0, r0)) as Hf.
  rewrite Hp in Hf. cbn [fst] in Hf. subst k1.
  cbn [keqb Key_Z]. destruct (Z.eqb_spec k k0) as [->|Hne].
  - cbn [option_map]. now rewrite Hp.
  - exact IH.
Qed.

Lemma salary_members_penalized (date : string) (missing : list (Z * string))
    (gs : group_salary) :
  salary_members (map (penalized date missing) gs) = salary_members gs.
Proof.
  unfold salary_members. rewrite map_map. apply map_ext. intros kv.
  now rewrite penalized_fst, penalized_username.
Qed.

(** Right after a sweep, lines 131-138 of the same sender find everything in
    place. *)
Lemma prepared_after_sweep (s : state) (g : Z) (u : tg_user) (date : string)
    (missing : list (Z * string)) :
  let pf := prepared_frame s g u date in
  let s1 := mk_state (set (attendance_data s) g (group_att pf))
                     (set (salary_data s) g
                          (map (penalized date missing) (group_sal pf))) in
  prepared_frame s1 g u date
  = mk_frame (group_att pf) (map (penalized date missing) (group_sal pf)).
Proof.
  intros pf s1. unfold prepared_frame at 1. unfold s1.
  rewrite frame_of_commit. cbn [group_att group_sal]. f_equal.
  - unfold ensure_day_structure, contains.
    assert (get (group_att pf) date
            = Some (day_at (group_att (frame_of s g)) date)) as ->; [|reflexivity].
    unfold pf, prepared_frame; cbn [group_att]. apply day_at_ensure.
  - destruct (ensure_user_salary_stable (group_sal (frame_of s g)) (u_id u)
                (display_name u)) as [r [Hr Hst]].
    change (ensure_user_salary (group_sal (frame_of s g)) (u_id u)
              (display_name u)) with (group_sal pf) in Hr.
    unfold ensure_user_salary at 1.
    rewrite get_map_penalized, Hr. cbn [option_map].
    rewrite penalized_username. cbn [snd]. now rewrite Hst.
Qed.

Lemma penalized_member (date : string) (missing : list (Z * string))
    (uid : Z) (n : string) (r : salary_rec) :
  In (uid, n) missing ->
  penalized date missing (uid, r) = (uid, apply_deduction r date r_missing).
Proof.
  intros Hin. unfold penalized. cbn [fst snd].
  assert (existsb (Z.eqb uid) (map fst missing) = true) as ->; [|reflexivity].
  apply existsb_Zeqb_In. change uid with (fst (uid, n)). now apply in_map.
Qed.

(** C6. The sweep is not idempotent: whenever a sweep penalizes a user (a
    known member who is no administrator and has not marked the current
    session today), a second sweep by the same sender in the same session of
    the same day reports the same users and charges each a second time: the
    user's history gains a second "missing" event of the penalty amount and
    the deductions grow by the penalty again. *)
Theorem sweep_not_idempotent (s : state) (m m2 : update) (g uid : Z)
    (n : string) :
  let u := effective_user m in
  let date := today (at_clock m) in
  let sess := current_session (now (at_clock m)) in
  let pf := prepared_frame s g u date in
  let missing :=
    unmarked_members (group_sal pf) (map user_id (entries_of s g date sess)) in
  let s1 := fst (handle_message s m) in
  let s2 := fst (handle_message s1 m2) in
  dict_ok s ->
  effective_chat m = Some g -> text m = "6" -> is_admin (u_id u) = true ->
  effective_chat m2 = Some g -> text m2 = "6" -> effective_user m2 = u ->
  today (at_clock m2) = date -> current_session (now (at_clock m2)) = sess ->
  In (uid, n) missing ->
  exists r,
    get (group_sal pf) uid = Some r
    /\ is_admin uid = false
    /\ already_marked s g date sess uid = false
    /\ snd (handle_message s m) = MissingReport sess date missing
    /\ snd (handle_message s1 m2) = MissingReport sess date missing
    /\ salary_of s1 g uid
       = Some (mk_salary (username r) (deductions r + LATE_PENALTY)
                 (history r ++ [mk_event date LATE_PENALTY r_missing]))
    /\ salary_of s2 g uid
       = Some (mk_salary (username r)
                 (deductions r + LATE_PENALTY + LATE_PENALTY)
                 ((history r ++ [mk_event date LATE_PENALTY r_missing])
                  ++ [mk_event date LATE_PENALTY r_missing])).
Proof.
  intros u date sess pf missing s1 s2 Hd Hc Ht Ha Hc2 Ht2 Hu2 Hd2 Hs2 Hin.
  assert (NoDup (keys (group_sal pf))) as Hnd.
  { apply prepared_keys_ext. now apply frame_of_dict_ok. }
  destruct (@unmarked_members_on_file (group_sal pf) _ uid n Hnd Hin)
    as [r [Hr Hn]].
  pose proof (proj1 (unmarked_members_spec _ _ _ _) Hin) as (_ & Hnm & Hna).
  pose proof (@handle_sweep_eq s m g Hd Hc Ht Ha) as H1. cbv zeta in H1.
  fold u date sess pf in H1. fold missing in H1.
  assert (Hd1 : dict_ok s1) by now apply handle_message_dict_ok.
  assert (Ha2 : is_admin (u_id (effective_user m2)) = true) by now rewrite Hu2.
  pose proof (@handle_sweep_eq s1 m2 g Hd1 Hc2 Ht2 Ha2) as H2. cbv zeta in H2.
  rewrite Hu2, Hd2, Hs2 in H2.
  assert (Hs1 : s1 = mk_state (set (attendance_data s) g (group_att pf))
                      (set (salary_data s) g
                           (map (penalized date missing) (group_sal pf)))).
  { unfold s1. now rewrite H1. }
  assert (Hpf1 : prepared_frame s1 g u date
                 = mk_frame (group_att pf)
                     (map (penalized date missing) (group_sal pf))).
  { rewrite Hs1. apply prepared_after_sweep. }
  assert (He1 : entries_of s1 g date sess = entries_of s g date sess).
  { unfold entries_of. rewrite Hs1, frame_of_commit. cbn [group_att].
    unfold pf. now rewrite prepared_day. }
  rewrite Hpf1, He1 in H2. cbn [group_att group_sal] in H2.
  assert (Hm1 : unmarked_members (map (penalized date missing) (group_sal pf))
                  (map user_id (entries_of s g date sess)) = missing).
  { unfold missing, unmarked_members. now rewrite salary_members_penalized. }
  rewrite Hm1 in H2.
  exists r. split; [exact Hr|]. split.
  { destruct (is_admin uid) eqn:E; [|reflexivity].
    apply is_admin_In in E. contradiction. }
  split.
  { unfold already_marked. fold (entries_of s g date sess).
    destruct (existsb _ _) eqn:E; [|reflexivity].
    apply existsb_user_id_In in E. contradiction. }
  assert (exists x l, missing = x :: l) as (x & l & Hml).
  { destruct missing as [|x l]; [destruct Hin | eauto]. }
  split; [rewrite H1, Hml; reflexivity|].
  split; [rewrite H2, Hml; reflexivity|].
  split.
  - unfold salary_of. rewrite Hs1, frame_of_commit. cbn [group_sal].
    rewrite get_map_penalized, Hr. cbn [option_map].
    now rewrite (@penalized_member date missing uid n r Hin).
  - unfold salary_of, s2. rewrite H2. cbn [fst]. rewrite Hs1.
    cbn [attendance_data salary_data]. rewrite frame_of_commit.
    cbn [group_sal]. rewrite !get_map_penalized, Hr. cbn [option_map].
    rewrite (@penalized_member date missing uid n r Hin). cbn [snd].
    now rewrite (@penalized_member date missing uid n _ Hin).
Qed.

Lemma sweep_not_idempotent_witness :
  let s := run empty_state SweepScenario.before_sweep in
  let m := SweepScenario.sweep_msg in
  let m2 := Fixture.msg "6" Fixture.boss (Fixture.jan1 11 15 0) in
  let s2 := fst (handle_message (fst (handle_message s m)) m2) in
  dict_ok s
  /\ In (2, "Bob")
        (unmarked_members
           (group_sal (prepared_frame s 100 Fixture.boss "2025-01-01"))
           (map user_id (entries_of s 100 "2025-01-01" morning)))
  /\ exists r,
       salary_of s2 100 2
       = Some (mk_salary (username r)
                 (deductions r + LATE_PENALTY + LATE_PENALTY)
                 ((history r
                   ++ [mk_event "2025-01-01" LATE_PENALTY r_missing])
                  ++ [mk_event "2025-01-01" LATE_PENALTY r_missing])).
Proof.
  intros s m m2 s2.
  assert (dict_ok s) as Hd by (apply run_dict_ok, dict_ok_empty).
  assert (In (2, "Bob")
            (unmarked_members
               (group_sal (prepared_frame s 100 Fixture.boss "2025-01-01"))
               (map user_id (entries_of s 100 "2025-01-01" morning))))
    as Hin by (vm_compute; left; reflexivity).
  split; [exact Hd|]. split; [exact Hin|].
  destruct (@sweep_not_idempotent s m m2 100 2 "Bob" Hd eq_refl eq_refl
              eq_refl eq_refl eq_refl eq_refl eq_refl eq_refl Hin)
    as (r & _ & _ & _ & _ & _ & _ & H2).
  exists r. exact H2.
Defined.

(** ** Every sender becomes a known member *)

Lemma ensure_user_salary_other (gs : group_salary) (uid uid' : Z) (n : string) :
  uid' <> uid -> get (ensure_user_salary gs uid n) uid' = get gs uid'.
Proof.
  intros Hne. unfold ensure_user_salary. destruct (get gs uid) as [r|].
  - destruct (truthy n && negb (truthy (username r)));
      [now apply get_set_ne | reflexivity].
  - now apply get_set_ne.
Qed.

Lemma keys_In_get (gs : group_salary) (uid : Z) :
  In uid (keys gs) -> exists r, get gs uid = Some r.
Proof.
  intros Hin. destruct (get gs uid) as [r|] eqn:Hg; [eauto|].
  now apply get_None_keys in Hg.
Qed.

(** C10. Whatever the text of a message in a chat, before the action is
    dispatched the sender has a salary record in the group (a new one, named
    "unknown" when the sender has no display name, if none was on file) and
    the group has a day record for today (an empty one if none was on file).
    The record stays through all later messages, so a later sweep by an
    administrator penalizes the sender, unless the sender is an administrator
    or on the list of the session swept, even if the sender never marked. *)
Theorem sender_becomes_member (s : state) (m : update) (g : Z)
    (later : list update) (m6 : update) :
  let u := effective_user m in
  let uid := u_id u in
  let date := today (at_clock m) in
  let s0 := prepare s g u date in
  let s' := fst (handle_message s m) in
  let s6 := run s' later in
  let date6 := today (at_clock m6) in
  let sess6 := current_session (now (at_clock m6)) in
  effective_chat m = Some g ->
  salary_of s0 g uid = Some (sender_record s g u)
  /\ (salary_of s g uid = None ->
      sender_record s g u
      = mk_salary (str_or (display_name u) "unknown") 0 [])
  /\ (salary_of s g uid = None -> display_name u = "" ->
      username (sender_record s g u) = "unknown")
  /\ get (group_att (frame_of s0 g)) date
     = Some (day_at (group_att (frame_of s g)) date)
  /\ (get (group_att (frame_of s g)) date = None ->
      day_at (group_att (frame_of s g)) date = mk_day [] [])
  /\ handle_message s m
     = (commit s0 g (fst (dispatch (frame_of s0 g) m)),
        snd (dispatch (frame_of s0 g) m))
  /\ In uid (keys (group_sal (frame_of s' g)))
  /\ In uid (keys (group_sal (frame_of s6 g)))
  /\ (dict_ok s -> is_admin uid = false ->
      effective_chat m6 = Some g -> text m6 = "6" ->
      is_admin (u_id (effective_user m6)) = true ->
      already_marked s6 g date6 sess6 uid = false ->
      exists r missing,
        salary_of s6 g uid = Some r
        /\ snd (handle_message s6 m6) = MissingReport sess6 date6 missing
        /\ In (uid, username r) missing
        /\ salary_of (fst (handle_message s6 m6)) g uid
           = Some (apply_deduction r date6 r_missing)).
Proof.
  intros u uid date s0 s' s6 date6 sess6 Hc.
  assert (Hs0 : frame_of s0 g = prepared_frame s g u date)
    by apply frame_of_prepare.
  split.
  { unfold salary_of, sender_record. rewrite Hs0.
    unfold prepared_frame; cbn [group_sal]. apply ensure_user_salary_get. }
  split.
  { unfold salary_of, sender_record, ensure_user_salary, uid. intros ->.
    unfold rec_at. now rewrite get_set_eq. }
  split.
  { unfold salary_of, sender_record, ensure_user_salary, uid. intros -> ->.
    unfold rec_at. now rewrite get_set_eq. }
  split.
  { rewrite Hs0. unfold prepared_frame; cbn [group_att]. apply day_at_ensure. }
  split.
  { unfold day_at. now intros ->. }
  split.
  { unfold handle_message. rewrite Hc. fold u date s0.
    now destruct (dispatch (frame_of s0 g) m). }
  assert (Hk' : In uid (keys (group_sal (frame_of s' g)))).
  { unfold s'. rewrite (handle_message_eq s m Hc). cbn [fst].
    rewrite frame_of_commit. cbn [group_sal].
    apply (proj2 (keys_ext_dispatch _ m)).
    unfold prepared_frame; cbn [group_sal]. fold u uid.
    eapply get_In_keys. apply ensure_user_salary_get. }
  split; [exact Hk'|].
  assert (Hk6 : In uid (keys (group_sal (frame_of s6 g))))
    by now apply run_keeps_keys.
  split; [exact Hk6|].
  intros Hd Hna Hc6 Ht6 Ha6 Hnm.
  assert (Hd6 : dict_ok s6).
  { apply run_dict_ok. now apply handle_message_dict_ok. }
  destruct (keys_In_get _ _ Hk6) as [r Hr].
  pose proof (@handle_sweep_eq s6 m6 g Hd6 Hc6 Ht6 Ha6) as H6.
  cbv zeta in H6. fold date6 sess6 in H6.
  set (pf6 := prepared_frame s6 g (effective_user m6) date6) in *.
  set (missing := unmarked_members (group_sal pf6)
                    (map user_id (entries_of s6 g date6 sess6))) in *.
  assert (Hr6 : get (group_sal pf6) uid = Some r).
  { unfold pf6, prepared_frame; cbn [group_sal].
    rewrite ensure_user_salary_other; [exact Hr|].
    intros Heq. rewrite <- Heq in Ha6. congruence. }
  assert (Hin : In (uid, username r) missing).
  { apply unmarked_members_spec. split; [|split].
    - unfold salary_members.
      apply in_map_iff. exists (uid, r). split; [reflexivity|].
      now apply get_In.
    - intros Hin. apply existsb_user_id_In in Hin.
      unfold already_marked in Hnm. unfold entries_of in Hin. congruence.
    - intros Hin. apply is_admin_In in Hin. congruence. }
  exists r, missing. split; [exact Hr|]. split.
  { rewrite H6. cbn [snd]. destruct missing; [destruct Hin | reflexivity]. }
  split; [exact Hin|].
  unfold salary_of. rewrite H6. cbn [fst]. rewrite frame_of_commit.
  cbn [group_sal]. rewrite get_map_penalized, Hr6. cbn [option_map].
  now rewrite (@penalized_member date6 missing uid (username r) r Hin).
Qed.

Lemma sender_becomes_member_witness :
  let m := Fixture.msg "hello" Fixture.carol (Fixture.jan1 9 0 0) in
  let later := [Fixture.msg "1" Fixture.alice (Fixture.jan1 10 5 0)] in
  let m6 := SweepScenario.sweep_msg in
  let s6 := run (fst (handle_message empty_state m)) later in
  effective_chat m = Some 100
  /\ salary_of (prepare empty_state 100 Fixture.carol "2025-01-01") 100 3
     = Some (mk_salary "unknown" 0 [])
  /\ salary_of (fst (handle_message s6 m6)) 100 3
     = Some (mk_salary "unknown" 50 [mk_event "2025-01-01" 50 r_missing]).
Proof.
  intros m later m6 s6.
  pose proof (@sender_becomes_member empty_state m 100 later m6 eq_refl) as H.
  destruct H as (H0 & _ & _ & _ & _ & _ & _ & _ & Hsweep).
  split; [reflexivity|]. split; [exact H0|].
  destruct (Hsweep dict_ok_empty eq_refl eq_refl eq_refl eq_refl eq_refl)
    as (r & missing & Hr & _ & _ & Hafter).
  refine (eq_trans Hafter _). vm_compute in Hr. injection Hr as <-.
  reflexivity.
Defined.

(** ** Start-up load *)

Lemma append_bak_neq (path : string) : (path ++ ".bak")%string <> path.
Proof.
  intros Heq. apply (f_equal String.length) in Heq.
  assert (forall a b, String.length (a ++ b) = (String.length a + String.length b)%nat)
    as Hlen.
  { intros a b. induction a as [|c a IH]; simpl; [reflexivity|]. now rewrite IH. }
  rewrite Hlen in Heq. simpl in Heq. lia.
Qed.

Module PersistenceFacts.
Import Persistence.

(** C9 as stated fails on a store whose text is [null]: the load gives the
    empty state, not the parsed value. *)
Lemma load_as_stated_fails : ~ load_as_stated.
Proof.
  intros H.
  destruct (H null_store "salary_records.json") as (v & st' & Hload & Hm).
  vm_compute in Hload. vm_compute in Hm.
  destruct Hm as [Hv _]. injection Hload as <- _. discriminate Hv.
Qed.

(** C9 as amended. [load_json] always returns.  A missing store gives the
    empty state and leaves the directory alone.  A store that exists and that
    [open] or [json.load] rejects gives the empty state, after being renamed
    to [path.bak] where the rename is permitted, and left in place where it
    is not.  A store that parses is returned as parsed when the value is
    truthy, and replaced by the empty state (without renaming) when it is
    falsy. *)
Theorem load_json_recovers (st : fs) (path : string) :
  exists v st',
    load_json path st = (Returned v, st')
    /\ match get (nodes st) path with
       | None => v = empty_dict /\ st' = st
       | Some (Document (Some j)) =>
           v = (if json_truthy j then j else empty_dict) /\ st' = st
       | Some n =>
           v = empty_dict
           /\ (if can_rename st then quarantined path n st st' else st' = st)
       end.
Proof.
  unfold load_json, bind, os_path_exists, contains, try_except, open_and_load,
    os_rename, ret.
  destruct (get (nodes st) path) as [n|] eqn:Hg; cbn [negb].
  - assert (quarantined path n st
              (mk_fs (set (remove (nodes st) path) (path ++ ".bak")%string n)
                     (can_rename st))) as Hq.
    { split; cbn [nodes].
      - rewrite get_set_ne by (apply not_eq_sym, append_bak_neq).
        apply get_remove_eq.
      - apply get_set_eq. }
    destruct n as [|[j|]]; destruct (can_rename st) eqn:Hc;
      repeat (progress (rewrite ?Hg, ?Hc; cbv beta iota));
      eexists; eexists; (split; [reflexivity|]); auto.
  - eexists; eexists; split; [reflexivity|]. auto.
Qed.

End PersistenceFacts.

Module PersistenceExamples.
Import Persistence.

(** A truncated store is moved to [.bak] and the load gives [{}]; the other
    store is returned as parsed. *)
Example load_truncated :
  load_json "attendance_records.json" truncated_store
  = (Returned empty_dict,
     mk_fs [("salary_records.json", Document (Some (JObj [("100", JObj [])])));
            ("attendance_records.json.bak", Document None)] true).
Proof. reflexivity. Qed.

(** Where the rename is refused the unreadable store stays in place, and the
    load still gives [{}]. *)
Example load_rename_refused :
  load_json "attendance_records.json" locked_store
  = (Returned empty_dict, locked_store).
Proof. reflexivity. Qed.

(** A store whose text is [[]] is given back as [{}]. *)
Example load_empty_array :
  fst (load_json "s.json" (mk_fs [("s.json", Document (Some (JArr [])))] true))
  = Returned empty_dict.
Proof. reflexivity. Qed.

Example load_good :
  fst (load_json "salary_records.json" truncated_store)
  = Returned (JObj [("100", JObj [])]).
Proof. reflexivity. Qed.

End PersistenceExamples.

(* ================================================================= *)
(** * Further properties of the handler *)

(** ** Actions that leave the ledgers as lines 131-138 made them *)

Lemma handle_unchanged (s : state) (m : update) (g : Z) :
  let pf := prepared_frame s g (effective_user m) (today (at_clock m)) in
  effective_chat m = Some g ->
  fst (dispatch pf m) = pf ->
  handle_message s m
  = (prepare s g (effective_user m) (today (at_clock m)), snd (dispatch pf m)).
Proof.
  intros pf Hc Hf. rewrite (handle_message_eq s m Hc). fold pf.
  rewrite Hf, prepare_eq. reflexivity.
Qed.

Lemma entries_of_prepared (s : state) (g : Z) (u : tg_user) (date : string)
    (sess : session) :
  day_get (day_at (group_att (prepared_frame s g u date)) date) sess
  = entries_of s g date sess.
Proof. unfold entries_of. now rewrite prepared_day. Qed.

(** X1. The five administrator actions are closed to everybody else: a
    sender who is no administrator and asks for "4", "5", "6", "7" or "0" is
    answered [PermissionDenied], and the ledgers are exactly what lines
    131-138 made of them (no deduction shown or cleared, nobody swept, no
    attendance cleared). *)
Theorem admin_actions_denied (s : state) (m : update) (g : Z) :
  effective_chat m = Some g ->
  is_admin (u_id (effective_user m)) = false ->
  In (text m) ["4"; "5"; "6"; "7"; "0"] ->
  handle_message s m
  = (prepare s g (effective_user m) (today (at_clock m)), PermissionDenied).
Proof.
  intros Hc Hna Ht.
  assert (dispatch (prepared_frame s g (effective_user m) (today (at_clock m))) m
          = (prepared_frame s g (effective_user m) (today (at_clock m)),
             PermissionDenied)) as Hd.
  { unfold dispatch. rewrite Hna.
    simpl in Ht. destruct Ht as [<-|[<-|[<-|[<-|[<-|[]]]]]]; reflexivity. }
  rewrite (@handle_unchanged s m g Hc); rewrite Hd; reflexivity.
Qed.

Lemma admin_actions_denied_witness :
  let s := run empty_state SweepScenario.before_sweep in
  let m := Fixture.msg "5" Fixture.bob (Fixture.jan1 11 0 0) in
  is_admin (u_id (effective_user m)) = false
  /\ handle_message s m = (s, PermissionDenied).
Proof.
  intros s m. split; [reflexivity|].
  refine (eq_trans (@admin_actions_denied s m 100 eq_refl eq_refl _) _).
  - simpl. auto.
  - reflexivity.
Defined.

(** X2. Count, list and unknown texts only read: for a text other than "1",
    "4", "5", "6", "7" and "0" the ledgers are exactly what lines 131-138 made
    of them; "2" answers the number of today's entries of both sessions, "3"
    the two lists in arrival order, any other text gets no reply. *)
Theorem queries_read_only (s : state) (m : update) (g : Z) :
  let date := today (at_clock m) in
  effective_chat m = Some g ->
  ~ In (text m) ["1"; "4"; "5"; "6"; "7"; "0"] ->
  fst (handle_message s m) = prepare s g (effective_user m) date
  /\ (text m = "2" ->
      snd (handle_message s m)
      = AttendanceCount (List.length (entries_of s g date morning)
                         + List.length (entries_of s g date evening)))
  /\ (text m = "3" ->
      snd (handle_message s m)
      = AttendanceList date (entries_of s g date morning)
                       (entries_of s g date evening))
  /\ (text m <> "2" -> text m <> "3" -> snd (handle_message s m) = NoReply).
Proof.
  intros date Hc Ht.
  set (pf := prepared_frame s g (effective_user m) date).
  assert (forall d, (text m =? d)%string = true -> text m = d) as Heq
    by (intros d; apply String.eqb_eq).
  assert (fst (dispatch pf m) = pf) as Hf.
  { unfold dispatch.
    destruct (text m =? "1")%string eqn:E1;
      [exfalso; apply Ht; rewrite (Heq _ E1); simpl; auto|].
    destruct (text m =? "2")%string; [reflexivity|].
    destruct (text m =? "3")%string; [reflexivity|].
    destruct (text m =? "4")%string eqn:E4;
      [exfalso; apply Ht; rewrite (Heq _ E4); simpl; auto|].
    destruct (text m =? "5")%string eqn:E5;
      [exfalso; apply Ht; rewrite (Heq _ E5); simpl; auto|].
    destruct (text m =? "6")%string eqn:E6;
      [exfalso; apply Ht; rewrite (Heq _ E6); simpl; auto|].
    destruct (text m =? "7")%string eqn:E7;
      [exfalso; apply Ht; rewrite (Heq _ E7); simpl; auto 6|].
    destruct (text m =? "0")%string eqn:E0;
      [exfalso; apply Ht; rewrite (Heq _ E0); simpl; auto 7|].
    reflexivity. }
  rewrite (@handle_unchanged s m g Hc Hf). fold date pf. cbn [fst snd].
  split; [reflexivity|]. split; [|split].
  - intros H2. unfold dispatch. rewrite H2. cbn [String.eqb Ascii.eqb Bool.eqb].
    fold date. unfold pf.
    change (d_morning ?d) with (day_get d morning).
    change (d_evening ?d) with (day_get d evening).
    now rewrite !entries_of_prepared.
  - intros H3. unfold dispatch. rewrite H3. cbn [String.eqb Ascii.eqb Bool.eqb].
    fold date. unfold pf.
    change (d_morning ?d) with (day_get d morning).
    change (d_evening ?d) with (day_get d evening).
    now rewrite !entries_of_prepared.
  - intros H2 H3. unfold dispatch.
    destruct (text m =? "1")%string eqn:E1;
      [exfalso; apply Ht; rewrite (Heq _ E1); simpl; auto|].
    destruct (text m =? "2")%string eqn:E2; [elim H2; auto|].
    destruct (text m =? "3")%string eqn:E3; [elim H3; auto|].
    destruct (text m =? "4")%string eqn:E4;
      [exfalso; apply Ht; rewrite (Heq _ E4); simpl; auto|].
    destruct (text m =? "5")%string eqn:E5;
      [exfalso; apply Ht; rewrite (Heq _ E5); simpl; auto|].
    destruct (text m =? "6")%string eqn:E6;
      [exfalso; apply Ht; rewrite (Heq _ E6); simpl; auto|].
    destruct (text m =? "7")%string eqn:E7;
      [exfalso; apply Ht; rewrite (Heq _ E7); simpl; auto 6|].
    destruct (text m =? "0")%string eqn:E0;
      [exfalso; apply Ht; rewrite (Heq _ E0); simpl; auto 7|].
    reflexivity.
Qed.

Lemma queries_read_only_witness :
  let s := run empty_state SweepScenario.before_sweep in
  let m := Fixture.msg "2" Fixture.bob (Fixture.jan1 11 0 0) in
  ~ In (text m) ["1"; "4"; "5"; "6"; "7"; "0"]
  /\ handle_message s m = (s, AttendanceCount 1).
Proof.
  intros s m.
  assert (~ In (text m) ["1"; "4"; "5"; "6"; "7"; "0"]) as Hn.
  { simpl. intros [H|[H|[H|[H|[H|[H|[]]]]]]]; discriminate H. }
  split; [exact Hn|].
  destruct (@queries_read_only s m 100 eq_refl Hn) as (Hs & H2 & _).
  rewrite (surjective_pairing (handle_message s m)), Hs, (H2 eq_refl).
  reflexivity.
Defined.

(** ** Groups are independent *)

Lemma handle_message_other_group (s : state) (m : update) (g' : Z) :
  effective_chat m <> Some g' ->
  get (attendance_data (fst (handle_message s m))) g'
  = get (attendance_data s) g'
  /\ get (salary_data (fst (handle_message s m))) g' = get (salary_data s) g'.
Proof.
  intros Hne. destruct (effective_chat m) as [g|] eqn:Hc.
  - rewrite (@handle_message_eq s m g Hc). cbn [fst attendance_data salary_data].
    assert (g' <> g) as Hg by congruence.
    now rewrite !get_set_ne.
  - unfold handle_message. rewrite Hc. now split.
Qed.

(** X3. A group's ledgers are touched only by messages of its own chat:
    after any sequence of messages none of which comes from chat [g'], the
    attendance and salary dictionaries of [g'] are what they were. *)
Theorem other_groups_untouched (ms : list update) (g' : Z) :
  forall s,
    (forall m, In m ms -> effective_chat m <> Some g') ->
    get (attendance_data (run s ms)) g' = get (attendance_data s) g'
    /\ get (salary_data (run s ms)) g' = get (salary_data s) g'.
Proof.
  induction ms as [|m ms IH]; intros s Hms; [now split|].
  rewrite run_cons.
  destruct (IH (fst (handle_message s m))) as [Ha Hs];
    [intros m' Hm'; apply Hms; now right|].
  destruct (@handle_message_other_group s m g') as [Ha' Hs'];
    [apply Hms; now left|].
  split; congruence.
Qed.

Lemma other_groups_untouched_witness :
  let s := run empty_state SweepScenario.before_sweep in
  let ms := [mk_update "1" Fixture.bob (Some 200) (Fixture.jan1 12 0 0);
             mk_update "0" Fixture.boss (Some 200) (Fixture.jan1 12 1 0);
             mk_update "6" Fixture.boss None (Fixture.jan1 12 2 0)] in
  (forall m, In m ms -> effective_chat m <> Some 100)
  /\ get (salary_data (run s ms)) 100 = get (salary_data s) 100.
Proof.
  intros s ms.
  assert (forall m, In m ms -> effective_chat m <> Some 100) as Hms.
  { intros m Hm. simpl in Hm.
    destruct Hm as [<-|[<-|[<-|[]]]]; discriminate. }
  split; [exact Hms|].
  exact (proj2 (@other_groups_untouched ms 100 s Hms)).
Defined.

(** ** Sessions and windows agree *)

(** X4. An on-time check-in is always filed under the session of its own
    window: a time of day inside the morning window is classified [morning],
    one inside the evening window [evening]; only late check-ins can fall in
    a session whose window they missed. *)
Theorem on_time_in_own_session (t : dtime) :
  time_wf t -> is_within_window t = true ->
  (current_session t = morning
   /\ us_of_day MORNING_START <= us_of_day t <= us_of_day MORNING_END)
  \/ (current_session t = evening
      /\ us_of_day EVENING_START <= us_of_day t <= us_of_day EVENING_END).
Proof.
  intros Ht Hw. destruct (current_session_spec Ht) as [Hm He].
  apply (is_within_window_spec Ht) in Hw.
  assert (us_of_day MORNING_END < us_of_day (dtime_hms 13 0 0)) by reflexivity.
  assert (us_of_day (dtime_hms 13 0 0) <= us_of_day EVENING_START)
    by (vm_compute; discriminate).
  destruct Hw as [Hw|Hw]; [left|right]; (split; [|exact Hw]).
  - apply Hm. lia.
  - apply He. lia.
Qed.

Lemma on_time_in_own_session_witness :
  time_wf (mk_dtime 16 45 12 500)
  /\ is_within_window (mk_dtime 16 45 12 500) = true
  /\ current_session (mk_dtime 16 45 12 500) = evening.
Proof.
  assert (time_wf (mk_dtime 16 45 12 500)) as Hwf
    by (unfold time_wf; simpl; lia).
  split; [exact Hwf|]. split; [reflexivity|].
  destruct (@on_time_in_own_session (mk_dtime 16 45 12 500) Hwf eq_refl)
    as [[Hm _]|[He _]]; [discriminate Hm | exact He].
Defined.

(** ** Marks by administrators *)

(** X5. An administrator's check-in is never flagged: whatever the time of
    day, a first mark by an administrator is answered [MarkedAdmin], its
    entry is filed with [late = false], and the salary dictionary of the
    group stays as line 138 left it. *)
Theorem admin_mark_never_late (s : state) (m : update) (g : Z) :
  let u := effective_user m in
  let c := at_clock m in
  let sess := current_session (now c) in
  let s' := fst (handle_message s m) in
  effective_chat m = Some g -> text m = "1" ->
  is_admin (u_id u) = true ->
  already_marked s g (today c) sess (u_id u) = false ->
  snd (handle_message s m) = MarkedAdmin sess (strftime_HMS (now c))
  /\ entries_of s' g (today c) sess
     = entries_of s g (today c) sess
       ++ [mk_entry (u_id u) (display_name u) (today c)
                    (strftime_HMS (now c)) false sess]
  /\ salary_data s' = salary_data (prepare s g u (today c)).
Proof.
  intros u c sess s' Hc Ht Ha Hnm. subst s'.
  rewrite (@handle_message_eq s m g Hc), prepare_eq.
  cbn [fst snd salary_data]. unfold entries_of at 1. rewrite frame_of_commit.
  cbn [group_att group_sal].
  unfold dispatch. rewrite Ht. cbn [String.eqb Ascii.eqb Bool.eqb].
  unfold mark. fold u c. rewrite prepared_day. fold sess.
  unfold already_marked in Hnm. rewrite Hnm, Ha.
  cbn [fst snd group_att group_sal]. split; [reflexivity|]. split.
  - unfold day_at at 1. rewrite get_set_eq. apply day_get_append.
  - reflexivity.
Qed.

Lemma admin_mark_never_late_witness :
  let m := Fixture.msg "1" Fixture.boss (Fixture.jan1 23 59 59) in
  is_admin (u_id (effective_user m)) = true
  /\ is_within_window (now (at_clock m)) = false
  /\ snd (handle_message Fixture.stored m) = MarkedAdmin evening "23:59:59".
Proof.
  intros m. split; [reflexivity|]. split; [reflexivity|].
  exact (proj1 (@admin_mark_never_late Fixture.stored m 100
                  eq_refl eq_refl eq_refl eq_refl)).
Defined.

(** ** The two [ensure_] helpers *)

Lemma ensure_user_salary_idem (gs : group_salary) (uid : Z) (n : string) :
  ensure_user_salary (ensure_user_salary gs uid n) uid n
  = ensure_user_salary gs uid n.
Proof.
  destruct (ensure_user_salary_stable gs uid n) as [r [Hr Hst]].
  unfold ensure_user_salary at 1. now rewrite Hr, Hst.
Qed.

Lemma ensure_day_structure_idem (ga : group_attendance) (date : string) :
  ensure_day_structure (ensure_day_structure ga date) date
  = ensure_day_structure ga date.
Proof.
  unfold ensure_day_structure at 1. unfold contains.
  now rewrite day_at_ensure.
Qed.

(** X6. [ensure_user_salary] only ever adds a record or fills in a missing
    name.  Other users' records are untouched; a record on file keeps its
    deductions and history, and keeps its name when it has one (the name
    supplied is then ignored); a record without name takes the supplied name
    when there is one; a user without record gets, at the end of the
    dictionary, a record with no deduction, named after the supplied name or
    "unknown"; doing it twice is doing it once. *)
Theorem ensure_user_salary_spec (gs : group_salary) (uid : Z) (n : string) :
  let gs' := ensure_user_salary gs uid n in
  (forall k, k <> uid -> get gs' k = get gs k)
  /\ (forall r, get gs uid = Some r ->
        keys gs' = keys gs
        /\ get gs' uid
           = Some (mk_salary (if truthy (username r) then username r
                              else str_or n (username r))
                             (deductions r) (history r)))
  /\ (get gs uid = None ->
        gs' = gs ++ [(uid, mk_salary (str_or n "unknown") 0 [])])
  /\ ensure_user_salary gs' uid n = gs'.
Proof.
  intros gs'. split; [intros k Hk; now apply ensure_user_salary_other|].
  split; [|split; [|apply ensure_user_salary_idem]].
  - intros r Hr. unfold gs', ensure_user_salary. rewrite Hr.
    destruct (truthy (username r)) eqn:En.
    + rewrite andb_false_r. split; [reflexivity|].
      rewrite Hr. now destruct r.
    + rewrite andb_true_r. unfold str_or.
      destruct (truthy n) eqn:E.
      * split; [eapply keys_set_present; eassumption | apply get_set_eq].
      * split; [reflexivity|]. rewrite Hr. now destruct r.
  - intros Hn. unfold gs', ensure_user_salary. rewrite Hn.
    clear gs'. induction gs as [|[k v] gs IH]; [reflexivity|].
    cbn [get set app] in Hn |- *. destruct (keqb uid k); [discriminate|].
    now rewrite IH.
Qed.

Lemma ensure_user_salary_spec_witness :
  let gs := [(2, mk_salary "Bob" 100 [mk_event "2025-01-01" 100 r_late]);
             (3, mk_salary "" 0 [])] in
  get gs 2 = Some (mk_salary "Bob" 100 [mk_event "2025-01-01" 100 r_late])
  /\ get (ensure_user_salary gs 2 "Robert") 2
     = Some (mk_salary "Bob" 100 [mk_event "2025-01-01" 100 r_late])
  /\ get (ensure_user_salary gs 3 "carol") 3 = Some (mk_salary "carol" 0 [])
  /\ ensure_user_salary gs 4 "" = gs ++ [(4, mk_salary "unknown" 0 [])].
Proof.
  intros gs. split; [reflexivity|].
  split; [|split].
  - exact (proj2 (proj1 (proj2 (@ensure_user_salary_spec gs 2 "Robert"))
                   _ eq_refl)).
  - exact (proj2 (proj1 (proj2 (@ensure_user_salary_spec gs 3 "carol"))
                   _ eq_refl)).
  - exact (proj1 (proj2 (proj2 (@ensure_user_salary_spec gs 4 ""))) eq_refl).
Defined.

(** X7. Lines 131-138 are idempotent: running them a second time for the
    same chat, sender and day changes nothing, and they never change what is
    on file for another day or another user of the group. *)
Theorem prepare_idempotent (s : state) (g : Z) (u : tg_user) (date : string) :
  let s1 := prepare s g u date in
  prepare s1 g u date = s1
  /\ (forall d, d <> date ->
        get (group_att (frame_of s1 g)) d = get (group_att (frame_of s g)) d)
  /\ (forall d day, get (group_att (frame_of s g)) d = Some day ->
        get (group_att (frame_of s1 g)) d = Some day)
  /\ (forall k, k <> u_id u ->
        get (group_sal (frame_of s1 g)) k = get (group_sal (frame_of s g)) k).
Proof.
  intros s1. split; [|split; [|split]].
  - assert (prepared_frame s1 g u date = prepared_frame s g u date) as Hpf.
    { unfold prepared_frame at 1. unfold s1. rewrite frame_of_prepare.
      unfold prepared_frame. cbn [group_att group_sal].
      now rewrite ensure_day_structure_idem, ensure_user_salary_idem. }
    rewrite (prepare_eq s1), Hpf. unfold s1. rewrite (prepare_eq s).
    cbn [attendance_data salary_data]. now rewrite !set_set.
  - intros d Hd. unfold s1. rewrite frame_of_prepare.
    unfold prepared_frame; cbn [group_att]. unfold ensure_day_structure.
    destruct (contains _ _); [reflexivity | now apply get_set_ne].
  - intros d day Hday. unfold s1. rewrite frame_of_prepare.
    unfold prepared_frame; cbn [group_att].
    unfold ensure_day_structure, contains.
    destruct (String.eqb_spec d date) as [->|Hne].
    + now rewrite Hday.
    + destruct (get _ date); [assumption|]. now rewrite get_set_ne.
  - intros k Hk. unfold s1. rewrite frame_of_prepare.
    unfold prepared_frame; cbn [group_sal].
    now apply ensure_user_salary_other.
Qed.

(** ** Showing and clearing the deductions *)

Lemma fold_left_deductions (gs : group_salary) (acc : Z) :
  fold_left (fun t kv => t + deductions (snd kv)) gs acc
  = acc + total_deductions gs.
Proof.
  revert acc. induction gs as [|kv gs IH]; intros acc; simpl; [lia|].
  rewrite IH. lia.
Qed.

Lemma dispatch_show (f : frame) (m : update) :
  text m = "4" -> is_admin (u_id (effective_user m)) = true ->
  group_sal f <> [] ->
  dispatch f m
  = (f, Deductions (map (fun kv => (username (snd kv), deductions (snd kv)))
                        (group_sal f))
                   (total_deductions (group_sal f))).
Proof.
  intros Ht Ha Hne. unfold dispatch. rewrite Ht, Ha.
  cbn [String.eqb Ascii.eqb Bool.eqb negb].
  destruct (group_sal f) as [|kv gs] eqn:E; [contradiction|].
  now rewrite fold_left_deductions.
Qed.

Lemma prepared_sal_nonempty (s : state) (g : Z) (u : tg_user) (date : string) :
  group_sal (prepared_frame s g u date) <> [].
Proof.
  unfold prepared_frame; cbn [group_sal]. apply ensure_user_salary_nonempty.
Qed.

(** X8. Action "4" by an administrator lists every salary record of the
    group, the sender's own included, in dictionary order, with a total that
    is the sum of the amounts listed; the reply "no deductions recorded" can
    never be sent, since the sender's record exists by then; nothing is
    changed beyond lines 131-138. *)
Theorem show_deductions_lists_all (s : state) (m : update) (g : Z) :
  let u := effective_user m in
  let gs := group_sal (prepared_frame s g u (today (at_clock m))) in
  effective_chat m = Some g -> text m = "4" -> is_admin (u_id u) = true ->
  handle_message s m
  = (prepare s g u (today (at_clock m)),
     Deductions (map (fun kv => (username (snd kv), deductions (snd kv))) gs)
                (fold_right Z.add 0 (map (fun kv => deductions (snd kv)) gs)))
  /\ In (u_id u) (keys gs)
  /\ snd (handle_message s m) <> NoDeductions.
Proof.
  intros u gs Hc Ht Ha.
  pose proof (@dispatch_show (prepared_frame s g u (today (at_clock m))) m
                Ht Ha (prepared_sal_nonempty s g u _)) as Hd.
  assert (handle_message s m
          = (prepare s g u (today (at_clock m)),
             Deductions
               (map (fun kv => (username (snd kv), deductions (snd kv))) gs)
               (fold_right Z.add 0 (map (fun kv => deductions (snd kv)) gs))))
    as Heq.
  { rewrite (@handle_unchanged s m g Hc); fold u; rewrite Hd; [|reflexivity].
    cbn [snd]. fold gs. do 2 f_equal.
    unfold total_deductions. clear. induction gs as [|kv l IH]; simpl; congruence. }
  split; [exact Heq|]. split.
  - unfold gs, prepared_frame; cbn [group_sal].
    eapply get_In_keys. apply ensure_user_salary_get.
  - rewrite Heq. discriminate.
Qed.

Lemma show_deductions_lists_all_witness :
  let s := run empty_state Scenario.before_retract in
  let m := Fixture.msg "4" Fixture.boss (Fixture.jan1 12 5 0) in
  is_admin (u_id (effective_user m)) = true
  /\ snd (handle_message s m)
     = Deductions [("alice", 50); ("Bob", 150); ("unknown", 100); ("boss", 0)]
                  300.
Proof.
  intros s m. split; [reflexivity|].
  rewrite (proj1 (@show_deductions_lists_all s m 100 eq_refl eq_refl eq_refl)).
  reflexivity.
Defined.

Lemma get_map_values {V : Type} (f : V -> V) (d : dict Z V) (k : Z) :
  get (map_values f d) k = option_map f (get d k).
Proof.
  unfold map_values. induction d as [|[k0 v0] d IH]; [reflexivity|].
  cbn [map get fst snd]. destruct (keqb k k0); [reflexivity | exact IH].
Qed.

Lemma total_deductions_zero (gs : group_salary) :
  all_values (fun _ r => deductions r = 0) gs -> total_deductions gs = 0.
Proof.
  induction gs as [|[k r] gs IH]; intros Hz; [reflexivity|].
  simpl. rewrite (Hz k r (or_introl eq_refl)).
  rewrite IH; [reflexivity|]. intros k' r' Hin. apply (Hz k' r'). now right.
Qed.

Lemma ensure_user_salary_zero (gs : group_salary) (uid : Z) (n : string) :
  all_values (fun _ r => deductions r = 0) gs ->
  all_values (fun _ r => deductions r = 0) (ensure_user_salary gs uid n).
Proof.
  intros Hz. unfold ensure_user_salary.
  destruct (get gs uid) as [r|] eqn:Hg.
  - destruct (truthy n && negb (truthy (username r))); [|assumption].
    apply all_values_set; [assumption|]. cbn [deductions].
    apply (Hz uid). now apply get_In.
  - now apply all_values_set.
Qed.

(** X9. Action "5" by an administrator resets every salary record of the
    group to no deductions and an empty history, keeping the users, their
    order and their names, and leaves the attendance alone; a "4" sent right
    after, by any administrator, shows zero for everybody and a total of
    zero. *)
Theorem clear_deductions_resets (s : state) (m m4 : update) (g : Z) :
  let u := effective_user m in
  let date := today (at_clock m) in
  let gs := group_sal (prepared_frame s g u date) in
  let s' := fst (handle_message s m) in
  effective_chat m = Some g -> text m = "5" -> is_admin (u_id u) = true ->
  effective_chat m4 = Some g -> text m4 = "4" ->
  is_admin (u_id (effective_user m4)) = true ->
  snd (handle_message s m) = DeductionsCleared
  /\ group_sal (frame_of s' g)
     = map (fun kv => (fst kv, mk_salary (username (snd kv)) 0 [])) gs
  /\ attendance_data s' = attendance_data (prepare s g u date)
  /\ exists lines,
       snd (handle_message s' m4) = Deductions lines 0
       /\ Forall (fun l => snd l = 0) lines.
Proof.
  intros u date gs s' Hc Ht Ha Hc4 Ht4 Ha4.
  assert (dispatch (prepared_frame s g u date) m
          = (mk_frame (group_att (prepared_frame s g u date))
                      (map_values clear_rec gs), DeductionsCleared)) as Hd.
  { unfold dispatch. rewrite Ht. fold u. rewrite Ha. reflexivity. }
  assert (Hs' : s' = mk_state
                  (set (attendance_data s) g
                       (group_att (prepared_frame s g u date)))
                  (set (salary_data s) g (map_values clear_rec gs))).
  { unfold s'. rewrite (@handle_message_eq s m g Hc). fold u date.
    now rewrite Hd. }
  split.
  { rewrite (@handle_message_eq s m g Hc). fold u date. now rewrite Hd. }
  split; [rewrite Hs', frame_of_commit; reflexivity|].
  split; [rewrite Hs', prepare_eq; reflexivity|].
  set (pf4 := prepared_frame s' g (effective_user m4) (today (at_clock m4))).
  assert (all_values (fun _ r => deductions r = 0) (group_sal pf4)) as Hz.
  { unfold pf4, prepared_frame; cbn [group_sal].
    apply ensure_user_salary_zero. rewrite Hs', frame_of_commit.
    cbn [group_sal]. intros k r Hin. unfold map_values in Hin.
    apply in_map_iff in Hin as [kv [[= <- <-] _]]. reflexivity. }
  eexists. split.
  - rewrite (@handle_message_eq s' m4 g Hc4). fold pf4. cbn [snd].
    rewrite (@dispatch_show pf4 m4 Ht4 Ha4 (prepared_sal_nonempty _ _ _ _)).
    cbn [snd]. now rewrite (total_deductions_zero Hz).
  - apply Forall_forall. intros l Hin.
    apply in_map_iff in Hin as [[k r] [<- Hin]]. cbn [snd]. now apply (Hz k).
Qed.

Lemma clear_deductions_resets_witness :
  let s := run empty_state Scenario.before_retract in
  let m := Fixture.msg "5" Fixture.boss (Fixture.jan1 12 5 0) in
  let m4 := Fixture.msg "4" Fixture.boss (Fixture.jan1 12 6 0) in
  is_admin (u_id (effective_user m)) = true
  /\ salary_of (fst (handle_message s m)) 100 2 = Some (mk_salary "Bob" 0 [])
  /\ snd (handle_message (fst (handle_message s m)) m4)
     = Deductions [("alice", 0); ("Bob", 0); ("unknown", 0); ("boss", 0)] 0.
Proof.
  intros s m m4. split; [reflexivity|].
  destruct (@clear_deductions_resets s m m4 100 eq_refl eq_refl eq_refl
              eq_refl eq_refl eq_refl) as (_ & Hgs & _ & _).
  split; [|reflexivity].
  unfold salary_of. rewrite Hgs. reflexivity.
Defined.

(** ** Clearing the attendance *)

Lemma handle_clear_attendance_eq (s : state) (m : update) (g : Z) :
  let u := effective_user m in
  effective_chat m = Some g -> text m = "0" -> is_admin (u_id u) = true ->
  handle_message s m
  = (mk_state (set (attendance_data s) g [])
              (set (salary_data s) g
                   (group_sal (prepared_frame s g u (today (at_clock m))))),
     AttendanceCleared).
Proof.
  intros u Hc Ht Ha. rewrite (@handle_message_eq s m g Hc).
  unfold dispatch. rewrite Ht. fold u. rewrite Ha. reflexivity.
Qed.

(** The record [ensure_user_salary] leaves for a user depends only on what
    was on file for that user. *)
Lemma rec_at_ensure_congr (gs gs' : group_salary) (uid : Z) (n : string) :
  get gs uid = get gs' uid ->
  rec_at (ensure_user_salary gs uid n) uid
  = rec_at (ensure_user_salary gs' uid n) uid.
Proof.
  intros Heq. unfold rec_at, ensure_user_salary. rewrite <- Heq.
  destruct (get gs uid) as [r|] eqn:Hg.
  - destruct (truthy n && negb (truthy (username r)));
      rewrite ?get_set_eq, <- ?Heq, ?Hg; reflexivity.
  - now rewrite !get_set_eq.
Qed.

(** X10. Action "0" by an administrator removes every day of the group from
    the attendance ledger, not only today, and refunds nothing: the salary
    dictionary stays as line 138 left it.  Nobody counts as marked any more,
    so a non-administrator who checks in late after the clear is charged the
    penalty on top of what is on file, even if that user had already marked
    (and been charged) in the same session before the clear. *)
Theorem clear_attendance_reopens (s : state) (m0 m1 : update) (g : Z) :
  let a := effective_user m0 in
  let u := effective_user m1 in
  let c := at_clock m1 in
  let sess := current_session (now c) in
  let s0 := fst (handle_message s m0) in
  let s1 := fst (handle_message s0 m1) in
  effective_chat m0 = Some g -> text m0 = "0" -> is_admin (u_id a) = true ->
  effective_chat m1 = Some g -> text m1 = "1" -> is_admin (u_id u) = false ->
  is_within_window (now c) = false ->
  snd (handle_message s m0) = AttendanceCleared
  /\ group_att (frame_of s0 g) = []
  /\ salary_data s0 = salary_data (prepare s g a (today (at_clock m0)))
  /\ (forall d ss uid, already_marked s0 g d ss uid = false)
  /\ snd (handle_message s0 m1)
     = MarkedLate sess (strftime_HMS (now c)) LATE_PENALTY
  /\ salary_of s1 g (u_id u)
     = Some (apply_deduction (sender_record s g u) (today c) r_late).
Proof.
  intros a u c sess s0 s1 Hc0 Ht0 Ha0 Hc1 Ht1 Hna Hw.
  pose proof (@handle_clear_attendance_eq s m0 g Hc0 Ht0 Ha0) as H0.
  cbv zeta in H0. fold a in H0.
  assert (Hs0 : s0 = mk_state (set (attendance_data s) g [])
                      (set (salary_data s) g
                           (group_sal (prepared_frame s g a
                                         (today (at_clock m0)))))).
  { unfold s0. now rewrite H0. }
  assert (Hga : group_att (frame_of s0 g) = []).
  { rewrite Hs0, frame_of_commit. reflexivity. }
  assert (Hnm : forall d ss uid, already_marked s0 g d ss uid = false).
  { intros d ss uid. unfold already_marked. rewrite Hga.
    unfold day_at. cbn [get]. now destruct ss. }
  split; [now rewrite H0|]. split; [exact Hga|].
  split; [rewrite Hs0, prepare_eq; reflexivity|].
  split; [exact Hnm|].
  destruct (@first_mark s0 m1 g Hc1 Ht1 Hna (Hnm _ _ _)) as (Hr & _ & Hsal).
  fold u c sess s1 in Hr, Hsal. rewrite Hw in Hr, Hsal. cbn [negb] in Hr, Hsal.
  split; [exact Hr|]. rewrite Hsal. do 2 f_equal.
  unfold sender_record. apply rec_at_ensure_congr.
  rewrite Hs0, frame_of_commit. cbn [group_sal].
  unfold prepared_frame; cbn [group_sal].
  apply ensure_user_salary_other.
  intros Heq. rewrite Heq in Hna. congruence.
Qed.

Lemma clear_attendance_reopens_witness :
  let s := run empty_state [Fixture.msg "1" Fixture.alice (Fixture.jan1 10 45 0)] in
  let m0 := Fixture.msg "0" Fixture.boss (Fixture.jan1 10 50 0) in
  let m1 := Fixture.msg "1" Fixture.alice (Fixture.jan1 10 55 0) in
  is_admin (u_id (effective_user m0)) = true
  /\ is_admin (u_id (effective_user m1)) = false
  /\ is_within_window (now (at_clock m1)) = false
  /\ already_marked s 100 "2025-01-01" morning 1 = true
  /\ salary_of (fst (handle_message (fst (handle_message s m0)) m1)) 100 1
     = Some (mk_salary "alice" 100 [mk_event "2025-01-01" 50 r_late;
                                    mk_event "2025-01-01" 50 r_late]).
Proof.
  intros s m0 m1. repeat (split; [reflexivity|]).
  destruct (@clear_attendance_reopens s m0 m1 100 eq_refl eq_refl eq_refl
              eq_refl eq_refl eq_refl eq_refl) as (_ & _ & _ & _ & _ & H).
  refine (eq_trans H _). reflexivity.
Defined.

(** ** Entries lie where they say *)

Lemma day_at_filed (ga : group_attendance) (date : string) :
  all_values (fun d day =>
      Forall (entry_filed d morning) (d_morning day)
      /\ Forall (entry_filed d evening) (d_evening day)) ga ->
  Forall (entry_filed date morning) (d_morning (day_at ga date))
  /\ Forall (entry_filed date evening) (d_evening (day_at ga date)).
Proof.
  intros Hga. unfold day_at. destruct (get ga date) as [day|] eqn:Hg.
  - apply (Hga date). now apply get_In.
  - split; constructor.
Qed.

Lemma day_append_filed (day : day_rec) (date : string) (sess : session)
    (e : entry) :
  Forall (entry_filed date morning) (d_morning day)
  /\ Forall (entry_filed date evening) (d_evening day) ->
  entry_filed date sess e ->
  Forall (entry_filed date morning) (d_morning (day_append day sess e))
  /\ Forall (entry_filed date evening) (d_evening (day_append day sess e)).
Proof.
  intros [Hm He] Hf. destruct sess; cbn [day_append d_morning d_evening];
    split; try assumption; apply Forall_app; split; auto.
Qed.

Lemma mark_filed (f : frame) (u : tg_user) (c : clock) :
  all_values (fun d day =>
      Forall (entry_filed d morning) (d_morning day)
      /\ Forall (entry_filed d evening) (d_evening day)) (group_att f) ->
  all_values (fun d day =>
      Forall (entry_filed d morning) (d_morning day)
      /\ Forall (entry_filed d evening) (d_evening day))
    (group_att (fst (mark f u c))).
Proof.
  intros Hf. unfold mark.
  destruct (existsb _ _); [assumption|].
  pose proof (day_at_filed (today c) Hf) as Hday.
  destruct (is_admin (u_id u)) eqn:Ha; [|destruct (negb _)];
    cbn [fst group_att]; (apply all_values_set; [assumption|]);
    apply day_append_filed; try assumption;
    repeat split; cbn [late user_id]; congruence.
Qed.

Lemma dispatch_filed (f : frame) (m : update) :
  all_values (fun d day =>
      Forall (entry_filed d morning) (d_morning day)
      /\ Forall (entry_filed d evening) (d_evening day)) (group_att f) ->
  all_values (fun d day =>
      Forall (entry_filed d morning) (d_morning day)
      /\ Forall (entry_filed d evening) (d_evening day))
    (group_att (fst (dispatch f m))).
Proof.
  intros Hf. unfold dispatch.
  destruct (text m =? "1")%string; [now apply mark_filed|].
  destruct (text m =? "2")%string; [assumption|].
  destruct (text m =? "3")%string; [assumption|].
  destruct (text m =? "4")%string.
  { destruct (negb _); [assumption|]. case (group_sal f); intros; exact Hf. }
  destruct (text m =? "5")%string.
  { destruct (negb _); assumption. }
  destruct (text m =? "6")%string.
  { destruct (negb _); [assumption|]. unfold sweep.
    destruct (known_members _ _); [assumption|].
    destruct (missing_members _ _); assumption. }
  destruct (text m =? "7")%string.
  { destruct (negb _); [assumption|]. unfold clear_missing_today.
    destruct (retract _ _ _) as [gs [|x cleared]]; assumption. }
  destruct (text m =? "0")%string; [|assumption].
  destruct (negb _); [assumption|]. intros k v [].
Qed.

Lemma handle_message_filed (s : state) (m : update) :
  filing_ok s -> filing_ok (fst (handle_message s m)).
Proof.
  intros Hs. destruct (effective_chat m) as [g|] eqn:Hc.
  - rewrite (@handle_message_eq s m g Hc). cbn [fst].
    unfold filing_ok; cbn [attendance_data].
    apply all_values_set; [exact Hs|].
    apply dispatch_filed. unfold prepared_frame; cbn [group_att].
    assert (all_values (fun d day =>
                Forall (entry_filed d morning) (d_morning day)
                /\ Forall (entry_filed d evening) (d_evening day))
              (group_att (frame_of s g))) as Hga.
    { unfold frame_of; cbn [group_att].
      destruct (get (attendance_data s) g) as [ga|] eqn:Hg.
      - apply (Hs g). now apply get_In.
      - intros k v []. }
    unfold ensure_day_structure. destruct (contains _ _); [exact Hga|].
    apply all_values_set; [exact Hga | split; constructor].
  - unfold handle_message. now rewrite Hc.
Qed.

(** X11. Every attendance entry lies where it says: along any sequence of
    messages, an entry found in a session list of a day of a group carries
    that day as its date and that session as its session, and an entry
    flagged late never belongs to an administrator. *)
Theorem entries_filed_where_they_say (ms : list update) :
  forall s, filing_ok s ->
  forall g ga date day sess e,
    In (g, ga) (attendance_data (run s ms)) -> In (date, day) ga ->
    In e (day_get day sess) ->
    e_date e = date /\ e_session e = sess
    /\ (late e = true -> ~ In (user_id e) ADMIN_IDS).
Proof.
  induction ms as [|m ms IH]; intros s Hs g ga date day sess e Hg Hd He.
  - destruct (Hs g ga Hg date day Hd) as [Hm Hev].
    assert (entry_filed date sess e) as (H1 & H2 & H3).
    { destruct sess; cbn [day_get] in He;
        [exact (proj1 (Forall_forall _ _) Hm e He)
        |exact (proj1 (Forall_forall _ _) Hev e He)]. }
    repeat split; auto. intros Hl Hin. apply is_admin_In in Hin.
    rewrite (H3 Hl) in Hin. discriminate.
  - rewrite run_cons in Hg.
    exact (IH _ (handle_message_filed m Hs) g ga date day sess e Hg Hd He).
Qed.

Lemma entries_filed_where_they_say_witness :
  let s := run empty_state Fixture.day1 in
  let e := mk_entry 2 "Bob" "2025-01-01" "12:00:00" true morning in
  filing_ok empty_state
  /\ e_date e = "2025-01-01" /\ e_session e = morning
  /\ (late e = true -> ~ In (user_id e) ADMIN_IDS).
Proof.
  intros s e.
  assert (filing_ok empty_state) as H0 by (intros g ga []).
  split; [exact H0|].
  apply (@entries_filed_where_they_say Fixture.day1 empty_state H0 100
           (group_att (frame_of s 100)) "2025-01-01"
           (day_at (group_att (frame_of s 100)) "2025-01-01") morning e).
  - vm_compute. left. reflexivity.
  - vm_compute. left. reflexivity.
  - vm_compute. right. left. reflexivity.
Defined.

(** ** Every charge is the penalty *)

Lemma sum_amounts_penalties (l : list event) :
  Forall (fun h => amount h = LATE_PENALTY) l ->
  sum_amounts l = LATE_PENALTY * Z.of_nat (List.length l).
Proof.
  induction 1 as [|h l Hh Hl IH]; [reflexivity|].
  cbn [sum_amounts fold_right List.length].
  fold (sum_amounts l). rewrite IH, Hh. lia.
Qed.

Lemma Forall_select (P : event -> Prop) (test : string -> event -> bool)
    (tick : nat -> string) (hist : list event) :
  Forall P hist -> forall k, Forall P (select test tick k hist).
Proof.
  induction 1 as [|h hist Hh Hl IH]; intros k; [constructor|].
  cbn [select]. destruct (test (tick k) h); [constructor|]; auto.
Qed.

Lemma penalty_invariant :
  rec_invariant any_reads (fun _ r => rec_penalty_only r).
Proof.
  constructor; unfold rec_penalty_only.
  - intros _ n. split; [constructor | now exists O].
  - intros _ r n _ H. exact H.
  - intros _ r date why _ [Hf [n Hd]].
    cbn [apply_deduction history deductions]. split.
    + apply Forall_app. split; [assumption | repeat constructor].
    + exists (S n). rewrite Hd. lia.
  - intros _ r _. split; [constructor | now exists O].
  - intros _ r tick k _ [Hf [n Hd]]. unfold retract_rec.
    pose proof (sum_amounts_penalties
                  (@Forall_select _ is_missing_on tick (history r) Hf k))
      as Hs.
    destruct (select is_missing_on tick k (history r)) as [|h hs] eqn:E;
      [split; [assumption | now exists n]|].
    cbn [history deductions]. split; [now apply Forall_select|].
    exists (n - List.length (h :: hs))%nat.
    rewrite Hs, Hd. unfold LATE_PENALTY. lia.
Qed.

(** X12. Every charge is the fixed penalty, whatever the clock does: along
    any sequence of messages, every event of every history has amount 50 and
    the cached deductions of a record are a whole number of penalties (so
    never negative), provided the ledger started that way, as the empty
    ledger does. *)
Theorem charges_are_whole_penalties (s : state) (ms : list update) :
  penalty_only s ->
  forall g gs uid r,
    In (g, gs) (salary_data (run s ms)) -> In (uid, r) gs ->
    Forall (fun h => amount h = 50) (history r)
    /\ (exists n : nat, deductions r = 50 * Z.of_nat n)
    /\ 0 <= deductions r.
Proof.
  intros Hs g gs uid r Hg Hr.
  pose proof (@run_inv _ _ penalty_invariant ms (any_reads_all ms) s Hs) as H.
  destruct (H _ _ Hg _ _ Hr) as [Hf [n Hd]].
  split; [exact Hf|]. split; [now exists n|].
  rewrite Hd. unfold LATE_PENALTY. lia.
Qed.

Lemma charges_are_whole_penalties_witness :
  let s := fst (handle_message (run empty_state Midnight.before)
                               Midnight.at_midnight) in
  let gs := group_sal (frame_of s 100) in
  penalty_only empty_state
  /\ rec_at gs 2 = Midnight.left_over
  /\ Forall (fun h => amount h = 50) (history (rec_at gs 2))
  /\ 0 <= deductions (rec_at gs 2).
Proof.
  intros s gs.
  assert (penalty_only empty_state) as H0 by (intros g gs0 []).
  split; [exact H0|]. split; [vm_compute; reflexivity|].
  destruct (@charges_are_whole_penalties empty_state
              (Midnight.before ++ [Midnight.at_midnight]) H0 100 gs 2
              (rec_at gs 2)) as (Hf & _ & Hd).
  - vm_compute. left. reflexivity.
  - vm_compute. left. reflexivity.
  - split; [exact Hf | exact Hd].
Defined.

(** ** Names on file never change *)

Lemma ensure_user_salary_named (gs : group_salary) (uid k : Z) (n : string)
    (r : salary_rec) :
  get gs uid = Some r -> truthy (username r) = true ->
  get (ensure_user_salary gs k n) uid = Some r.
Proof.
  intros Hr Hn. destruct (Z.eq_dec uid k) as [<-|Hne].
  - unfold ensure_user_salary. rewrite Hr, Hn.
    now rewrite andb_false_r.
  - now rewrite ensure_user_salary_other.
Qed.

Lemma penalize_named (date : string) (uid : Z) (missing : list (Z * string)) :
  forall (gs : group_salary) (r : salary_rec),
    get gs uid = Some r -> truthy (username r) = true ->
    exists r', get (penalize date gs missing) uid = Some r'
               /\ username r' = username r.
Proof.
  unfold penalize.
  induction missing as [|[k n] missing IH]; intros gs r Hr Hn; [eauto|].
  cbn [fold_left fst snd].
  pose proof (@ensure_user_salary_named gs uid k n r Hr Hn) as H1.
  destruct (Z.eq_dec uid k) as [<-|Hne].
  - destruct (IH (set (ensure_user_salary gs uid n) uid
                    (apply_deduction (rec_at (ensure_user_salary gs uid n) uid)
                                     date r_missing))
                (apply_deduction r date r_missing))
      as (r' & Hr' & Hn'); [| exact Hn | eauto].
    rewrite get_set_eq. unfold rec_at. now rewrite H1.
  - apply (IH _ r); [|exact Hn]. now rewrite get_set_ne.
Qed.

Lemma dispatch_named (f : frame) (m : update) (uid : Z) (r : salary_rec) :
  get (group_sal f) uid = Some r -> truthy (username r) = true ->
  exists r', get (group_sal (fst (dispatch f m))) uid = Some r'
             /\ username r' = username r.
Proof.
  intros Hr Hn. unfold dispatch.
  destruct (text m =? "1")%string.
  { unfold mark. destruct (existsb _ _); [eauto|].
    destruct (is_admin _); [eauto|]. destruct (negb _); [|eauto].
    cbn [fst group_sal].
    destruct (Z.eq_dec uid (u_id (effective_user m))) as [<-|Hne].
    - rewrite get_set_eq. unfold rec_at. rewrite Hr. eauto.
    - rewrite get_set_ne by assumption. eauto. }
  destruct (text m =? "2")%string; [eauto|].
  destruct (text m =? "3")%string; [eauto|].
  destruct (text m =? "4")%string.
  { destruct (negb _); [eauto|].
    destruct (group_sal f) eqn:E; cbn [fst]; rewrite E; eauto. }
  destruct (text m =? "5")%string.
  { destruct (negb _); [eauto|]. cbn [fst group_sal].
    rewrite get_map_values, Hr. cbn [option_map]. eauto. }
  destruct (text m =? "6")%string.
  { destruct (negb _); [eauto|]. unfold sweep.
    destruct (known_members _ _); [eauto|].
    destruct (missing_members _ _) eqn:E; [eauto|].
    cbn [fst group_sal]. now apply penalize_named. }
  destruct (text m =? "7")%string.
  { destruct (negb _); [eauto|]. unfold clear_missing_today.
    destruct (@retract_get (today_again (at_clock m)) uid (group_sal f) O r
                Hr) as [k' Hg].
    destruct (retract _ _ _) as [gs cleared]. cbn [fst] in Hg.
    assert (exists r', get gs uid = Some r' /\ username r' = username r)
      as Hex.
    { eexists. split; [exact Hg|].
      unfold retract_rec. now destruct (select _ _ _ _). }
    destruct cleared; exact Hex. }
  destruct (text m =? "0")%string; [|eauto].
  destruct (negb _); eauto.
Qed.

Lemma handle_message_named (s : state) (m : update) (g uid : Z)
    (r : salary_rec) :
  salary_of s g uid = Some r -> truthy (username r) = true ->
  exists r', salary_of (fst (handle_message s m)) g uid = Some r'
             /\ username r' = username r.
Proof.
  intros Hr Hn. destruct (effective_chat m) as [g'|] eqn:Hc.
  - destruct (Z.eq_dec g g') as [<-|Hne].
    + unfold salary_of. rewrite (@handle_message_eq s m g Hc). cbn [fst].
      rewrite frame_of_commit. cbn [group_sal].
      apply dispatch_named; [|exact Hn].
      unfold prepared_frame; cbn [group_sal].
      now apply ensure_user_salary_named.
    + exists r. split; [|reflexivity]. unfold salary_of, frame_of in *.
      cbn [group_sal] in *.
      destruct (@handle_message_other_group s m g) as [_ Hs]; [congruence|].
      now rewrite Hs.
  - unfold handle_message. rewrite Hc. eauto.
Qed.

(** X13. A display name on file is never changed: once a user's salary
    record carries a non-empty name, the record stays and carries that same
    name after any sequence of messages, whatever names later messages of
    that user supply. *)
Theorem names_never_change (ms : list update) :
  forall (s : state) (g uid : Z) (r : salary_rec),
    salary_of s g uid = Some r -> truthy (username r) = true ->
    exists r', salary_of (run s ms) g uid = Some r'
               /\ username r' = username r.
Proof.
  induction ms as [|m ms IH]; intros s g uid r Hr Hn; [eauto|].
  rewrite run_cons.
  destruct (@handle_message_named s m g uid r Hr Hn) as (r1 & Hr1 & Hn1).
  destruct (IH _ g uid r1 Hr1) as (r' & Hr' & Hn'); [congruence|].
  exists r'. split; [exact Hr' | congruence].
Qed.

Lemma names_never_change_witness :
  let renamed := mk_user 2 (Some "robert") "Robert" in
  let ms := [Fixture.msg "1" renamed (Fixture.jan1 10 45 0);
             Fixture.msg "6" Fixture.boss (Fixture.jan1 17 30 0)] in
  salary_of Fixture.stored 100 2
  = Some (mk_salary "Bob" 100 [mk_event "2024-12-31" 50 r_late;
                               mk_event "2025-01-01" 50 r_missing])
  /\ exists r', salary_of (run Fixture.stored ms) 100 2 = Some r'
                /\ username r' = "Bob".
Proof.
  intros renamed ms. split; [reflexivity|].
  exact (@names_never_change ms Fixture.stored 100 2 _ eq_refl eq_refl).
Defined.

(** ** Whoever marked is a known member *)

Lemma dispatch_group_att (f : frame) (m : update) :
  let date := today (at_clock m) in
  group_att (fst (dispatch f m)) = group_att f
  \/ group_att (fst (dispatch f m)) = []
  \/ exists sess e,
       user_id e = u_id (effective_user m)
       /\ group_att (fst (dispatch f m))
          = set (group_att f) date
                (day_append (day_at (group_att f) date) sess e).
Proof.
  intros date. unfold dispatch.
  destruct (text m =? "1")%string.
  { unfold mark. destruct (existsb _ _); [now left|].
    destruct (is_admin _); [|destruct (negb _)];
      right; right; eexists; eexists; (split; [|reflexivity]); reflexivity. }
  destruct (text m =? "2")%string; [now left|].
  destruct (text m =? "3")%string; [now left|].
  destruct (text m =? "4")%string.
  { destruct (negb _); [now left|]. destruct (group_sal f); now left. }
  destruct (text m =? "5")%string.
  { destruct (negb _); now left. }
  destruct (text m =? "6")%string.
  { destruct (negb _); [now left|]. unfold sweep.
    destruct (known_members _ _); [now left|].
    destruct (missing_members _ _); now left. }
  destruct (text m =? "7")%string.
  { destruct (negb _); [now left|]. unfold clear_missing_today.
    destruct (retract _ _ _) as [gs [|x cleared]]; now left. }
  destruct (text m =? "0")%string; [|now left].
  destruct (negb _); [now left | right; now left].
Qed.

Lemma dispatch_known (f : frame) (m : update) :
  frame_known f ->
  In (u_id (effective_user m)) (keys (group_sal f)) ->
  frame_known (fst (dispatch f m)).
Proof.
  intros Hf Hu.
  pose proof (proj2 (keys_ext_dispatch f m)) as Hincl.
  destruct (dispatch_group_att f m) as [Hga|[Hga|(sess & e & He & Hga)]];
    intros date day ss x Hday Hx; rewrite Hga in Hday; apply Hincl.
  - eapply Hf; eassumption.
  - discriminate Hday.
  - destruct (String.eqb_spec date (today (at_clock m))) as [->|Hne].
    + rewrite get_set_eq in Hday. injection Hday as <-.
      assert (In x (day_get (day_at (group_att f) (today (at_clock m))) ss)
              \/ x = e) as [Hold | ->].
      { destruct sess, ss; cbn [day_append day_get d_morning d_evening] in Hx;
          try (now left);
          (apply in_app_or in Hx as [Hx|[<-|[]]]; [now left | now right]). }
      * unfold day_at in Hold.
        destruct (get (group_att f) (today (at_clock m))) as [d0|] eqn:Hg.
        -- eapply Hf; eassumption.
        -- destruct ss; destruct Hold.
      * now rewrite He.
    + rewrite get_set_ne in Hday by assumption. eapply Hf; eassumption.
Qed.

Lemma prepared_known (s : state) (g : Z) (u : tg_user) (date : string) :
  frame_known (frame_of s g) -> frame_known (prepared_frame s g u date).
Proof.
  intros Hf d day ss x Hday Hx.
  apply (proj2 (prepared_keys_ext s g u date)).
  unfold prepared_frame in Hday; cbn [group_att] in Hday.
  unfold ensure_day_structure in Hday.
  destruct (contains _ _); [eapply Hf; eassumption|].
  destruct (String.eqb_spec d date) as [->|Hne].
  - rewrite get_set_eq in Hday. injection Hday as <-. destruct ss; destruct Hx.
  - rewrite get_set_ne in Hday by assumption. eapply Hf; eassumption.
Qed.

Lemma frame_of_other_group (s : state) (m : update) (g : Z) :
  effective_chat m <> Some g ->
  frame_of (fst (handle_message s m)) g = frame_of s g.
Proof.
  intros Hne. destruct (@handle_message_other_group s m g Hne) as [Ha Hs].
  unfold frame_of. now rewrite Ha, Hs.
Qed.

Lemma handle_message_known (s : state) (m : update) :
  marked_known s -> marked_known (fst (handle_message s m)).
Proof.
  intros Hs g. destruct (effective_chat m) as [g'|] eqn:Hc.
  - destruct (Z.eq_dec g g') as [<-|Hne].
    + rewrite (@handle_message_eq s m g Hc). cbn [fst].
      rewrite frame_of_commit.
      assert (forall f : frame, mk_frame (group_att f) (group_sal f) = f) as Heta
        by (now intros []).
      rewrite Heta. apply dispatch_known; [apply prepared_known, Hs|].
      unfold prepared_frame; cbn [group_sal].
      eapply get_In_keys. apply ensure_user_salary_get.
    + rewrite frame_of_other_group by congruence. apply Hs.
  - rewrite frame_of_other_group by congruence. apply Hs.
Qed.

(** X14. Whoever is on an attendance list is a known member: along any
    sequence of messages, every user with an entry in some session of some
    day of a group has a salary record in that group (so the sweep never
    needs its fallback to the attendance entries). *)
Theorem marked_users_are_members (ms : list update) :
  forall s, marked_known s ->
  forall g date day sess e,
    get (group_att (frame_of (run s ms) g)) date = Some day ->
    In e (day_get day sess) ->
    exists r, salary_of (run s ms) g (user_id e) = Some r.
Proof.
  induction ms as [|m ms IH]; intros s Hs g date day sess e Hday He.
  - apply keys_In_get. eapply Hs; eassumption.
  - rewrite run_cons in *.
    exact (IH _ (handle_message_known m Hs) g date day sess e Hday He).
Qed.

Lemma marked_users_are_members_witness :
  let s := run empty_state Fixture.day1 in
  let e := mk_entry 1 "alice" "2025-01-01" "10:45:00" true morning in
  marked_known empty_state
  /\ exists r, salary_of s 100 (user_id e) = Some r.
Proof.
  intros s e.
  assert (marked_known empty_state) as H0.
  { intros g date day sess x Hd. unfold frame_of in Hd. discriminate Hd. }
  split; [exact H0|].
  apply (@marked_users_are_members Fixture.day1 empty_state H0 100
           "2025-01-01" (day_at (group_att (frame_of s 100)) "2025-01-01")
           morning e).
  - reflexivity.
  - vm_compute. left. reflexivity.
Defined.

(** ** Repeating and undoing *)

Lemma filter_filter_negb {A : Type} (p : A -> bool) (l : list A) :
  filter p (filter (fun x => negb (p x)) l) = [].
Proof.
  induction l as [|x l IH]; [reflexivity|].
  cbn [filter]. destruct (p x) eqn:E; cbn [negb filter]; [exact IH|].
  now rewrite E.
Qed.

Lemma removed_on_retract_rec (date : string) (r : salary_rec) :
  removed_on date (retract_rec_on date r) = [].
Proof.
  unfold removed_on, retract_rec_on.
  destruct (filter (is_missing_on date) (history r)) eqn:E; [exact E|].
  cbn [history]. apply filter_filter_negb.
Qed.

Lemma retract_rec_clean (date : string) (r : salary_rec) :
  removed_on date r = [] -> retract_rec_on date r = r.
Proof. unfold removed_on, retract_rec_on. now intros ->. Qed.

Lemma retraction_report_clean (date : string) (gs : group_salary) :
  all_values (fun _ r => removed_on date r = []) gs ->
  retraction_report date gs = []
  /\ map_values (retract_rec_on date) gs = gs.
Proof.
  induction gs as [|[k r] gs IH]; intros Hc; [now split|].
  destruct IH as [IH1 IH2];
    [intros k' r' Hin; apply (Hc k' r'); now right|].
  pose proof (Hc k r (or_introl eq_refl)) as Hr.
  unfold retraction_report, map_values in *. cbn [flat_map map fst snd].
  rewrite Hr, IH1, IH2, (@retract_rec_clean date r Hr). now split.
Qed.

(** After an update of the salary records that keeps the names, lines
    131-138 of the same sender find everything in place. *)
Lemma prepared_after_map_values (s : state) (g : Z) (u : tg_user)
    (date : string) (f : salary_rec -> salary_rec) :
  let pf := prepared_frame s g u date in
  let s1 := mk_state (set (attendance_data s) g (group_att pf))
                     (set (salary_data s) g (map_values f (group_sal pf))) in
  (forall r, username (f r) = username r) ->
  prepared_frame s1 g u date
  = mk_frame (group_att pf) (map_values f (group_sal pf)).
Proof.
  intros pf s1 Hf. unfold prepared_frame at 1. unfold s1.
  rewrite frame_of_commit. cbn [group_att group_sal]. f_equal.
  - unfold ensure_day_structure, contains.
    assert (get (group_att pf) date
            = Some (day_at (group_att (frame_of s g)) date)) as ->;
      [|reflexivity].
    unfold pf, prepared_frame; cbn [group_att]. apply day_at_ensure.
  - destruct (ensure_user_salary_stable (group_sal (frame_of s g)) (u_id u)
                (display_name u)) as [r [Hr Hst]].
    change (ensure_user_salary (group_sal (frame_of s g)) (u_id u)
              (display_name u)) with (group_sal pf) in Hr.
    unfold ensure_user_salary at 1.
    rewrite get_map_values, Hr. cbn [option_map]. now rewrite Hf, Hst.
Qed.

Lemma retract_rec_username (date : string) (r : salary_rec) :
  username (retract_rec_on date r) = username r.
Proof. unfold retract_rec_on. now destruct (filter _ _). Qed.

(** X15. Within a day, retraction is idempotent: when the date does not
    change during the turn, after action "7" by an administrator no record
    of the group holds an event dated today with reason "missing", and a
    second "7" by the same sender on the same day, again with no change of
    date during the turn, finds nothing to clear and leaves both ledgers
    exactly as they were. *)
Theorem retraction_idempotent_within_a_day (s : state) (m m2 : update)
    (g : Z) :
  let u := effective_user m in
  let date := today (at_clock m) in
  let s1 := fst (handle_message s m) in
  effective_chat m = Some g -> text m = "7" -> is_admin (u_id u) = true ->
  steady (at_clock m) ->
  effective_chat m2 = Some g -> text m2 = "7" -> effective_user m2 = u ->
  today (at_clock m2) = date -> steady (at_clock m2) ->
  (forall uid r h, salary_of s1 g uid = Some r -> In h (history r) ->
                   ~ (ev_date h = date /\ ev_reason h = r_missing))
  /\ handle_message s1 m2 = (s1, NothingToClear).
Proof.
  intros u date s1 Hc Ht Ha Hst Hc2 Ht2 Hu2 Hd2 Hst2.
  pose proof (@handle_retract_eq s m g Hc Ht Ha Hst) as H1. cbv zeta in H1.
  fold u date in H1. set (pf := prepared_frame s g u date) in *.
  set (gs1 := map_values (retract_rec_on date) (group_sal pf)) in *.
  assert (Hs1 : s1 = mk_state (set (attendance_data s) g (group_att pf))
                      (set (salary_data s) g gs1)).
  { unfold s1. now rewrite H1. }
  assert (Hclean : all_values (fun _ r => removed_on date r = []) gs1).
  { intros k r Hin. unfold gs1, map_values in Hin.
    apply in_map_iff in Hin as [kv [[= <- <-] _]].
    apply removed_on_retract_rec. }
  split.
  - intros uid r h Hr Hh Hm. unfold salary_of in Hr.
    rewrite Hs1, frame_of_commit in Hr. cbn [group_sal] in Hr.
    apply get_In in Hr. pose proof (Hclean _ _ Hr) as He.
    apply is_missing_on_spec in Hm.
    assert (In h (removed_on date r)) as Hin
      by (apply filter_In; now split).
    rewrite He in Hin. destruct Hin.
  - assert (Ha2 : is_admin (u_id (effective_user m2)) = true)
      by now rewrite Hu2.
    rewrite (@handle_retract_eq s1 m2 g Hc2 Ht2 Ha2 Hst2). rewrite Hu2, Hd2.
    assert (prepared_frame s1 g u date = mk_frame (group_att pf) gs1) as ->.
    { rewrite Hs1. apply prepared_after_map_values.
      apply retract_rec_username. }
    cbn [group_att group_sal].
    destruct (@retraction_report_clean date gs1 Hclean) as [-> ->].
    rewrite Hs1. cbn [attendance_data salary_data].
    now rewrite !set_set.
Qed.

Lemma retraction_idempotent_within_a_day_witness :
  let s := run empty_state Scenario.before_retract in
  let m := Scenario.retract_msg in
  let m2 := Fixture.msg "7" Fixture.boss (Fixture.jan1 18 0 0) in
  let s1 := fst (handle_message s m) in
  is_admin (u_id (effective_user m)) = true
  /\ steady (at_clock m) /\ steady (at_clock m2)
  /\ snd (handle_message s m) <> NothingToClear
  /\ handle_message s1 m2 = (s1, NothingToClear).
Proof.
  intros s m m2 s1. split; [reflexivity|].
  split; [intros i; reflexivity|]. split; [intros i; reflexivity|].
  split; [vm_compute; discriminate|].
  exact (proj2 (@retraction_idempotent_within_a_day s m m2 100
                  eq_refl eq_refl eq_refl (fun i => eq_refl)
                  eq_refl eq_refl eq_refl eq_refl (fun i => eq_refl))).
Defined.


(* ================================================================= *)
(** * Further properties of the persistence *)

Section RemoveOther.
Context {K V : Type} `{Key K}.

Lemma get_remove_ne (d : dict K V) (k k' : K) :
  k' <> k -> get (remove d k) k' = get d k'.
Proof.
  intros Hne. unfold remove. induction d as [|[k0 v0] d IH]; [reflexivity|].
  cbn [filter fst]. destruct (keqb k k0) eqn:E; cbn [negb get].
  - apply keqb_eq in E. subst k0. now rewrite (keqb_neq Hne).
  - now rewrite IH.
Qed.
End RemoveOther.

Module SavingFacts.
Import Persistence Saving.

(** The three ways [load_json] can go. *)
Lemma load_json_cases (st : fs) (path : string) :
  (get (nodes st) path = None /\ load_json path st = (Returned empty_dict, st))
  \/ (exists j, get (nodes st) path = Some (Document (Some j))
                /\ load_json path st
                   = (Returned (if json_truthy j then j else empty_dict), st))
  \/ (exists n, get (nodes st) path = Some n
                /\ (n = Unreadable \/ n = Document None)
                /\ load_json path st
                   = (Returned empty_dict,
                      if can_rename st
                      then mk_fs (set (remove (nodes st) path)
                                      (path ++ ".bak")%string n) true
                      else st)).
Proof.
  unfold load_json, bind, os_path_exists, contains, try_except, open_and_load,
    os_rename, ret.
  destruct (get (nodes st) path) as [n|] eqn:Hg; cbn [negb]; [|now left].
  right. destruct n as [|[j|]].
  - right. exists Unreadable. split; [reflexivity|]. split; [now left|].
    destruct (can_rename st) eqn:Hc;
      repeat (progress (rewrite ?Hg, ?Hc; cbv beta iota)); reflexivity.
  - left. exists j. split; [reflexivity|].
    repeat (progress (rewrite ?Hg; cbv beta iota)). reflexivity.
  - right. exists (Document None). split; [reflexivity|]. split; [now right|].
    destruct (can_rename st) eqn:Hc;
      repeat (progress (rewrite ?Hg, ?Hc; cbv beta iota)); reflexivity.
Qed.

Lemma load_json_document (st : fs) (path : string) (j : json) :
  get (nodes st) path = Some (Document (Some j)) ->
  load_json path st
  = (Returned (if json_truthy j then j else empty_dict), st).
Proof.
  intros Hg.
  destruct (load_json_cases st path)
    as [[Hg' _]|[(j' & Hg' & Hl)|(n & Hg' & Hn & _)]]; rewrite Hg in Hg'.
  - discriminate.
  - now injection Hg' as ->.
  - injection Hg' as <-. destruct Hn; discriminate.
Qed.

(** X17. [load_json] is idempotent: loading the same path again returns the
    same value and leaves the directory as the first load left it (a store
    moved aside is not moved again, a store kept is read again as it is). *)
Theorem load_json_idempotent (st : fs) (path : string) :
  load_json path (snd (load_json path st)) = load_json path st.
Proof.
  destruct (load_json_cases st path)
    as [[Hg Hl]|[(j & Hg & Hl)|(n & Hg & Hn & Hl)]].
  - rewrite Hl. cbn [snd]. exact Hl.
  - rewrite Hl. cbn [snd]. exact Hl.
  - rewrite Hl. cbn [snd]. destruct (can_rename st) eqn:Hc.
    + destruct (load_json_cases
                  (mk_fs (set (remove (nodes st) path)
                              (path ++ ".bak")%string n) true) path)
        as [[_ Hl2]|[(j & Hg2 & _)|(n2 & Hg2 & _)]]; [exact Hl2| |];
        cbn [nodes] in Hg2;
        rewrite get_set_ne in Hg2 by (apply not_eq_sym, append_bak_neq);
        rewrite get_remove_eq in Hg2; discriminate.
    + exact Hl.
Qed.

(** X18. [load_json] touches nothing but the store and its backup: every
    other path of the directory holds after the load what it held before,
    and only a store that exists and fails to open or parse is ever moved;
    the backup then holds what the store held, replacing an older backup. *)
Theorem load_json_touches_only_store (st : fs) (path q : string) :
  let st' := snd (load_json path st) in
  (q <> path -> q <> (path ++ ".bak")%string ->
   get (nodes st') q = get (nodes st) q)
  /\ (get (nodes st') path <> get (nodes st) path ->
      can_rename st = true
      /\ get (nodes st') path = None
      /\ get (nodes st') (path ++ ".bak")%string = get (nodes st) path
      /\ (get (nodes st) path = Some Unreadable
          \/ get (nodes st) path = Some (Document None))).
Proof.
  intros st'. unfold st'.
  destruct (load_json_cases st path)
    as [[Hg Hl]|[(j & Hg & Hl)|(n & Hg & Hn & Hl)]]; rewrite Hl; cbn [snd];
    try (split; [reflexivity | intros Hne; now elim Hne]).
  destruct (can_rename st) eqn:Hc;
    [|split; [reflexivity | intros Hne; now elim Hne]].
  cbn [nodes]. split.
  - intros Hq1 Hq2. rewrite get_set_ne by assumption.
    now apply get_remove_ne.
  - intros _. split; [reflexivity|]. split; [|split].
    + rewrite get_set_ne by (apply not_eq_sym, append_bak_neq).
      apply get_remove_eq.
    + now rewrite get_set_eq.
    + rewrite Hg. destruct Hn as [->| ->]; auto.
Qed.

Lemma load_json_touches_only_store_witness :
  let st := mk_fs [("a.json", Document None); ("a.json.bak", Unreadable);
                   ("b.json", Document (Some JNull))] true in
  let st' := snd (load_json "a.json" st) in
  get (nodes st') "b.json" = Some (Document (Some JNull))
  /\ get (nodes st') "a.json" = None
  /\ get (nodes st') "a.json.bak" = Some (Document None).
Proof.
  intros st st'.
  destruct (@load_json_touches_only_store st "a.json" "b.json") as [H1 H2].
  split; [apply H1; discriminate|].
  destruct H2 as (_ & Hn & Hb & _); [vm_compute; discriminate|].
  split; [exact Hn | exact Hb].
Defined.

Lemma load_json_returns (st : fs) (path : string) :
  exists v st', load_json path st = (Returned v, st').
Proof.
  destruct (load_json_cases st path)
    as [[_ Hl]|[(j & _ & Hl)|(n & _ & _ & Hl)]]; rewrite Hl; eauto.
Qed.

Lemma load_json_elsewhere (st : fs) (path q : string) :
  q <> path -> q <> (path ++ ".bak")%string ->
  get (nodes (snd (load_json path st))) q = get (nodes st) q.
Proof.
  intros Hq1 Hq2.
  destruct (load_json_cases st path)
    as [[_ Hl]|[(j & _ & Hl)|(n & _ & _ & Hl)]]; rewrite Hl; cbn [snd];
    try reflexivity.
  destruct (can_rename st); [|reflexivity].
  cbn [nodes]. rewrite get_set_ne by assumption. now apply get_remove_ne.
Qed.

(** X19. What the next start-up finds after [save_all], the attendance store
    being open for writing.  When both dumps go through and the second open
    is permitted, [save_all] returns and the two loads of the start-up give
    back the two ledgers (the empty ones included) without moving any file.
    When the dump of the attendance store is cut short, [save_all] raises
    with every other path as it was, the salary store among them, and the
    next start-up begins with an empty attendance ledger: the store written
    by an earlier save is gone, and what the failed dump left is moved away
    from the store's path where renaming is permitted. *)
Theorem save_all_then_startup (can_write : fs -> string -> bool)
    (dump_completes : fs -> string -> json -> bool) (st : fs)
    (att sal : list (string * json)) :
  let st1 := mk_fs (set (nodes st) DATA_FILE (Document (Some (JObj att))))
                   (can_rename st) in
  let st2 := mk_fs (set (nodes st1) SALARY_FILE (Document (Some (JObj sal))))
                   (can_rename st) in
  let torn := mk_fs (set (nodes st) DATA_FILE (Document None))
                    (can_rename st) in
  can_write st DATA_FILE = true ->
  (dump_completes st DATA_FILE (JObj att) = true ->
   can_write st1 SALARY_FILE = true ->
   dump_completes st1 SALARY_FILE (JObj sal) = true ->
   save_all can_write dump_completes (JObj att) (JObj sal) st
   = (Returned tt, st2)
   /\ startup st2 = (Returned (JObj att, JObj sal), st2))
  /\ (dump_completes st DATA_FILE (JObj att) = false ->
      save_all can_write dump_completes (JObj att) (JObj sal) st
      = (Raised OSError, torn)
      /\ (forall q, q <> DATA_FILE -> get (nodes torn) q = get (nodes st) q)
      /\ exists loaded st',
           startup torn = (Returned (empty_dict, loaded), st')
           /\ (can_rename st = true -> get (nodes st') DATA_FILE = None)).
Proof.
  intros st1 st2 torn H1. split.
  - intros D1 H2 D2. split.
    + unfold save_all, bind, open_and_dump. rewrite H1, D1. fold st1.
      now rewrite H2, D2.
    + assert (DATA_FILE <> SALARY_FILE) as Hne by discriminate.
      assert (forall l : list (string * json),
                (if json_truthy (JObj l) then JObj l else empty_dict) = JObj l)
        as Hor by (now intros [|x l]).
      unfold startup, bind, ret.
      rewrite (@load_json_document st2 DATA_FILE (JObj att)), Hor.
      * rewrite (@load_json_document st2 SALARY_FILE (JObj sal)), Hor;
          [reflexivity|]. unfold st2. cbn [nodes]. apply get_set_eq.
      * unfold st2, st1. cbn [nodes].
        rewrite get_set_ne by exact Hne. apply get_set_eq.
  - intros D1. split; [|split].
    + unfold save_all, bind, open_and_dump. now rewrite H1, D1.
    + intros q Hq. unfold torn. cbn [nodes]. now apply get_set_ne.
    + assert (get (nodes torn) DATA_FILE = Some (Document None)) as Hg
        by (unfold torn; cbn [nodes]; apply get_set_eq).
      destruct (load_json_cases torn DATA_FILE)
        as [[Hg' _]|[(j & Hg' & _)|(n & Hg' & _ & Hl)]];
        rewrite Hg in Hg'; try discriminate.
      injection Hg' as <-.
      set (mid := if can_rename torn
                  then mk_fs (set (remove (nodes torn) DATA_FILE)
                                  (DATA_FILE ++ ".bak")%string (Document None))
                             true
                  else torn) in Hl.
      destruct (load_json_returns mid SALARY_FILE) as (v & st' & Hl2).
      exists v, st'. split.
      * unfold startup, bind, ret. now rewrite Hl, Hl2.
      * intros Hr.
        assert (st' = snd (load_json SALARY_FILE mid)) as ->
          by now rewrite Hl2.
        rewrite load_json_elsewhere by discriminate.
        unfold mid, torn. cbn [can_rename]. rewrite Hr. cbn [nodes].
        rewrite get_set_ne by discriminate. apply get_remove_eq.
Qed.

Lemma save_all_then_startup_witness :
  let st := mk_fs [("attendance_records.json",
                    Document (Some sample_attendance));
                   ("salary_records.json", Document (Some sample_salary))]
                  true in
  let torn := snd (save_all writable full_on_data sample_attendance
                            (JObj []) st) in
  writable st DATA_FILE = true
  /\ save_all writable roomy (JObj []) sample_salary st
     = (Returned tt,
        mk_fs [("attendance_records.json", Document (Some (JObj [])));
               ("salary_records.json", Document (Some sample_salary))] true)
  /\ fst (save_all writable full_on_data sample_attendance (JObj []) st)
     = Raised OSError
  /\ get (nodes torn) SALARY_FILE = Some (Document (Some sample_salary))
  /\ fst (startup torn) = Returned (empty_dict, sample_salary).
Proof.
  intros st torn. split; [reflexivity|].
  destruct (@save_all_then_startup writable roomy st []
              [("100", JObj [("2", JObj [("username", JStr "Bob");
                                         ("deductions", JInt 50);
                                         ("history", JArr [])])])]
              eq_refl) as [Hok _].
  destruct (Hok eq_refl eq_refl eq_refl) as [Hs _].
  split; [exact Hs|].
  destruct (@save_all_then_startup writable full_on_data st
              [("100", JObj [("2025-01-01",
                              JObj [("morning", JArr []);
                                    ("evening", JArr [])])])]
              [] eq_refl) as [_ Hcut].
  destruct (Hcut eq_refl) as (Hs2 & Hq & _).
  split; [exact (f_equal fst Hs2)|].
  split; [|vm_compute; reflexivity].
  unfold torn. change sample_attendance
    with (JObj [("100", JObj [("2025-01-01",
                               JObj [("morning", JArr []);
                                     ("evening", JArr [])])])]).
  rewrite Hs2. cbn [snd]. rewrite Hq by discriminate. reflexivity.
Defined.

(** X20. A refused write leaves no half-written pair unnoticed: [save_all]
    raises as soon as an open is refused; if it is the first, nothing is
    written at all; if it is the second, the dump of the first having gone
    through, the attendance store holds the new ledger while the salary
    store, like every other path, holds what it held before. *)
Theorem save_all_refused (can_write : fs -> string -> bool)
    (dump_completes : fs -> string -> json -> bool) (st : fs)
    (att sal : json) :
  let st1 := mk_fs (set (nodes st) DATA_FILE (Document (Some att)))
                   (can_rename st) in
  (can_write st DATA_FILE = false ->
   save_all can_write dump_completes att sal st = (Raised OSError, st))
  /\ (can_write st DATA_FILE = true ->
      dump_completes st DATA_FILE att = true ->
      can_write st1 SALARY_FILE = false ->
      save_all can_write dump_completes att sal st = (Raised OSError, st1)
      /\ get (nodes st1) DATA_FILE = Some (Document (Some att))
      /\ forall q, q <> DATA_FILE -> get (nodes st1) q = get (nodes st) q).
Proof.
  intros st1. split.
  - intros H1. unfold save_all, bind, open_and_dump. now rewrite H1.
  - intros H1 D1 H2. split; [|split].
    + unfold save_all, bind, open_and_dump. rewrite H1, D1. fold st1.
      now rewrite H2.
    + apply get_set_eq.
    + intros q Hq. cbn [nodes]. now apply get_set_ne.
Qed.

Lemma save_all_refused_witness :
  let st := mk_fs [("salary_records.json", Document (Some sample_salary))]
                  true in
  let st1 := snd (save_all only_data_writable roomy sample_attendance
                           (JObj []) st) in
  fst (save_all only_data_writable roomy sample_attendance (JObj []) st)
  = Raised OSError
  /\ get (nodes st1) SALARY_FILE = Some (Document (Some sample_salary))
  /\ get (nodes st1) DATA_FILE = Some (Document (Some sample_attendance)).
Proof.
  intros st st1.
  destruct (proj2 (@save_all_refused only_data_writable roomy st
                     sample_attendance (JObj [])) eq_refl eq_refl eq_refl)
    as (Hs & Hd & Hq).
  split; [exact (f_equal fst Hs)|]. split.
  - unfold st1. rewrite Hs. cbn [snd]. rewrite Hq by discriminate. reflexivity.
  - unfold st1. rewrite Hs. exact Hd.
Defined.

End SavingFacts.
